(** * Fiscal-period resolution and metric derivation of the finance-data tools

    A shallow embedding of the two deployments of the finance-data tools:
    the standalone tool server ([mcp-server/server.py], module [Server])
    and the serverless trigger handlers ([src/function_app.py], module
    [FunctionApp]), over a model of the Python values and builtins the
    code uses (module [Py]). *)

From Stdlib Require Import ZArith String Ascii List Bool Lia.
From Stdlib Require Import Floats.SpecFloat.
From stdpp Require Import base gmap strings list pretty.

#[local] Open Scope Z_scope.
#[local] Set Warnings "-register-all".

(** ** Python values, exceptions and builtins *)

Module Py.

(** The values a decoded JSON payload is made of.  A [str] is a sequence
    of ASCII characters ([ascii_string] below): the builtins on strings
    ([upper], [len], slices, [int], [float]) are embedded as they act on
    such strings, and a statement that depends on one of them names the
    strings it reads as ASCII.  A [float] is an IEEE 754 binary64
    number, a [spec_float] in canonical form at precision 53 and maximal
    exponent 1024; a [dict] has string keys (its iteration order is not
    part of the model). *)
Inductive pyval :=
| PyNone
| PyBool (b : bool)
| PyInt (z : Z)
| PyFloat (f : spec_float)
| PyStr (s : string)
| PyList (l : list pyval)
| PyDict (m : gmap string pyval).

(** Exceptions, by class.  A builtin's exception records the operation
    and the offending operand; the transport's [httpx.HTTPError] family
    and every other exception a collaborator raises carry their text. *)
Inductive exn :=
| ValueError (op : string) (arg : pyval)
| TypeError (op : string) (arg : pyval)
| OverflowError (op : string) (arg : pyval)
| AttributeError (obj : pyval) (attr : string)
| HTTPError (msg : string)
| OtherError (cls msg : string).

(** A computation either returns or raises. *)
Inductive res (A : Type) :=
| Ok (a : A)
| Raise (e : exn).
Arguments Ok {A} a.
Arguments Raise {A} e.

#[global] Instance res_ret : MRet res := fun A a => Ok a.

#[global] Instance res_bind : MBind res := fun A B k c =>
  match c with
  | Ok a => k a
  | Raise e => Raise e
  end.

Definition is_httperror (e : exn) : bool :=
  match e with HTTPError _ => true | _ => false end.

(** *** Binary64 arithmetic *)

Definition prec : Z := 53.
Definition emax : Z := 1024.

Definition fzero : spec_float := S754_zero false.
Definition fone : spec_float := binary_normalize prec emax 1 0 false.

(** The binary64 number nearest to [p / q] (ties to even), for [p >= 0]
    and [q > 0], with sign [neg]. *)
Definition float_of_ratio (neg : bool) (p : Z) (q : Z) : spec_float :=
  let '(mz, ez, lz) := SFdiv_core_binary prec emax p 0 q 0 in
  binary_round_aux prec emax neg mz ez lz.

(** The binary64 number nearest to [m * 10 ^ k], for [m >= 0]. *)
Definition float_of_decimal (neg : bool) (m : Z) (k : Z) : spec_float :=
  if m =? 0 then S754_zero neg
  else if 0 <=? k then float_of_ratio neg (m * 10 ^ k) 1
  else float_of_ratio neg m (10 ^ (- k)).

Definition float_of_Z (z : Z) : spec_float :=
  float_of_ratio (z <? 0) (Z.abs z) 1.

Definition is_finite (f : spec_float) : bool :=
  match f with
  | S754_zero _ | S754_finite _ _ _ => true
  | _ => false
  end.

(** [a / b] rounded to the nearest integer, ties to even ([a >= 0], [b > 0]). *)
Definition div_half_even (a b : Z) : Z :=
  let q := a / b in
  let r := a mod b in
  match 2 * r ?= b with
  | Lt => q
  | Gt => q + 1
  | Eq => if Z.even q then q else q + 1
  end.

(** [round(x, ndigits)] on a float, for [0 <= ndigits]: the exact value
    of [x] is rounded to [ndigits] decimals, ties to even, and the
    decimal obtained is converted back to the nearest float; zeros,
    infinities and NaN round to themselves. *)
Definition py_round (x : spec_float) (ndigits : Z) : spec_float :=
  match x with
  | S754_finite s m e =>
      let scaled := Zpos m * 10 ^ ndigits in
      let n := if 0 <=? e then scaled * 2 ^ e
               else div_half_even scaled (2 ^ (- e)) in
      float_of_decimal s n (- ndigits)
  | _ => x
  end.

(** *** Strings *)

(** The characters of [s] are ASCII: their codes are below 128. *)
Definition ascii_string (s : string) : bool :=
  forallb (fun c => (N_of_ascii c <? 128)%N) (list_ascii_of_string s).

Definition is_space (c : ascii) : bool :=
  let n := Z.of_N (N_of_ascii c) in
  ((9 <=? n) && (n <=? 13)) || (n =? 32).

Definition is_digit (c : ascii) : bool :=
  let n := Z.of_N (N_of_ascii c) in
  (48 <=? n) && (n <=? 57).

Definition digit_val (c : ascii) : Z := Z.of_N (N_of_ascii c) - 48.

Definition upper_char (c : ascii) : ascii :=
  let n := N_of_ascii c in
  if ((97 <=? n) && (n <=? 122))%N then ascii_of_N (n - 32) else c.

Definition lower_char (c : ascii) : ascii :=
  let n := N_of_ascii c in
  if ((65 <=? n) && (n <=? 90))%N then ascii_of_N (n + 32) else c.

(** [s.upper()], on an ASCII string. *)
Definition py_upper (s : string) : string :=
  string_of_list_ascii (map upper_char (list_ascii_of_string s)).

Fixpoint drop_spaces (cs : list ascii) : list ascii :=
  match cs with
  | c :: cs' => if is_space c then drop_spaces cs' else cs
  | [] => []
  end.

(** Leading and trailing white space removed, as [int] and [float] do. *)
Definition strip (cs : list ascii) : list ascii :=
  rev (drop_spaces (rev (drop_spaces cs))).

(** A sign, if any, and what follows it. *)
Definition split_sign (cs : list ascii) : bool * list ascii :=
  match cs with
  | "-"%char :: cs' => (true, cs')
  | "+"%char :: cs' => (false, cs')
  | _ => (false, cs)
  end.

(** The longest run of digits at the head of [cs], a single underscore
    being allowed between two digits: the digits read (most significant
    first) and the rest, or [None] at a misplaced underscore. *)
Fixpoint scan_digits (cs : list ascii) (after_digit : bool) (acc : list ascii)
  : option (list ascii * list ascii) :=
  match cs with
  | [] => Some (rev acc, [])
  | c :: cs' =>
      if is_digit c then scan_digits cs' true (c :: acc)
      else if Ascii.eqb c "_" then
        match after_digit, cs' with
        | true, d :: _ => if is_digit d then scan_digits cs' false acc else None
        | _, _ => None
        end
      else Some (rev acc, cs)
  end.

Definition digits_val (ds : list ascii) : Z :=
  fold_left (fun acc d => 10 * acc + digit_val d) ds 0.

(** The interpreter's limit on the number of digits of a string that
    [int] converts ([sys.int_info.default_max_str_digits]). *)
Definition int_max_str_digits : Z := 4300.

(** [int(s)] in base 10 on an ASCII string: [None] stands for
    [ValueError], which a string of more than 4300 digits raises too. *)
Definition parse_int (s : string) : option Z :=
  let '(neg, body) := split_sign (strip (list_ascii_of_string s)) in
  match scan_digits body false [] with
  | Some (d :: ds, []) =>
      if Z.of_nat (length (d :: ds)) <=? int_max_str_digits then
        let n := digits_val (d :: ds) in
        Some (if neg then - n else n)
      else None
  | _ => None
  end.

Definition is_exp_mark (c : ascii) : bool :=
  Ascii.eqb c "e" || Ascii.eqb c "E".

(** The exponent part of a float literal: empty, or [e] or [E], an
    optional sign and at least one digit. *)
Definition parse_exponent (cs : list ascii) : option Z :=
  match cs with
  | [] => Some 0
  | c :: cs' =>
      if is_exp_mark c then
        let '(neg, body) := split_sign cs' in
        match scan_digits body false [] with
        | Some (d :: ds, []) =>
            let n := digits_val (d :: ds) in
            Some (if neg then - n else n)
        | _ => None
        end
      else None
  end.

(** [float(s)] on an ASCII string: [None] stands for [ValueError]. *)
Definition parse_float (s : string) : option spec_float :=
  let '(neg, body) := split_sign (strip (list_ascii_of_string s)) in
  let word := string_of_list_ascii (map lower_char body) in
  if String.eqb word "inf" || String.eqb word "infinity" then
    Some (S754_infinity neg)
  else if String.eqb word "nan" then Some S754_nan
  else
    match scan_digits body false [] with
    | None => None
    | Some (ip, rest) =>
        let frac :=
          match rest with
          | "."%char :: rest' => scan_digits rest' false []
          | _ => Some ([], rest)
          end in
        match frac with
        | None => None
        | Some (fp, rest') =>
            match ip ++ fp with
            | [] => None
            | ds =>
                match parse_exponent rest' with
                | None => None
                | Some ex =>
                    Some (float_of_decimal neg (digits_val ds)
                            (ex - Z.of_nat (length fp)))
                end
            end
        end
    end.

(** *** Dynamic typing *)

(** Truth value of an object, as [if], [not], [and] and [or] test it. *)
Definition truthy (v : pyval) : bool :=
  match v with
  | PyNone => false
  | PyBool b => b
  | PyInt z => negb (z =? 0)
  | PyFloat f => negb (SFeqb f fzero)
  | PyStr s => negb (String.eqb s EmptyString)
  | PyList l => match l with [] => false | _ => true end
  | PyDict m => negb (bool_decide (m = ∅))
  end.

(** [v == s] and [v != s] for a string literal [s]. *)
Definition eq_str (v : pyval) (s : string) : bool :=
  match v with
  | PyStr t => String.eqb t s
  | _ => false
  end.

(** [obj.get(key, default)]: only a [dict] has the method. *)
Definition py_get (obj : pyval) (key : string) (dflt : pyval) : res pyval :=
  match obj with
  | PyDict m => Ok (default dflt (m !! key))
  | _ => Raise (AttributeError obj "get")
  end.

(** [len(v)]; the length of a [str] is that of an ASCII string. *)
Definition py_len (v : pyval) : res Z :=
  match v with
  | PyStr s => Ok (Z.of_nat (String.length s))
  | PyList l => Ok (Z.of_nat (length l))
  | PyDict m => Ok (Z.of_nat (size m))
  | _ => Raise (TypeError "len" v)
  end.

(** [v[lo:hi]] for literal bounds [0 <= lo <= hi]. *)
Definition py_slice (v : pyval) (lo hi : nat) : res pyval :=
  match v with
  | PyStr s => Ok (PyStr (String.substring lo (hi - lo) s))
  | PyList l => Ok (PyList (take (hi - lo) (drop lo l)))
  | _ => Raise (TypeError "slice" v)
  end.

(** What [for x in v] goes through. *)
Definition py_iter (v : pyval) : res (list pyval) :=
  match v with
  | PyList l => Ok l
  | PyStr s => Ok (map (fun c => PyStr (String c EmptyString)) (list_ascii_of_string s))
  | PyDict m => Ok (map (fun kv => PyStr (fst kv)) (map_to_list m))
  | _ => Raise (TypeError "iter" v)
  end.

(** [v[0]] *)
Definition py_first (v : pyval) : res pyval :=
  match v with
  | PyList (x :: _) => Ok x
  | PyList [] => Raise (OtherError "IndexError" "list index out of range")
  | PyStr (String c _) => Ok (PyStr (String c EmptyString))
  | PyStr EmptyString => Raise (OtherError "IndexError" "string index out of range")
  | PyDict _ => Raise (OtherError "KeyError" "0")
  | _ => Raise (TypeError "subscript" v)
  end.

(** The integer part of a finite float, towards zero. *)
Definition trunc_float (s : bool) (m : positive) (e : Z) : Z :=
  let n := if 0 <=? e then Zpos m * 2 ^ e else Zpos m / 2 ^ (- e) in
  if s then - n else n.

(** [int(v)] *)
Definition py_int (v : pyval) : res Z :=
  match v with
  | PyInt z => Ok z
  | PyBool b => Ok (if b then 1 else 0)
  | PyFloat (S754_zero _) => Ok 0
  | PyFloat (S754_finite s m e) => Ok (trunc_float s m e)
  | PyFloat (S754_infinity _) => Raise (OverflowError "int" v)
  | PyFloat S754_nan => Raise (ValueError "int" v)
  | PyStr s =>
      match parse_int s with
      | Some z => Ok z
      | None => Raise (ValueError "int" v)
      end
  | _ => Raise (TypeError "int" v)
  end.

(** An [int] as a [float]: too large an [int] overflows. *)
Definition float_of_int (z : Z) : res spec_float :=
  let f := float_of_Z z in
  if is_finite f then Ok f else Raise (OverflowError "float" (PyInt z)).

(** [float(v)] *)
Definition py_float (v : pyval) : res spec_float :=
  match v with
  | PyFloat f => Ok f
  | PyInt z => float_of_int z
  | PyBool b => Ok (if b then fone else fzero)
  | PyStr s =>
      match parse_float s with
      | Some f => Ok f
      | None => Raise (ValueError "float" v)
      end
  | _ => Raise (TypeError "float" v)
  end.

(** *** Numbers: [int] and [float] *)

Inductive num :=
| NInt (z : Z)
| NFloat (f : spec_float).

Definition of_num (n : num) : pyval :=
  match n with
  | NInt z => PyInt z
  | NFloat f => PyFloat f
  end.

Definition to_float (n : num) : res spec_float :=
  match n with
  | NInt z => float_of_int z
  | NFloat f => Ok f
  end.

(** [abs(n)] *)
Definition py_abs (n : num) : num :=
  match n with
  | NInt z => NInt (Z.abs z)
  | NFloat f => NFloat (SFabs f)
  end.

(** [a - b] *)
Definition py_sub (a b : num) : res num :=
  match a, b with
  | NInt x, NInt y => Ok (NInt (x - y))
  | _, _ =>
      x ← to_float a;
      y ← to_float b;
      Ok (NFloat (SFsub prec emax x y))
  end.

(** [a / d] for a non-zero [int] literal [d]: true division, the result
    is a [float]. *)
Definition py_truediv (a : num) (d : Z) : res spec_float :=
  match a with
  | NInt x =>
      let f := float_of_ratio (xorb (x <? 0) (d <? 0)) (Z.abs x) (Z.abs d) in
      if is_finite f then Ok f else Raise (OverflowError "truediv" (PyInt x))
  | NFloat x =>
      y ← float_of_int d;
      Ok (SFdiv prec emax x y)
  end.

End Py.

(** ** The Report Source collaborator and tool invocations *)

Module Upstream.
Import Py.

(** What a deployment runs against: the API credential of the process
    environment, and what the market-data endpoint answers to a GET for
    (function, symbol, apikey) once the status check and the JSON
    decoding of the response are done: a decoded payload or an
    exception. *)
Record world := {
  api_key : option string;
  http_get : string -> string -> string -> res pyval
}.

(** The requests issued to the endpoint so far: (function, symbol). *)
Definition trace := list (string * string).

(** A tool invocation: it may raise, and it extends the trace. *)
Definition M (A : Type) : Type := trace -> res A * trace.

#[global] Instance M_ret : MRet M := fun A a t => (Ok a, t).

#[global] Instance M_bind : MBind M := fun A B k c t =>
  match c t with
  | (Ok a, t') => k a t'
  | (Raise e, t') => (Raise e, t')
  end.

Definition lift {A} (c : res A) : M A := fun t => (c, t).

(** [try: body except Exception as e: handler e] *)
Definition try_except {A} (body : M A) (handler : exn -> M A) : M A :=
  fun t =>
    match body t with
    | (Ok a, t') => (Ok a, t')
    | (Raise e, t') => handler e t'
    end.

(** One GET to the endpoint. *)
Definition request (w : world) (function symbol key : string) : M pyval :=
  fun t => (http_get w function symbol key, t ++ [(function, symbol)]).

(** A tool run from an empty trace: its outcome and the number of
    requests it issued. *)
Definition run {A} (c : M A) : res A * nat :=
  let '(r, t) := c [] in (r, length t).

(** A dict display. *)
Definition dict (kvs : list (string * pyval)) : pyval :=
  PyDict (list_to_map kvs).

(** [sep.join(l)] *)
Fixpoint join (sep : string) (l : list string) : string :=
  match l with
  | [] => EmptyString
  | [x] => x
  | x :: rest => x +:+ sep +:+ join sep rest
  end.

(** [not v] for a value that may be [None]. *)
Definition falsy (v : option pyval) : bool :=
  match v with
  | None => true
  | Some x => negb (truthy x)
  end.

End Upstream.

(** ** The Metric Extractor

    The statements that derive the figures from the matched report are
    the same in both files: [server.py] lines 143-144 and 226-242,
    [function_app.py] lines 150-151 and 268-285. *)

Module Metric.
Import Py.

(** The value of a metric field: [float(s) if s and s != "None" else 0]. *)
Definition metric_value (field : pyval) : res num :=
  if truthy field && negb (eq_str field "None")
  then f ← py_float field; Ok (NFloat f)
  else Ok (NInt 0).

(** Revenue extraction of [get_company_revenue]: the raw field and the
    revenue in USD millions. *)
Definition extract_revenue (target_period : pyval) : res (pyval * num) :=
  revenue_str ← py_get target_period "totalRevenue" (PyStr "0");
  revenue_millions ←
    (if truthy revenue_str && negb (eq_str revenue_str "None")
     then f ← py_float revenue_str;
          q ← py_truediv (NFloat f) 1000000;
          Ok (NFloat (py_round q 2))
     else Ok (NInt 0));
  Ok (revenue_str, revenue_millions).

(** The three figures of the cash-flow result, in USD millions. *)
Record cash_flow := {
  free_cash_flow_usd_millions : spec_float;
  operating_cash_flow_usd_millions : spec_float;
  capital_expenditures_usd_millions : spec_float
}.

(** Free-cash-flow derivation of [get_company_free_cash_flow]. *)
Definition extract_free_cash_flow (target_period : pyval) : res cash_flow :=
  op_cashflow_str ← py_get target_period "operatingCashflow" (PyStr "0");
  capex_str ← py_get target_period "capitalExpenditures" (PyStr "0");
  op_cashflow ← metric_value op_cashflow_str;
  capex ← metric_value capex_str;
  free_cash_flow ← py_sub op_cashflow (py_abs capex);
  fcf ← py_truediv free_cash_flow 1000000;
  let fcf_millions := py_round fcf 2 in
  op ← py_truediv op_cashflow 1000000;
  cap ← py_truediv (py_abs capex) 1000000;
  Ok {| free_cash_flow_usd_millions := fcf_millions;
        operating_cash_flow_usd_millions := py_round op 2;
        capital_expenditures_usd_millions := py_round cap 2 |}.

End Metric.

(** ** The standalone tool server: [mcp-server/server.py] *)

Module Server.
Import Py Upstream Metric.

Definition VALID_SYMBOLS : list string := ["MSFT"; "TSLA"; "NVDA"]%string.

(** [get_api_key] *)
Definition get_api_key (w : world) : res string :=
  match api_key w with
  | Some k =>
      if String.eqb k EmptyString then
        Raise (OtherError "ValueError"
                 "ALPHAVANTAGE_API_KEY environment variable is required")
      else Ok k
  | None =>
      Raise (OtherError "ValueError"
               "ALPHAVANTAGE_API_KEY environment variable is required")
  end.

(** [map_month_to_quarter] *)
Definition map_month_to_quarter (month : Z) : option Z :=
  if existsb (Z.eqb month) [9; 10] then Some 1
  else if existsb (Z.eqb month) [12; 1] then Some 2
  else if existsb (Z.eqb month) [3; 4] then Some 3
  else if existsb (Z.eqb month) [6; 7] then Some 4
  else None.

(** [fetch_alpha_vantage] *)
Definition fetch_alpha_vantage (w : world) (function symbol : string) : M pyval :=
  key ← lift (get_api_key w);
  request w function symbol key.

(** The [for] loop of [find_quarterly_report]: the record it returns
    from inside the loop, or [None] when the loop runs to its end. *)
Fixpoint scan_reports (reports : list pyval) (fiscal_year fiscal_quarter : Z)
  : res (option pyval) :=
  match reports with
  | [] => Ok None
  | report :: rest =>
      fiscal_date ← py_get report "fiscalDateEnding" (PyStr EmptyString);
      if negb (truthy fiscal_date) then scan_reports rest fiscal_year fiscal_quarter
      else
        n ← py_len fiscal_date;
        if n <? 7 then scan_reports rest fiscal_year fiscal_quarter
        else
          report_year ← py_slice fiscal_date 0 4 ≫= py_int;
          report_month ← py_slice fiscal_date 5 7 ≫= py_int;
          match map_month_to_quarter report_month with
          | Some report_quarter =>
              if truthy (PyInt report_quarter)
                 && (report_year =? fiscal_year)
                 && (report_quarter =? fiscal_quarter)
              then Ok (Some report)
              else scan_reports rest fiscal_year fiscal_quarter
          | None => scan_reports rest fiscal_year fiscal_quarter
          end
  end.

(** [find_quarterly_report] *)
Definition find_quarterly_report (reports : pyval) (fiscal_year fiscal_quarter : Z)
  : res (option pyval) :=
  items ← py_iter reports;
  found ← scan_reports items fiscal_year fiscal_quarter;
  match found with
  | Some report => Ok (Some report)
  | None =>
      if truthy reports then first ← py_first reports; Ok (Some first)
      else Ok None
  end.

(** The error document [{"status": "error", "message": msg}]. *)
Definition error_doc (msg : string) : pyval :=
  dict [("status", PyStr "error"); ("message", PyStr msg)].

Definition invalid_symbol_doc : pyval :=
  error_doc ("Invalid company symbol. Supported: " +:+ join ", " VALID_SYMBOLS).

Definition invalid_quarter_doc : pyval :=
  error_doc "Fiscal quarter must be 1, 2, 3, or 4".

Definition no_period_doc (symbol : string) (fiscal_year fiscal_quarter : Z) : pyval :=
  error_doc ("No data found for " +:+ symbol +:+ " FY" +:+ pretty fiscal_year
             +:+ " Q" +:+ pretty fiscal_quarter).

(** The success path of [get_company_revenue] once the report is
    matched: extraction and the result document. *)
Definition revenue_result (symbol : string) (fiscal_year fiscal_quarter : Z)
    (target_period : pyval) : res pyval :=
  '(_, revenue_millions) ← extract_revenue target_period;
  fiscal_date_ending ← py_get target_period "fiscalDateEnding" PyNone;
  Ok (dict [("company", PyStr symbol);
            ("fiscal_year", PyInt fiscal_year);
            ("fiscal_quarter", PyInt fiscal_quarter);
            ("fiscal_date_ending", fiscal_date_ending);
            ("total_revenue_usd_millions", of_num revenue_millions);
            ("currency", PyStr "USD");
            ("data_source", PyStr "Alpha Vantage")]).

(** The success path of [get_company_free_cash_flow] once the report is
    matched. *)
Definition free_cash_flow_result (symbol : string) (fiscal_year fiscal_quarter : Z)
    (target_period : pyval) : res pyval :=
  cf ← extract_free_cash_flow target_period;
  fiscal_date_ending ← py_get target_period "fiscalDateEnding" PyNone;
  Ok (dict [("company", PyStr symbol);
            ("fiscal_year", PyInt fiscal_year);
            ("fiscal_quarter", PyInt fiscal_quarter);
            ("fiscal_date_ending", fiscal_date_ending);
            ("free_cash_flow_usd_millions", PyFloat (free_cash_flow_usd_millions cf));
            ("operating_cash_flow_usd_millions",
             PyFloat (operating_cash_flow_usd_millions cf));
            ("capital_expenditures_usd_millions",
             PyFloat (capital_expenditures_usd_millions cf));
            ("currency", PyStr "USD");
            ("data_source", PyStr "Alpha Vantage");
            ("calculation", PyStr "Operating Cash Flow - Capital Expenditures")]).

Section Tools.

(** [str(e)], the text of an exception. *)
Variable str_exn : exn -> string.

(** The document of the two [except] clauses of a tool. *)
Definition exception_doc (e : exn) : pyval :=
  if is_httperror e then error_doc ("HTTP error: " +:+ str_exn e)
  else error_doc (str_exn e).

Definition on_exception (e : exn) : M pyval := mret (exception_doc e).

(** The tool [get_company_revenue].  The document returned stands for
    its [json.dumps] text; logging is left out. *)
Definition get_company_revenue (w : world) (company_symbol : string)
    (fiscal_year fiscal_quarter : Z) : M pyval :=
  let symbol := py_upper company_symbol in
  if negb (existsb (String.eqb symbol) VALID_SYMBOLS) then mret invalid_symbol_doc
  else if negb (existsb (Z.eqb fiscal_quarter) [1; 2; 3; 4]) then mret invalid_quarter_doc
  else
    try_except
      (data ← fetch_alpha_vantage w "INCOME_STATEMENT" symbol;
       quarterly_reports ← lift (py_get data "quarterlyReports" (PyList []));
       if negb (truthy quarterly_reports) then
         mret (error_doc "No quarterly data available")
       else
         target ← lift (find_quarterly_report quarterly_reports fiscal_year fiscal_quarter);
         match target with
         | Some target_period =>
             if negb (truthy target_period) then
               mret (no_period_doc symbol fiscal_year fiscal_quarter)
             else
               lift (revenue_result symbol fiscal_year fiscal_quarter target_period)
         | None => mret (no_period_doc symbol fiscal_year fiscal_quarter)
         end)
      on_exception.

(** The tool [get_company_free_cash_flow]. *)
Definition get_company_free_cash_flow (w : world) (company_symbol : string)
    (fiscal_year fiscal_quarter : Z) : M pyval :=
  let symbol := py_upper company_symbol in
  if negb (existsb (String.eqb symbol) VALID_SYMBOLS) then mret invalid_symbol_doc
  else if negb (existsb (Z.eqb fiscal_quarter) [1; 2; 3; 4]) then mret invalid_quarter_doc
  else
    try_except
      (data ← fetch_alpha_vantage w "CASH_FLOW" symbol;
       quarterly_reports ← lift (py_get data "quarterlyReports" (PyList []));
       if negb (truthy quarterly_reports) then
         mret (error_doc "No quarterly cash flow data available")
       else
         target ← lift (find_quarterly_report quarterly_reports fiscal_year fiscal_quarter);
         match target with
         | Some target_period =>
             if negb (truthy target_period) then
               mret (no_period_doc symbol fiscal_year fiscal_quarter)
             else
               lift (free_cash_flow_result symbol fiscal_year fiscal_quarter target_period)
         | None => mret (no_period_doc symbol fiscal_year fiscal_quarter)
         end)
      on_exception.

End Tools.

End Server.

(** ** The serverless trigger handlers: [src/function_app.py] *)

Module FunctionApp.
Import Py Upstream Metric.

Definition valid_symbols : list string := ["MSFT"; "TSLA"; "NVDA"]%string.

(** The class [ToolProperty] and its method [to_dict]. *)
Record ToolProperty := {
  propertyName : string;
  propertyType : string;
  description : string
}.

Definition to_dict (p : ToolProperty) : pyval :=
  dict [("propertyName", PyStr (propertyName p));
        ("propertyType", PyStr (propertyType p));
        ("description", PyStr (description p))].

(** The properties the two tools declare to the trigger. *)
Definition tool_properties_company_revenue : list ToolProperty :=
  [ {| propertyName := "company_symbol"; propertyType := "string";
       description := "Company ticker symbol (MSFT, TSLA, or NVDA)" |};
    {| propertyName := "fiscal_year"; propertyType := "number";
       description := "Fiscal year (e.g., 2024)" |};
    {| propertyName := "fiscal_quarter"; propertyType := "number";
       description := "Fiscal quarter (1, 2, 3, or 4)" |} ].

Definition tool_properties_company_fcf : list ToolProperty :=
  [ {| propertyName := "company_symbol"; propertyType := "string";
       description := "Company ticker symbol (MSFT, TSLA, or NVDA)" |};
    {| propertyName := "fiscal_year"; propertyType := "number";
       description := "Fiscal year (e.g., 2024)" |};
    {| propertyName := "fiscal_quarter"; propertyType := "number";
       description := "Fiscal quarter (1, 2, 3, or 4)" |} ].

(** The value whose [json.dumps] text is handed to the trigger. *)
Definition tool_properties_company_revenue_json : pyval :=
  PyList (map to_dict tool_properties_company_revenue).

Definition tool_properties_company_fcf_json : pyval :=
  PyList (map to_dict tool_properties_company_fcf).

(** [_get_env] *)
Definition _get_env (w : world) (name : string) : res string :=
  match api_key w with
  | Some k =>
      if String.eqb k EmptyString then
        Raise (OtherError "RuntimeError"
                 ("Missing required environment variable: " +:+ name))
      else Ok k
  | None =>
      Raise (OtherError "RuntimeError"
               ("Missing required environment variable: " +:+ name))
  end.

(** [v.upper()]: a method of [str]. *)
Definition upper_method (v : pyval) : res string :=
  match v with
  | PyStr s => Ok (py_upper s)
  | _ => Raise (AttributeError v "upper")
  end.

(** The [if]/[elif] chain in the loop body that maps the month of a
    report to a quarter, given the requested quarter; [None] is the
    [else: continue] branch. *)
Definition month_quarter (fiscal_quarter report_month : Z) : option Z :=
  if (fiscal_quarter =? 1) && existsb (Z.eqb report_month) [9; 10] then Some 1
  else if (fiscal_quarter =? 2) && existsb (Z.eqb report_month) [12; 1] then Some 2
  else if (fiscal_quarter =? 3) && existsb (Z.eqb report_month) [3; 4] then Some 3
  else if (fiscal_quarter =? 4) && existsb (Z.eqb report_month) [6; 7] then Some 4
  else None.

(** The [for] loop over the quarterly reports, the same in both
    handlers: the value of [target_period] when the loop is left. *)
Fixpoint scan_reports (reports : list pyval) (fiscal_year fiscal_quarter : Z)
  : res (option pyval) :=
  match reports with
  | [] => Ok None
  | report :: rest =>
      fiscal_date ← py_get report "fiscalDateEnding" (PyStr EmptyString);
      report_year ← py_slice fiscal_date 0 4 ≫= py_int;
      report_month ← py_slice fiscal_date 5 7 ≫= py_int;
      match month_quarter fiscal_quarter report_month with
      | Some report_quarter =>
          if (report_year =? fiscal_year) && (report_quarter =? fiscal_quarter)
          then Ok (Some report)
          else scan_reports rest fiscal_year fiscal_quarter
      | None => scan_reports rest fiscal_year fiscal_quarter
      end
  end.

(** The loop and the fallback that follows it: the record the handler
    goes on with, or [None] where it returns its no-data document. *)
Definition select_report (quarterly_reports : pyval) (fiscal_year fiscal_quarter : Z)
  : res (option pyval) :=
  items ← py_iter quarterly_reports;
  target_period ← scan_reports items fiscal_year fiscal_quarter;
  if falsy target_period then
    if truthy quarterly_reports then
      first ← py_first quarterly_reports;
      _ ← py_get first "fiscalDateEnding" PyNone;
      Ok (Some first)
    else Ok None
  else Ok target_period.

(** The error document of the [except] clause. *)
Definition error_doc (msg : string) : pyval :=
  dict [("status", PyStr "error"); ("message", PyStr msg);
        ("note", PyStr "Make sure ALPHAVANTAGE_API_KEY is configured in your .env file")].

(** The error document of the validation and no-data returns. *)
Definition plain_error_doc (msg : string) : pyval :=
  dict [("status", PyStr "error"); ("message", PyStr msg)].

Definition invalid_symbol_doc : pyval :=
  plain_error_doc ("Invalid company symbol. Supported: " +:+ join ", " valid_symbols).

Definition invalid_quarter_doc : pyval :=
  plain_error_doc "Fiscal quarter must be 1, 2, 3, or 4".

(** The success path of [get_company_revenue] once the report is
    selected: extraction and the result document, which also carries
    the raw field. *)
Definition revenue_result (symbol : string) (fiscal_year fiscal_quarter : Z)
    (target_period : pyval) : res pyval :=
  '(revenue_str, revenue_millions) ← extract_revenue target_period;
  fiscal_date_ending ← py_get target_period "fiscalDateEnding" PyNone;
  Ok (dict [("company", PyStr symbol);
            ("fiscal_year", PyInt fiscal_year);
            ("fiscal_quarter", PyInt fiscal_quarter);
            ("fiscal_date_ending", fiscal_date_ending);
            ("total_revenue_usd_millions", of_num revenue_millions);
            ("currency", PyStr "USD");
            ("data_source", PyStr "Alpha Vantage");
            ("raw_revenue", revenue_str)]).

(** The success path of [get_company_free_cash_flow]: its statements
    and its document are those of the standalone server. *)
Definition free_cash_flow_result := Server.free_cash_flow_result.

Section Handlers.

(** [str(e)], the text of an exception, and [json.loads]. *)
Variable str_exn : exn -> string.
Variable json_loads : string -> res pyval.

(** The document of the [except] clause of a handler. *)
Definition exception_doc (e : exn) : pyval := error_doc (str_exn e).

Definition on_exception (e : exn) : M pyval := mret (exception_doc e).

(** The head of both handlers: the trigger context decoded into
    (symbol, fiscal_year, fiscal_quarter). *)
Definition read_arguments (context : pyval) : res (string * Z * Z) :=
  content ← match context with
            | PyStr s => json_loads s
            | _ => Ok context
            end;
  args ← py_get content "arguments" (PyDict ∅);
  symbol ← py_get args "company_symbol" (PyStr "MSFT") ≫= upper_method;
  fiscal_year ← py_get args "fiscal_year" (PyInt 2024) ≫= py_int;
  fiscal_quarter ← py_get args "fiscal_quarter" (PyInt 4) ≫= py_int;
  Ok (symbol, fiscal_year, fiscal_quarter).

(** The handler [get_company_revenue].  The document returned stands
    for its [json.dumps] text; logging and [_load_env] are left out. *)
Definition get_company_revenue (w : world) (context : pyval) : M pyval :=
  '(symbol, fiscal_year, fiscal_quarter) ← lift (read_arguments context);
  if negb (existsb (String.eqb symbol) valid_symbols) then mret invalid_symbol_doc
  else if negb (existsb (Z.eqb fiscal_quarter) [1; 2; 3; 4]) then mret invalid_quarter_doc
  else
    try_except
      (api_key ← lift (_get_env w "ALPHAVANTAGE_API_KEY");
       data ← request w "INCOME_STATEMENT" symbol api_key;
       quarterly_reports ← lift (py_get data "quarterlyReports" (PyList []));
       target ← lift (select_report quarterly_reports fiscal_year fiscal_quarter);
       match target with
       | None => mret (plain_error_doc "No quarterly data available")
       | Some target_period =>
           lift (revenue_result symbol fiscal_year fiscal_quarter target_period)
       end)
      on_exception.

(** The handler [get_company_free_cash_flow]. *)
Definition get_company_free_cash_flow (w : world) (context : pyval) : M pyval :=
  '(symbol, fiscal_year, fiscal_quarter) ← lift (read_arguments context);
  if negb (existsb (String.eqb symbol) valid_symbols) then mret invalid_symbol_doc
  else if negb (existsb (Z.eqb fiscal_quarter) [1; 2; 3; 4]) then mret invalid_quarter_doc
  else
    try_except
      (api_key ← lift (_get_env w "ALPHAVANTAGE_API_KEY");
       data ← request w "CASH_FLOW" symbol api_key;
       quarterly_reports ← lift (py_get data "quarterlyReports" (PyList []));
       target ← lift (select_report quarterly_reports fiscal_year fiscal_quarter);
       match target with
       | None => mret (plain_error_doc "No quarterly cash flow data available")
       | Some target_period =>
           lift (free_cash_flow_result symbol fiscal_year fiscal_quarter target_period)
       end)
      on_exception.

End Handlers.

End FunctionApp.

(** ** The statements of the specification *)

Module Spec.
Import Py Upstream Metric.

(** The mapping table of the Quarter Mapper, as the specification
    gives it. *)
Definition quarter_table (month : Z) : option Z :=
  match month with
  | 9 | 10 => Some 1
  | 12 | 1 => Some 2
  | 3 | 4 => Some 3
  | 6 | 7 => Some 4
  | _ => None
  end.

(** The fiscal period a period-end date stands for: the year parsed
    from its first four characters, the quarter mapped from the month
    parsed at positions 5:7. *)
Definition period_of (date : string) : option (Z * Z) :=
  year ← parse_int (String.substring 0 4 date);
  month ← parse_int (String.substring 5 2 date);
  quarter ← Server.map_month_to_quarter month;
  Some (year, quarter).

(** The period-end date of a record, when it is a string. *)
Definition date_of (report : pyval) : option string :=
  match report with
  | PyDict m =>
      match m !! "fiscalDateEnding" with
      | Some (PyStr date) => Some date
      | _ => None
      end
  | _ => None
  end.

(** A record matches the requested period by its year and month
    characters alone. *)
Definition dated_match (fiscal_year fiscal_quarter : Z) (report : pyval) : bool :=
  match date_of report with
  | Some date => bool_decide (period_of date = Some (fiscal_year, fiscal_quarter))
  | None => false
  end.

(** A record matches and its date has at least 7 characters. *)
Definition exact_match (fiscal_year fiscal_quarter : Z) (report : pyval) : bool :=
  match date_of report with
  | Some date =>
      (7 <=? Z.of_nat (String.length date))
      && bool_decide (period_of date = Some (fiscal_year, fiscal_quarter))
  | None => false
  end.

(** The first record that satisfies [matches], the first record of the
    list if there is none. *)
Definition first_or_head (matches : pyval -> bool) (reports : list pyval)
  : option pyval :=
  match List.find matches reports with
  | Some report => Some report
  | None => head reports
  end.

(** The period-end date of a record is absent or has fewer than 7
    characters. *)
Definition short_dated (report : pyval) : Prop :=
  exists m, report = PyDict m /\
    (m !! "fiscalDateEnding" = None \/
     exists date, m !! "fiscalDateEnding" = Some (PyStr date) /\
                  (String.length date < 7)%nat).

(** A record the scan of the standalone server goes through without an
    exception: a dict whose date is absent or a string, with integer
    year and month parts when the string has 7 characters or more. *)
Definition well_dated (report : pyval) : Prop :=
  exists m, report = PyDict m /\
    (m !! "fiscalDateEnding" = None \/
     exists date, m !! "fiscalDateEnding" = Some (PyStr date) /\
       ((String.length date < 7)%nat \/
        (is_Some (parse_int (String.substring 0 4 date)) /\
         is_Some (parse_int (String.substring 5 2 date))))).

(** The number the specification reads in a metric field: zero when the
    field is absent or holds the literal string "None", the number its
    decimal string stands for otherwise. *)
Definition field_value (field : option pyval) : option spec_float :=
  match field with
  | None => Some fzero
  | Some (PyStr s) => if String.eqb s "None" then Some fzero else parse_float s
  | Some _ => None
  end.

(** A metric field is absent or holds the literal string "None". *)
Definition absent_or_none (field : option pyval) : Prop :=
  field = None \/ field = Some (PyStr "None").

Definition million : spec_float := float_of_Z 1000000.

(** A figure divided by 1,000,000 and rounded to 2 decimal places. *)
Definition in_millions (x : spec_float) : spec_float :=
  py_round (SFdiv prec emax x million) 2.

(** [n] is the integer nearest to [num / den], for [den > 0]; of the two
    integers at the same distance it is the even one. *)
Definition nearest_integer (num den n : Z) : Prop :=
  2 * Z.abs (num - n * den) <= den /\
  (2 * Z.abs (num - n * den) = den -> Z.even n = true).

(** [r] is [x] rounded to 2 decimal places: for a finite [x], of
    magnitude [m * 2 ^ e], the float nearest to [n / 100] with the sign
    of [x], where [n] is the integer nearest to [100 * m * 2 ^ e]; a
    zero, an infinity or NaN is left as it is. *)
Definition rounded_to_2_decimals (x r : spec_float) : Prop :=
  match x with
  | S754_finite s m e =>
      exists n,
        nearest_integer (100 * Z.pos m * 2 ^ Z.max e 0) (2 ^ Z.max (- e) 0) n /\
        r = float_of_decimal s n (-2)
  | _ => r = x
  end.

(** The three figures of the cash-flow result, from the operating cash
    flow and the capital expenditures. *)
Definition cash_flow_of (operating_cash_flow capital_expenditures : spec_float)
  : cash_flow :=
  {| free_cash_flow_usd_millions :=
       in_millions (SFsub prec emax operating_cash_flow (SFabs capital_expenditures));
     operating_cash_flow_usd_millions := in_millions operating_cash_flow;
     capital_expenditures_usd_millions := in_millions (SFabs capital_expenditures) |}.

(** A Python number [n] is the float [x]; the [int] 0 is the float 0.0. *)
Definition num_is (n : num) (x : spec_float) : Prop :=
  n = NFloat x \/ (n = NInt 0 /\ x = fzero).

(** The Report Source answers the request for ([function], [symbol])
    with a payload whose quarterly reports are the list [reports]. *)
Definition upstream_reports (w : world) (function symbol : string)
    (reports : list pyval) : Prop :=
  exists key data,
    api_key w = Some key /\ key <> EmptyString /\
    http_get w function symbol key = Ok data /\
    py_get data "quarterlyReports" (PyList []) = Ok (PyList reports).

(** Two dicts hold the same value under every key other than [key]. *)
Definition same_but (key : string) (a b : pyval) : Prop :=
  exists ma mb, a = PyDict ma /\ b = PyDict mb /\
    forall k, k <> key -> ma !! k = mb !! k.

(** The fields of a revenue result document, without [raw_revenue]. *)
Definition revenue_fields : gset string :=
  {[ "company"; "fiscal_year"; "fiscal_quarter"; "fiscal_date_ending";
     "total_revenue_usd_millions"; "currency"; "data_source" ]}%string.

(** A result document with the fields [fields] and no other, which
    carries the requested period and the date of the record it was
    derived from. *)
Definition plain_result (fields : gset string) (fiscal_year fiscal_quarter : Z)
    (target_period doc : pyval) : Prop :=
  exists m, doc = PyDict m /\
    dom m = fields /\
    m !! "fiscal_year" = Some (PyInt fiscal_year) /\
    m !! "fiscal_quarter" = Some (PyInt fiscal_quarter) /\
    exists date, py_get target_period "fiscalDateEnding" PyNone = Ok date /\
                 m !! "fiscal_date_ending" = Some date.

(** The period-end date of a record is a string of 7 characters or
    more. *)
Definition full_dated (report : pyval) : Prop :=
  exists m date, report = PyDict m /\
    m !! "fiscalDateEnding" = Some (PyStr date) /\
    (7 <= String.length date)%nat.

End Spec.

(** ** Statements about the behaviour of the tools *)

Module Behaviour.
Import Py Upstream Metric.

(** The requests a tool issues when it is run from an empty trace. *)
Definition requests {A} (c : M A) : trace := snd (c []).

(** The sign bit of a float; NaN has none. *)
Definition sign_bit (f : spec_float) : bool :=
  match f with
  | S754_zero s | S754_infinity s | S754_finite s _ _ => s
  | S754_nan => false
  end.

(** A document that reports an error: its status is "error" and it
    carries a message. *)
Definition error_document (doc : pyval) : Prop :=
  exists m msg, doc = PyDict m /\
    m !! "status" = Some (PyStr "error") /\
    m !! "message" = Some (PyStr msg).

(** A document with the fields [fields] and no other. *)
Definition result_document (fields : gset string) (doc : pyval) : Prop :=
  exists m, doc = PyDict m /\ dom m = fields.

(** The fields of a cash-flow result document. *)
Definition cash_flow_fields : gset string :=
  {[ "company"; "fiscal_year"; "fiscal_quarter"; "fiscal_date_ending";
     "free_cash_flow_usd_millions"; "operating_cash_flow_usd_millions";
     "capital_expenditures_usd_millions"; "currency"; "data_source";
     "calculation" ]}%string.

(** The credential is set and the Report Source answers the request for
    ([function], [symbol]) with [answer]. *)
Definition upstream_answer (w : world) (function symbol : string)
    (answer : res pyval) : Prop :=
  exists key,
    api_key w = Some key /\ key <> EmptyString /\
    http_get w function symbol key = answer.

(** A payload without quarterly reports: a dict whose [quarterlyReports]
    is absent or the empty list. *)
Definition no_reports (data : pyval) : Prop :=
  exists m, data = PyDict m /\
    (m !! "quarterlyReports" = None \/
     m !! "quarterlyReports" = Some (PyList [])).

(** The document a tool of the standalone server makes of an outcome of
    the body of its [try] block. *)
Definition server_document (str_exn : exn -> string) (outcome : res pyval) : pyval :=
  match outcome with
  | Ok doc => doc
  | Raise e => Server.exception_doc str_exn e
  end.

(** The document a serverless handler makes of it. *)
Definition serverless_document (str_exn : exn -> string) (outcome : res pyval)
  : pyval :=
  match outcome with
  | Ok doc => doc
  | Raise e => FunctionApp.exception_doc str_exn e
  end.

(** The strings a record holds in its fields are ASCII strings. *)
Definition ascii_value (v : pyval) : bool :=
  match v with
  | PyStr s => ascii_string s
  | _ => true
  end.

Definition ascii_record (report : pyval) : bool :=
  match report with
  | PyDict m => forallb (fun kv => ascii_value (snd kv)) (map_to_list m)
  | _ => true
  end.

(** A record the loop of the serverless handlers goes through without
    an exception: a dict whose date is a string with integer year and
    month parts. *)
Definition parsable_dated (report : pyval) : Prop :=
  exists m date, report = PyDict m /\
    m !! "fiscalDateEnding" = Some (PyStr date) /\
    is_Some (parse_int (String.substring 0 4 date)) /\
    is_Some (parse_int (String.substring 5 2 date)).

(** The outcomes of the two deployments are alike: the same exception,
    or the same document, or the document of the serverless handler is
    that of the standalone server with a [raw_revenue] field added. *)
Definition alike (server serverless : res pyval) : Prop :=
  match server, serverless with
  | Raise e, Raise e' => e = e'
  | Ok doc, Ok doc' =>
      doc' = doc \/
      exists m raw, doc = PyDict m /\ m !! "raw_revenue" = None /\
                    doc' = PyDict (<["raw_revenue" := raw]> m)
  | _, _ => False
  end.

End Behaviour.

(** ** Sample data *)

Module Sample.
Import Py Upstream.

Definition june_2023 : pyval :=
  dict [("fiscalDateEnding", PyStr "2023-06-30"); ("totalRevenue", PyStr "56189000000")].

Definition sept_2024_short : pyval :=
  dict [("fiscalDateEnding", PyStr "2024-9"); ("totalRevenue", PyStr "65585000000")].

Definition undated : pyval :=
  dict [("totalRevenue", PyStr "61858000000")].

Definition june_2024 : pyval :=
  dict [("fiscalDateEnding", PyStr "2024-06-30"); ("totalRevenue", PyStr "64727000000")].

Definition cash_flow_report : pyval :=
  dict [("fiscalDateEnding", PyStr "2024-06-30");
        ("operatingCashflow", PyStr "500000000");
        ("capitalExpenditures", PyStr "-100000000")].

Definition revenue_report : pyval :=
  dict [("fiscalDateEnding", PyStr "2024-06-30"); ("totalRevenue", PyStr "123000000")].



(** A rendering of [str(e)]. *)
Definition exception_text (e : exn) : string :=
  match e with
  | HTTPError msg | OtherError _ msg => msg
  | ValueError op _ => "invalid literal for " +:+ op
  | TypeError op _ => "bad operand type for " +:+ op
  | OverflowError op _ => "overflow in " +:+ op
  | AttributeError _ attr => "object has no attribute " +:+ attr
  end.

(** A Report Source that holds the single report of June 2024. *)
Definition june_2024_source : world :=
  {| api_key := Some "demo"%string;
     http_get := fun _ _ _ => Ok (dict [("quarterlyReports", PyList [june_2024])]) |}.

(** A Report Source that holds the single cash-flow report of June
    2024. *)
Definition cash_flow_source : world :=
  {| api_key := Some "demo"%string;
     http_get := fun _ _ _ => Ok (dict [("quarterlyReports", PyList [cash_flow_report])]) |}.

(** A trigger context whose fiscal_year is not a number. *)
Definition malformed_context : pyval :=
  dict [("arguments",
         dict [("company_symbol", PyStr "MSFT"); ("fiscal_year", PyStr "twenty")])].

(** A trigger context whose fiscal_year is a number too large for a
    float, which [json.loads] reads as infinity. *)
Definition overflow_context : pyval :=
  dict [("arguments",
         dict [("company_symbol", PyStr "MSFT");
               ("fiscal_year", PyFloat (S754_infinity false))])].

(** A process environment whose credential is set to the empty string. *)
Definition unset_credential : world :=
  {| api_key := Some EmptyString; http_get := fun _ _ _ => Ok PyNone |}.

(** A Report Source that is not available. *)
Definition unavailable_source : world :=
  {| api_key := Some "demo"%string;
     http_get := fun _ _ _ => Raise (HTTPError "503 Service Unavailable") |}.

(** A Report Source that answers with a notice instead of data. *)
Definition notice_source : world :=
  {| api_key := Some "demo"%string;
     http_get := fun _ _ _ =>
       Ok (dict [("Information", PyStr "rate limit reached")]) |}.

(** A Report Source whose single report is an empty record. *)
Definition empty_record_source : world :=
  {| api_key := Some "demo"%string;
     http_get := fun _ _ _ => Ok (dict [("quarterlyReports", PyList [dict []])]) |}.

(** A cash-flow report whose figures in millions are not whole. *)
Definition fractional_cash_flow_report : pyval :=
  dict [("fiscalDateEnding", PyStr "2024-06-30");
        ("operatingCashflow", PyStr "2675000");
        ("capitalExpenditures", PyStr "-125000")].

(** The floats 2.55, 2.67 and 0.12, by mantissa and exponent. *)
Definition float_2_55 : spec_float := S754_finite false 5742089524897382 (-51).
Definition float_2_67 : spec_float := S754_finite false 6012305502539612 (-51).
Definition float_0_12 : spec_float := S754_finite false 8646911284551352 (-56).

(** A cash-flow report without capital expenditures. *)
Definition no_capex_report : pyval :=
  dict [("fiscalDateEnding", PyStr "2024-06-30");
        ("operatingCashflow", PyStr "500000000")].


(** The date of a record, for telling two records apart. *)
Definition date_field (r : res (option pyval)) : option pyval :=
  match r with
  | Ok (Some (PyDict m)) => m !! "fiscalDateEnding"
  | _ => None
  end.

End Sample.

Import Py Upstream Metric.

(** Unfolding a tool run down to the case analysis of its steps. *)
Ltac run_tool :=
  unfold run, try_except, request, lift;
  unfold mbind, M_bind, mret, M_ret; cbn beta iota.

Ltac run_step := cbn beta iota; try reflexivity.

(** ** The Quarter Mapper *)

Lemma map_month_to_quarter_spec (month : Z) :
  Server.map_month_to_quarter month = Spec.quarter_table month.
Proof.
  unfold Server.map_month_to_quarter, Spec.quarter_table.
  destruct month as [|p|p]; try reflexivity.
  do 4 (destruct p as [p|p|]; try reflexivity).
Qed.

Lemma map_month_to_quarter_range (month q : Z) :
  Server.map_month_to_quarter month = Some q -> 1 <= q <= 4.
Proof.
  unfold Server.map_month_to_quarter.
  repeat (match goal with |- context [if ?b then _ else _] => destruct b end);
    intros [= <-]; lia.
Qed.

(** The month test of the serverless loop selects a record exactly when
    the Quarter Mapper sends its month to the requested quarter. *)
Lemma month_quarter_spec (fiscal_quarter month q : Z) :
  FunctionApp.month_quarter fiscal_quarter month = Some q <->
  q = fiscal_quarter /\ Server.map_month_to_quarter month = Some fiscal_quarter.
Proof.
  rewrite map_month_to_quarter_spec.
  unfold FunctionApp.month_quarter, Spec.quarter_table.
  destruct (Z.eqb_spec fiscal_quarter 1) as [->|N1];
    [|destruct (Z.eqb_spec fiscal_quarter 2) as [->|N2];
      [|destruct (Z.eqb_spec fiscal_quarter 3) as [->|N3];
        [|destruct (Z.eqb_spec fiscal_quarter 4) as [->|N4]]]];
    (destruct month as [|p|p];
     [| do 4 (try destruct p as [p|p|]) |]);
    cbn; (split; [intros E | intros [-> E]]);
    try discriminate E; try (injection E as E); subst; try done; try lia.
Qed.

(** C4: for every month in 1..12 the Quarter Mapper returns 1 for
    months 9 and 10, 2 for months 12 and 1, 3 for months 3 and 4, 4 for
    months 6 and 7, and none for months 2, 5, 8 and 11; the month test
    inlined in the serverless loop agrees with it. *)
Theorem quarter_mapper_table (month : Z) :
  1 <= month <= 12 ->
  (month = 9 \/ month = 10 -> Server.map_month_to_quarter month = Some 1) /\
  (month = 12 \/ month = 1 -> Server.map_month_to_quarter month = Some 2) /\
  (month = 3 \/ month = 4 -> Server.map_month_to_quarter month = Some 3) /\
  (month = 6 \/ month = 7 -> Server.map_month_to_quarter month = Some 4) /\
  (month = 2 \/ month = 5 \/ month = 8 \/ month = 11 ->
   Server.map_month_to_quarter month = None) /\
  (forall fiscal_quarter q,
     FunctionApp.month_quarter fiscal_quarter month = Some q <->
     q = fiscal_quarter /\ Server.map_month_to_quarter month = Some fiscal_quarter).
Proof.
  intros Hm.
  split; [|split; [|split; [|split; [|split]]]];
    try (intros H; rewrite map_month_to_quarter_spec;
         repeat destruct H as [H|H]; subst month; reflexivity).
  intros fiscal_quarter q. apply month_quarter_spec.
Qed.

Lemma quarter_mapper_table_witness :
  Server.map_month_to_quarter 9 = Some 1.
Proof.
  destruct (quarter_mapper_table 9 ltac:(lia)) as [H _].
  apply H. left. reflexivity.
Defined.

(** ** The Report Matcher of the standalone server *)

(** What one turn of the loop does with a record whose date is a
    string of 7 characters or more. *)
Lemma server_scan_dated (m : gmap string pyval) (date : string)
    (rest : list pyval) (fy fq : Z) :
  m !! "fiscalDateEnding" = Some (PyStr date) ->
  (7 <= String.length date)%nat ->
  Server.scan_reports (PyDict m :: rest) fy fq =
    match parse_int (String.substring 0 4 date),
          parse_int (String.substring 5 2 date) with
    | Some _, Some _ =>
        if bool_decide (Spec.period_of date = Some (fy, fq))
        then Ok (Some (PyDict m))
        else Server.scan_reports rest fy fq
    | None, _ => Raise (ValueError "int" (PyStr (String.substring 0 4 date)))
    | Some _, None => Raise (ValueError "int" (PyStr (String.substring 5 2 date)))
    end.
Proof.
  intros Hd Hlen. simpl. rewrite Hd. simpl.
  destruct date as [|c date]; [simpl in Hlen; lia|].
  cbn [truthy String.eqb negb].
  destruct (Z.ltb_spec (Z.of_nat (String.length (String c date))) 7) as [Hlt|_];
    [lia|].
  unfold Spec.period_of.
  destruct (parse_int (substring 0 4 (String c date))) as [y|]; [|reflexivity].
  destruct (parse_int (substring 5 2 (String c date))) as [mo|]; [|reflexivity].
  cbn [mbind res_bind option_bind].
  destruct (Server.map_month_to_quarter mo) as [q|] eqn:Hq; cbn.
  - pose proof (map_month_to_quarter_range _ _ Hq) as Hr.
    destruct (Z.eqb_spec q 0); [lia|]. cbn.
    destruct (Z.eqb_spec y fy) as [->|Hy], (Z.eqb_spec q fq) as [->|Hq'];
      cbn; case_bool_decide as Hb; try reflexivity; try congruence.
  - case_bool_decide; [congruence|reflexivity].
Qed.

(** A record without a date is passed over. *)
Lemma server_scan_undated (m : gmap string pyval) (rest : list pyval) (fy fq : Z) :
  m !! "fiscalDateEnding" = None ->
  Server.scan_reports (PyDict m :: rest) fy fq = Server.scan_reports rest fy fq.
Proof. intros Hd. simpl. rewrite Hd. reflexivity. Qed.

(** A record whose date has fewer than 7 characters is passed over. *)
Lemma server_scan_short (m : gmap string pyval) (date : string)
    (rest : list pyval) (fy fq : Z) :
  m !! "fiscalDateEnding" = Some (PyStr date) ->
  (String.length date < 7)%nat ->
  Server.scan_reports (PyDict m :: rest) fy fq = Server.scan_reports rest fy fq.
Proof.
  intros Hd Hlen. simpl. rewrite Hd. simpl.
  destruct (negb (negb (String.eqb date EmptyString))); [reflexivity|].
  destruct (Z.ltb_spec (Z.of_nat (String.length date)) 7); [reflexivity|lia].
Qed.

(** A record whose date is not a string is passed over, unless the
    turn raises. *)
Lemma server_scan_untyped (m : gmap string pyval) (d : pyval)
    (rest : list pyval) (fy fq : Z) (x : option pyval) :
  m !! "fiscalDateEnding" = Some d ->
  (forall date, d <> PyStr date) ->
  Server.scan_reports (PyDict m :: rest) fy fq = Ok x ->
  Server.scan_reports rest fy fq = Ok x.
Proof.
  intros Hd Hns. simpl. rewrite Hd. simpl.
  destruct (negb (truthy d)); [done|].
  destruct d as [| b | z | f | s | l | dm]; simpl; try discriminate.
  - exfalso. eapply Hns. reflexivity.
  - destruct (Z.of_nat (length l) <? 7); [done|discriminate].
  - destruct (Z.of_nat (size dm) <? 7); [done|discriminate].
Qed.

(** Whenever the loop ends without an exception, it has returned the
    first record that matches the period with a date of 7 characters
    or more, if there is one. *)
Lemma server_scan_sound (reports : list pyval) (fy fq : Z) (x : option pyval) :
  Server.scan_reports reports fy fq = Ok x ->
  x = List.find (Spec.exact_match fy fq) reports.
Proof.
  induction reports as [|report rest IH]; [intros [= <-]; reflexivity|].
  intros H. cbn [List.find].
  destruct report as [| b | z | f | s | l | m]; try discriminate H.
  unfold Spec.exact_match, Spec.date_of.
  destruct (m !! "fiscalDateEnding") as [d|] eqn:Hd.
  - destruct d as [| b | z | f | date | l | dm];
      try (apply IH; eapply server_scan_untyped; [exact Hd|discriminate|exact H]).
    destruct (le_lt_dec 7 (String.length date)) as [Hlen|Hlen].
    + rewrite (server_scan_dated _ _ _ _ _ Hd Hlen) in H.
      destruct (Z.leb_spec 7 (Z.of_nat (String.length date))); [|lia].
      destruct (parse_int (substring 0 4 date)); [|discriminate].
      destruct (parse_int (substring 5 2 date)); [|discriminate].
      cbn [andb]. destruct (bool_decide _); [congruence|auto].
    + rewrite (server_scan_short _ _ _ _ _ Hd Hlen) in H.
      destruct (Z.leb_spec 7 (Z.of_nat (String.length date))); [lia|].
      cbn [andb]. auto.
  - rewrite (server_scan_undated _ _ _ _ Hd) in H. auto.
Qed.

(** On well-dated records the loop does not raise. *)
Lemma server_scan_total (reports : list pyval) (fy fq : Z) :
  Forall Spec.well_dated reports ->
  exists x, Server.scan_reports reports fy fq = Ok x.
Proof.
  induction 1 as [|report rest Hw _ IH]; [eexists; reflexivity|].
  destruct Hw as (m & -> & [Hd|(date & Hd & Hdate)]).
  - rewrite (server_scan_undated _ _ _ _ Hd). exact IH.
  - destruct (le_lt_dec 7 (String.length date)) as [Hlen|Hlen].
    + rewrite (server_scan_dated _ _ _ _ _ Hd Hlen).
      destruct Hdate as [Hs|[[y ->] [mo ->]]]; [lia|].
      destruct (bool_decide _); [eexists; reflexivity|exact IH].
    + rewrite (server_scan_short _ _ _ _ _ Hd Hlen). exact IH.
Qed.

Lemma server_scan_well_dated (reports : list pyval) (fy fq : Z) :
  Forall Spec.well_dated reports ->
  Server.scan_reports reports fy fq = Ok (List.find (Spec.exact_match fy fq) reports).
Proof.
  intros Hw. destruct (server_scan_total reports fy fq Hw) as [x Hx].
  rewrite Hx. f_equal. eapply server_scan_sound. exact Hx.
Qed.

(** [find_quarterly_report] on a list, in terms of its loop. *)
Lemma find_quarterly_report_list (reports : list pyval) (fy fq : Z) :
  Server.find_quarterly_report (PyList reports) fy fq =
    match Server.scan_reports reports fy fq with
    | Ok (Some report) => Ok (Some report)
    | Ok None => Ok (head reports)
    | Raise e => Raise e
    end.
Proof.
  unfold Server.find_quarterly_report. simpl.
  destruct (Server.scan_reports reports fy fq) as [[report|]|e]; simpl; try reflexivity.
  destruct reports; reflexivity.
Qed.

Lemma sample_records_differ : Sample.june_2023 <> Sample.sept_2024_short.
Proof.
  intros H.
  apply (f_equal (fun v => Sample.date_field (Ok (Some v)))) in H.
  vm_compute in H. discriminate H.
Qed.

(** C2, as stated, fails: with a first record dated 2023-06-30 and a
    second one dated 2024-9, whose first four characters parse to 2024
    and whose characters 5:7 parse to month 9, a request for 2024 Q1
    returns the first record, not the second. *)
Lemma matcher_passes_over_short_date :
  Server.find_quarterly_report
    (PyList [Sample.june_2023; Sample.sept_2024_short]) 2024 1
  = Ok (Some Sample.june_2023) /\
  Spec.first_or_head (Spec.dated_match 2024 1)
    [Sample.june_2023; Sample.sept_2024_short]
  = Some Sample.sept_2024_short /\
  Server.find_quarterly_report
    (PyList [Sample.june_2023; Sample.sept_2024_short]) 2024 1
  <> Ok (Spec.first_or_head (Spec.dated_match 2024 1)
           [Sample.june_2023; Sample.sept_2024_short]).
Proof.
  assert (E1 : Server.find_quarterly_report
                 (PyList [Sample.june_2023; Sample.sept_2024_short]) 2024 1
               = Ok (Some Sample.june_2023)) by (vm_compute; reflexivity).
  assert (E2 : Spec.first_or_head (Spec.dated_match 2024 1)
                 [Sample.june_2023; Sample.sept_2024_short]
               = Some Sample.sept_2024_short) by (vm_compute; reflexivity).
  split; [exact E1|]. split; [exact E2|].
  rewrite E1, E2. intros H. apply sample_records_differ. congruence.
Qed.

(** C2, amended: on a list whose records are dicts with a date that is
    absent or a string, with integer year and month parts when it has 7
    characters or more, [find_quarterly_report] returns the first record
    whose date has at least 7 characters, whose first 4 characters
    parse to the requested year and whose month at positions 5:7 maps
    to the requested quarter; the first element of the list if there is
    no such record; and none if and only if the list is empty. *)
Theorem find_quarterly_report_first_match
    (reports : list pyval) (fiscal_year fiscal_quarter : Z) :
  Forall Spec.well_dated reports ->
  Server.find_quarterly_report (PyList reports) fiscal_year fiscal_quarter
  = Ok (Spec.first_or_head (Spec.exact_match fiscal_year fiscal_quarter) reports)
  /\ (Server.find_quarterly_report (PyList reports) fiscal_year fiscal_quarter
      = Ok None <-> reports = []).
Proof.
  intros Hw.
  rewrite find_quarterly_report_list, (server_scan_well_dated _ _ _ Hw).
  unfold Spec.first_or_head.
  destruct (List.find _ reports) as [report|] eqn:Hf.
  - split; [reflexivity|]. split; [discriminate|].
    intros ->. discriminate Hf.
  - split; [reflexivity|]. destruct reports; simpl; split; congruence.
Qed.

Lemma sample_well_dated :
  Forall Spec.well_dated [Sample.june_2023; Sample.sept_2024_short].
Proof.
  constructor; [|constructor; [|constructor]].
  - eexists. split; [reflexivity|]. right. exists "2023-06-30"%string.
    split; [vm_compute; reflexivity|]. right. split; vm_compute; eauto.
  - eexists. split; [reflexivity|]. right. exists "2024-9"%string.
    split; [vm_compute; reflexivity|]. left. simpl. lia.
Defined.

Lemma find_quarterly_report_first_match_witness :
  Forall Spec.well_dated [Sample.june_2023; Sample.sept_2024_short] /\
  Server.find_quarterly_report
    (PyList [Sample.june_2023; Sample.sept_2024_short]) 2024 1
  = Ok (Spec.first_or_head (Spec.exact_match 2024 1)
          [Sample.june_2023; Sample.sept_2024_short]).
Proof.
  split; [exact sample_well_dated|].
  apply (find_quarterly_report_first_match
           [Sample.june_2023; Sample.sept_2024_short] 2024 1 sample_well_dated).
Defined.

(** The loop of the standalone server passes over every record whose
    date is absent or shorter than 7 characters, without raising. *)
Lemma server_skips_short_dated (report : pyval) (rest : list pyval) (fy fq : Z) :
  Spec.short_dated report ->
  Server.scan_reports (report :: rest) fy fq = Server.scan_reports rest fy fq.
Proof.
  intros (m & -> & [Hd|(date & Hd & Hlen)]).
  - apply server_scan_undated, Hd.
  - eapply server_scan_short; eassumption.
Qed.

(** The loop of the standalone server never returns such a record. *)
Lemma server_never_matches_short_dated
    (reports : list pyval) (fy fq : Z) (report : pyval) :
  Server.scan_reports reports fy fq = Ok (Some report) ->
  ~ Spec.short_dated report.
Proof.
  intros H%server_scan_sound (m & -> & Hshort).
  symmetry in H. apply List.find_some in H as [_ H].
  unfold Spec.exact_match, Spec.date_of in H.
  destruct Hshort as [Hd|(date & Hd & Hlen)]; rewrite Hd in H; [discriminate|].
  apply andb_prop in H as [H _]. apply Z.leb_le in H. lia.
Qed.

(** The fallback of the standalone server may return such a record. *)
Lemma server_fallback_returns_undated :
  Server.find_quarterly_report (PyList [Sample.undated]) 2024 4
  = Ok (Some Sample.undated).
Proof. vm_compute. reflexivity. Qed.

(** ** The report selection of the serverless handlers *)

(** What one turn of the serverless loop does with a record whose date
    is a string, whatever its length. *)
Lemma serverless_scan_dated (m : gmap string pyval) (date : string)
    (rest : list pyval) (fy fq : Z) :
  m !! "fiscalDateEnding" = Some (PyStr date) ->
  FunctionApp.scan_reports (PyDict m :: rest) fy fq =
    match parse_int (String.substring 0 4 date),
          parse_int (String.substring 5 2 date) with
    | Some _, Some _ =>
        if bool_decide (Spec.period_of date = Some (fy, fq))
        then Ok (Some (PyDict m))
        else FunctionApp.scan_reports rest fy fq
    | None, _ => Raise (ValueError "int" (PyStr (String.substring 0 4 date)))
    | Some _, None => Raise (ValueError "int" (PyStr (String.substring 5 2 date)))
    end.
Proof.
  intros Hd. simpl. rewrite Hd. simpl.
  unfold Spec.period_of.
  destruct (parse_int (substring 0 4 date)) as [y|]; [|reflexivity].
  destruct (parse_int (substring 5 2 date)) as [mo|]; [|reflexivity].
  cbn [mbind res_bind option_bind].
  destruct (FunctionApp.month_quarter fq mo) as [rq|] eqn:Hq.
  - apply month_quarter_spec in Hq as [-> Hq]. rewrite Hq. cbn.
    rewrite Z.eqb_refl, andb_true_r.
    destruct (Z.eqb_spec y fy) as [->|Hy]; case_bool_decide; congruence.
  - destruct (Server.map_month_to_quarter mo) as [q|] eqn:Hm; cbn;
      case_bool_decide as Hb; try reflexivity; try discriminate Hb.
    injection Hb as -> ->.
    assert (FunctionApp.month_quarter fq mo = Some fq) as Hc
      by (apply month_quarter_spec; auto).
    congruence.
Qed.

(** On records that all carry a date of 7 characters or more, the two
    loops do the same, exceptions included. *)
Lemma scans_agree_on_full_dates (reports : list pyval) (fy fq : Z) :
  Forall Spec.full_dated reports ->
  FunctionApp.scan_reports reports fy fq = Server.scan_reports reports fy fq.
Proof.
  induction 1 as [|report rest (m & date & -> & Hd & Hlen) _ IH]; [reflexivity|].
  rewrite (serverless_scan_dated _ _ _ _ _ Hd), (server_scan_dated _ _ _ _ _ Hd Hlen).
  rewrite IH. reflexivity.
Qed.

Lemma full_dated_truthy (report : pyval) :
  Spec.full_dated report -> truthy report = true.
Proof.
  intros (m & date & -> & Hd & _). simpl.
  case_bool_decide as Hm; [|reflexivity].
  rewrite Hm, lookup_empty in Hd. discriminate.
Qed.

(** On such records the two deployments select the same record, or
    both select none, or both raise the same exception. *)
Lemma selections_agree_on_full_dates (reports : list pyval) (fy fq : Z) :
  Forall Spec.full_dated reports ->
  FunctionApp.select_report (PyList reports) fy fq
  = Server.find_quarterly_report (PyList reports) fy fq.
Proof.
  intros Hf. rewrite find_quarterly_report_list.
  unfold FunctionApp.select_report. simpl.
  rewrite (scans_agree_on_full_dates _ _ _ Hf).
  destruct (Server.scan_reports reports fy fq) as [[report|]|e] eqn:Hs; simpl;
    try reflexivity.
  - assert (In report reports) as Hin.
    { apply server_scan_sound in Hs. symmetry in Hs.
      apply List.find_some in Hs as [Hin _]. exact Hin. }
    rewrite Forall_forall in Hf.
    rewrite (full_dated_truthy report); [reflexivity|].
    apply Hf. apply list_elem_of_In. exact Hin.
  - destruct Hf as [|first rest (m & date & -> & Hd & _) _]; reflexivity.
Qed.

(** C5: a record whose date has fewer than 7 characters is not passed
    over by the serverless loop, which returns it from inside the loop
    as a match of the period, and a record without a date makes the
    loop raise where it should go on to the next record. *)
Theorem serverless_scan_does_not_skip :
  FunctionApp.scan_reports [Sample.sept_2024_short; Sample.june_2024] 2024 1
  = Ok (Some Sample.sept_2024_short) /\
  FunctionApp.scan_reports [Sample.undated; Sample.june_2024] 2024 4
  = Raise (ValueError "int" (PyStr EmptyString)) /\
  Server.scan_reports [Sample.sept_2024_short; Sample.june_2024] 2024 1
  = Ok None /\
  Server.scan_reports [Sample.undated; Sample.june_2024] 2024 4
  = Ok (Some Sample.june_2024).
Proof. repeat split; vm_compute; reflexivity. Qed.

(** C7: the two deployments do not select the same record on every
    input: where the standalone server falls back to the first record,
    the serverless handler returns a later record whose date has 6
    characters; where the standalone server returns a record without a
    date by its fallback, the serverless handler raises. *)
Theorem selections_disagree :
  Server.find_quarterly_report
    (PyList [Sample.june_2023; Sample.sept_2024_short]) 2024 1
  = Ok (Some Sample.june_2023) /\
  FunctionApp.select_report
    (PyList [Sample.june_2023; Sample.sept_2024_short]) 2024 1
  = Ok (Some Sample.sept_2024_short) /\
  Sample.june_2023 <> Sample.sept_2024_short /\
  Server.find_quarterly_report (PyList [Sample.undated]) 2024 4
  = Ok (Some Sample.undated) /\
  FunctionApp.select_report (PyList [Sample.undated]) 2024 4
  = Raise (ValueError "int" (PyStr EmptyString)).
Proof.
  split; [vm_compute; reflexivity|].
  split; [vm_compute; reflexivity|].
  split; [exact sample_records_differ|].
  split; vm_compute; reflexivity.
Qed.

(** ** The Metric Extractor *)

Lemma float_of_million : float_of_int 1000000 = Ok Spec.million.
Proof. vm_compute. reflexivity. Qed.

Lemma metric_value_spec (field : option pyval) (x : spec_float) :
  Spec.field_value field = Some x ->
  exists n, metric_value (default (PyStr "0") field) = Ok n /\ Spec.num_is n x.
Proof.
  unfold Spec.field_value, metric_value.
  destruct field as [[| | | | s | |]|]; try discriminate.
  - simpl. destruct (String.eqb_spec s "None") as [->|Hn].
    + intros [= <-]. exists (NInt 0). split; [reflexivity|]. right. done.
    + destruct (String.eqb_spec s EmptyString) as [->|He]; [discriminate|].
      simpl. intros ->. exists (NFloat x). split; [reflexivity|]. left. done.
  - intros [= <-]. exists (NFloat fzero). split; [reflexivity|]. left. done.
Qed.

Lemma to_float_num_is (n : num) (x : spec_float) :
  Spec.num_is n x -> to_float n = Ok x.
Proof. intros [->|[-> ->]]; reflexivity. Qed.

Lemma py_abs_num_is (n : num) (x : spec_float) :
  Spec.num_is n x -> Spec.num_is (py_abs n) (SFabs x).
Proof. intros [->|[-> ->]]; [left|right]; done. Qed.

Lemma py_sub_num_is (a b : num) (x y : spec_float) :
  Spec.num_is a x -> Spec.num_is b y ->
  exists c, py_sub a b = Ok c /\ Spec.num_is c (SFsub prec emax x y).
Proof.
  intros Ha Hb.
  destruct Ha as [->|[-> ->]], Hb as [->|[-> ->]].
  - eexists. split; [reflexivity|]. left. done.
  - eexists. split; [reflexivity|]. left. done.
  - eexists. split; [reflexivity|]. left. done.
  - exists (NInt 0). split; [reflexivity|]. right. done.
Qed.

Lemma py_truediv_num_is (a : num) (x : spec_float) :
  Spec.num_is a x ->
  py_truediv a 1000000 = Ok (SFdiv prec emax x Spec.million).
Proof.
  intros [->|[-> ->]].
  - unfold py_truediv. rewrite float_of_million. reflexivity.
  - vm_compute. reflexivity.
Qed.

(** The free-cash-flow extractor on a report whose two fields are each
    absent, the literal "None" or a decimal string. *)
Lemma extract_free_cash_flow_spec (m : gmap string pyval) (op capex : spec_float) :
  Spec.field_value (m !! "operatingCashflow") = Some op ->
  Spec.field_value (m !! "capitalExpenditures") = Some capex ->
  extract_free_cash_flow (PyDict m) = Ok (Spec.cash_flow_of op capex).
Proof.
  intros (a & Ha & Hax)%metric_value_spec (c & Hc & Hcx)%metric_value_spec.
  unfold extract_free_cash_flow. cbn [py_get mbind res_bind].
  rewrite Ha, Hc. cbn [mbind res_bind].
  pose proof (py_abs_num_is _ _ Hcx) as Hcabs.
  destruct (py_sub_num_is _ _ _ _ Hax Hcabs) as (d & Hd & Hdx).
  rewrite Hd. cbn [mbind res_bind].
  rewrite (py_truediv_num_is _ _ Hdx), (py_truediv_num_is _ _ Hax),
    (py_truediv_num_is _ _ Hcabs).
  reflexivity.
Qed.

(** The quotient that [div_half_even] rounds to is the nearest
    integer, the even one at a tie. *)
Lemma div_half_even_nearest (a b : Z) :
  0 < b -> Spec.nearest_integer a b (div_half_even a b).
Proof.
  intros Hb. unfold Spec.nearest_integer, div_half_even.
  pose proof (Z.div_mod a b ltac:(lia)) as Hdm.
  pose proof (Z.mod_pos_bound a b Hb) as Hr.
  set (q := a / b) in *. set (r := a mod b) in *.
  destruct (Z.compare_spec (2 * r) b) as [Heq|Hlt|Hgt].
  - destruct (Z.even q) eqn:Hq.
    + split; [lia|auto].
    + split; [lia|]. intros _.
      rewrite Z.even_add, Hq. reflexivity.
  - split; [lia|lia].
  - split; [lia|lia].
Qed.

(** At most one integer is the nearest. *)
Lemma nearest_integer_unique (num den n n' : Z) :
  0 < den ->
  Spec.nearest_integer num den n -> Spec.nearest_integer num den n' -> n = n'.
Proof.
  intros Hd [Hn Hen] [Hn' Hen'].
  assert (Hclose : -1 <= n' - n <= 1) by nia.
  destruct (Z.eq_dec n n') as [|Hne]; [assumption|exfalso].
  assert (n' = n + 1 \/ n = n' + 1) as [-> | ->] by lia.
  - assert (Z.even n = true) by (apply Hen; nia).
    assert (Z.even (n + 1) = true) as Hs by (apply Hen'; nia).
    rewrite Z.even_add in Hs. rewrite H in Hs. discriminate Hs.
  - assert (Z.even n' = true) by (apply Hen'; nia).
    assert (Z.even (n' + 1) = true) as Hs by (apply Hen; nia).
    rewrite Z.even_add in Hs. rewrite H in Hs. discriminate Hs.
Qed.

(** [round(x, 2)] rounds to 2 decimal places. *)
Lemma py_round_rounded (x : spec_float) :
  Spec.rounded_to_2_decimals x (py_round x 2).
Proof.
  destruct x as [s|s| |s m e]; try reflexivity.
  cbn [Spec.rounded_to_2_decimals py_round]. eexists. split; [|reflexivity].
  destruct (Z.leb_spec 0 e) as [He|He].
  - rewrite Z.max_l, Z.max_r by lia. change (2 ^ 0) with 1.
    unfold Spec.nearest_integer.
    replace (100 * Z.pos m * 2 ^ e - Z.pos m * 10 ^ 2 * 2 ^ e * 1) with 0
      by (change (10 ^ 2) with 100; ring).
    cbn. split; [lia|discriminate].
  - rewrite Z.max_r, Z.max_l by lia. change (2 ^ 0) with 1.
    replace (100 * Z.pos m * 1) with (Z.pos m * 10 ^ 2)
      by (change (10 ^ 2) with 100; ring).
    apply div_half_even_nearest. apply Z.pow_pos_nonneg; lia.
Qed.

(** Rounding to 2 decimal places has one result. *)
Lemma rounded_to_2_decimals_unique (x r r' : spec_float) :
  Spec.rounded_to_2_decimals x r -> Spec.rounded_to_2_decimals x r' -> r = r'.
Proof.
  destruct x as [s|s| |s m e]; cbn [Spec.rounded_to_2_decimals];
    try (intros -> ->; reflexivity).
  intros (n & Hn & ->) (n' & Hn' & ->). f_equal.
  eapply nearest_integer_unique; [|exact Hn|exact Hn'].
  apply Z.pow_pos_nonneg; lia.
Qed.

(** C1: the free-cash-flow extractor computes operating cash flow
    minus the absolute value of capital expenditures, a field that is
    absent or the literal "None" counting as 0, divides by 1,000,000 and
    rounds to 2 decimal places (to the nearest hundredth, which is one
    number), and reports operating cash flow and the absolute value of
    capital expenditures the same way; 500000000 and -100000000 give a
    free cash flow of 400.0 and a capex of 100.0, and 2675000 and
    -125000 give 2.55, 2.67 and 0.12. *)
Theorem free_cash_flow_extraction (m : gmap string pyval) :
  (forall op capex,
     Spec.field_value (m !! "operatingCashflow") = Some op ->
     Spec.field_value (m !! "capitalExpenditures") = Some capex ->
     exists cf,
       extract_free_cash_flow (PyDict m) = Ok cf /\
       Spec.rounded_to_2_decimals
         (SFdiv prec emax (SFsub prec emax op (SFabs capex)) (float_of_Z 1000000))
         (free_cash_flow_usd_millions cf) /\
       Spec.rounded_to_2_decimals
         (SFdiv prec emax op (float_of_Z 1000000))
         (operating_cash_flow_usd_millions cf) /\
       Spec.rounded_to_2_decimals
         (SFdiv prec emax (SFabs capex) (float_of_Z 1000000))
         (capital_expenditures_usd_millions cf)) /\
  (forall x r r',
     Spec.rounded_to_2_decimals x r -> Spec.rounded_to_2_decimals x r' -> r = r') /\
  (Spec.absent_or_none (m !! "operatingCashflow") ->
   Spec.field_value (m !! "operatingCashflow") = Some fzero) /\
  (Spec.absent_or_none (m !! "capitalExpenditures") ->
   Spec.field_value (m !! "capitalExpenditures") = Some fzero) /\
  (m !! "operatingCashflow" = Some (PyStr "500000000") ->
   m !! "capitalExpenditures" = Some (PyStr "-100000000") ->
   extract_free_cash_flow (PyDict m)
   = Ok {| free_cash_flow_usd_millions := float_of_Z 400;
           operating_cash_flow_usd_millions := float_of_Z 500;
           capital_expenditures_usd_millions := float_of_Z 100 |}) /\
  (m !! "operatingCashflow" = Some (PyStr "2675000") ->
   m !! "capitalExpenditures" = Some (PyStr "-125000") ->
   extract_free_cash_flow (PyDict m)
   = Ok {| free_cash_flow_usd_millions := Sample.float_2_55;
           operating_cash_flow_usd_millions := Sample.float_2_67;
           capital_expenditures_usd_millions := Sample.float_0_12 |}).
Proof.
  split; [|split; [|split; [|split; [|split]]]].
  - intros op capex Hop Hcapex.
    rewrite (extract_free_cash_flow_spec m op capex Hop Hcapex).
    eexists. split; [reflexivity|].
    cbn [Spec.cash_flow_of free_cash_flow_usd_millions
           operating_cash_flow_usd_millions capital_expenditures_usd_millions].
    unfold Spec.in_millions, Spec.million.
    repeat split; apply py_round_rounded.
  - apply rounded_to_2_decimals_unique.
  - intros [->| ->]; reflexivity.
  - intros [->| ->]; reflexivity.
  - intros Hop Hcapex.
    rewrite (extract_free_cash_flow_spec m (float_of_Z 500000000)
               (SFopp (float_of_Z 100000000))).
    + vm_compute. reflexivity.
    + rewrite Hop. vm_compute. reflexivity.
    + rewrite Hcapex. vm_compute. reflexivity.
  - intros Hop Hcapex.
    rewrite (extract_free_cash_flow_spec m (float_of_Z 2675000)
               (SFopp (float_of_Z 125000))).
    + vm_compute. reflexivity.
    + rewrite Hop. vm_compute. reflexivity.
    + rewrite Hcapex. vm_compute. reflexivity.
Qed.

Lemma free_cash_flow_extraction_witness :
  extract_free_cash_flow Sample.fractional_cash_flow_report
  = Ok {| free_cash_flow_usd_millions := Sample.float_2_55;
          operating_cash_flow_usd_millions := Sample.float_2_67;
          capital_expenditures_usd_millions := Sample.float_0_12 |}.
Proof.
  destruct (free_cash_flow_extraction
              (list_to_map [("fiscalDateEnding", PyStr "2024-06-30");
                            ("operatingCashflow", PyStr "2675000");
                            ("capitalExpenditures", PyStr "-125000")]))
    as (_ & _ & _ & _ & _ & H).
  apply H; vm_compute; reflexivity.
Defined.



(** C3, as stated, fails: with totalRevenue = "123000000" the revenue
    in USD millions is 123.0, which is not 0.12. *)
Lemma revenue_of_123000000_is_not_0_12 :
  extract_revenue Sample.revenue_report
  = Ok (PyStr "123000000", NFloat (float_of_Z 123)) /\
  SFeqb (float_of_Z 123) (float_of_decimal false 12 (-2)) = false /\
  extract_revenue Sample.revenue_report
  <> Ok (PyStr "123000000", NFloat (float_of_decimal false 12 (-2))).
Proof.
  assert (E : extract_revenue Sample.revenue_report
              = Ok (PyStr "123000000", NFloat (float_of_Z 123)))
    by (vm_compute; reflexivity).
  split; [exact E|]. split; [vm_compute; reflexivity|].
  rewrite E. intros H.
  assert (F : float_of_Z 123 = float_of_decimal false 12 (-2)) by congruence.
  vm_compute in F. discriminate F.
Qed.

(** C3, amended: revenue extraction yields 0 when totalRevenue is
    absent (the float 0.0) or equal to the literal "None" (the int 0),
    and for totalRevenue = "123000000" the revenue in USD millions is
    123.0. *)
Theorem revenue_extraction (m : gmap string pyval) :
  (m !! "totalRevenue" = None ->
   extract_revenue (PyDict m) = Ok (PyStr "0", NFloat fzero)) /\
  (m !! "totalRevenue" = Some (PyStr "None") ->
   extract_revenue (PyDict m) = Ok (PyStr "None", NInt 0)) /\
  (m !! "totalRevenue" = Some (PyStr "123000000") ->
   extract_revenue (PyDict m) = Ok (PyStr "123000000", NFloat (float_of_Z 123))).
Proof.
  unfold extract_revenue. cbn [py_get mbind res_bind].
  repeat split; intros ->; vm_compute; reflexivity.
Qed.

Lemma revenue_extraction_witness :
  extract_revenue Sample.revenue_report
  = Ok (PyStr "123000000", NFloat (float_of_Z 123)).
Proof.
  destruct (revenue_extraction
              (list_to_map [("fiscalDateEnding", PyStr "2024-06-30");
                            ("totalRevenue", PyStr "123000000")]))
    as (_ & _ & H).
  apply H; vm_compute; reflexivity.
Defined.




(** ** The Tool Facade *)

Lemma existsb_string_elem_of (s : string) (l : list string) :
  existsb (String.eqb s) l = true <-> s ∈ l.
Proof.
  rewrite existsb_exists, list_elem_of_In. split.
  - intros (x & Hin & ->%String.eqb_eq). exact Hin.
  - intros Hin. exists s. split; [exact Hin|apply String.eqb_refl].
Qed.

Lemma existsb_Z_elem_of (z : Z) (l : list Z) :
  existsb (Z.eqb z) l = true <-> z ∈ l.
Proof.
  rewrite existsb_exists, list_elem_of_In. split.
  - intros (x & Hin & ->%Z.eqb_eq). exact Hin.
  - intros Hin. exists z. split; [exact Hin|apply Z.eqb_refl].
Qed.



(** The serverless handlers validate the same way once their
    arguments are decoded. *)
Lemma serverless_validation_error_without_request (str_exn : exn -> string)
    (json_loads : string -> res pyval) (w : world) (context : pyval)
    (symbol : string) (fiscal_year fiscal_quarter : Z) :
  FunctionApp.read_arguments json_loads context
  = Ok (symbol, fiscal_year, fiscal_quarter) ->
  (ascii_string symbol = true /\ symbol ∉ FunctionApp.valid_symbols) \/
  (fiscal_quarter ∉ [1; 2; 3; 4]) ->
  exists msg,
    run (FunctionApp.get_company_revenue str_exn json_loads w context)
    = (Ok (FunctionApp.plain_error_doc msg), 0%nat) /\
    run (FunctionApp.get_company_free_cash_flow str_exn json_loads w context)
    = (Ok (FunctionApp.plain_error_doc msg), 0%nat).
Proof.
  intros Ha H.
  unfold FunctionApp.get_company_revenue, FunctionApp.get_company_free_cash_flow.
  run_tool. rewrite Ha. cbn beta iota.
  destruct (existsb (String.eqb symbol) FunctionApp.valid_symbols) eqn:Hs;
    cbn [negb].
  - destruct (existsb (Z.eqb fiscal_quarter) [1; 2; 3; 4]) eqn:Hq; cbn [negb].
    + apply existsb_string_elem_of in Hs. apply existsb_Z_elem_of in Hq.
      destruct H as [[_ H]|H]; contradiction.
    + eexists. split; reflexivity.
  - eexists. split; reflexivity.
Qed.

(** The outcome of [get_company_revenue] and the number of requests it
    issues, branch by branch. *)
Lemma server_revenue_run (str_exn : exn -> string) (w : world)
    (company_symbol : string) (fiscal_year fiscal_quarter : Z) :
  run (Server.get_company_revenue str_exn w company_symbol fiscal_year fiscal_quarter)
  = let symbol := py_upper company_symbol in
    if negb (existsb (String.eqb symbol) Server.VALID_SYMBOLS)
    then (Ok Server.invalid_symbol_doc, 0%nat)
    else if negb (existsb (Z.eqb fiscal_quarter) [1; 2; 3; 4])
    then (Ok Server.invalid_quarter_doc, 0%nat)
    else
      match Server.get_api_key w with
      | Raise e => (Ok (Server.exception_doc str_exn e), 0%nat)
      | Ok key =>
          (match http_get w "INCOME_STATEMENT" symbol key with
           | Raise e => Ok (Server.exception_doc str_exn e)
           | Ok data =>
               match py_get data "quarterlyReports" (PyList []) with
               | Raise e => Ok (Server.exception_doc str_exn e)
               | Ok quarterly_reports =>
                   if negb (truthy quarterly_reports)
                   then Ok (Server.error_doc "No quarterly data available")
                   else
                     match Server.find_quarterly_report quarterly_reports
                             fiscal_year fiscal_quarter with
                     | Raise e => Ok (Server.exception_doc str_exn e)
                     | Ok None =>
                         Ok (Server.no_period_doc symbol fiscal_year fiscal_quarter)
                     | Ok (Some target_period) =>
                         if negb (truthy target_period)
                         then Ok (Server.no_period_doc symbol fiscal_year
                                    fiscal_quarter)
                         else
                           match Server.revenue_result symbol fiscal_year
                                   fiscal_quarter target_period with
                           | Raise e => Ok (Server.exception_doc str_exn e)
                           | Ok doc => Ok doc
                           end
                     end
               end
           end, 1%nat)
      end.
Proof.
  unfold Server.get_company_revenue. cbv zeta.
  destruct (negb (existsb _ Server.VALID_SYMBOLS)); [reflexivity|].
  destruct (negb (existsb _ [1; 2; 3; 4])); [reflexivity|].
  unfold Server.fetch_alpha_vantage, Server.on_exception. run_tool.
  destruct (Server.get_api_key w) as [key|e]; run_step.
  destruct (http_get w "INCOME_STATEMENT" (py_upper company_symbol) key)
    as [data|e]; run_step.
  destruct (py_get data "quarterlyReports" (PyList [])) as [reports|e]; run_step.
  destruct (negb (truthy reports)); run_step.
  destruct (Server.find_quarterly_report reports fiscal_year fiscal_quarter)
    as [[target|]|e]; run_step.
  destruct (negb (truthy target)); run_step.
  destruct (Server.revenue_result (py_upper company_symbol) fiscal_year
              fiscal_quarter target); reflexivity.
Qed.

Lemma server_free_cash_flow_run (str_exn : exn -> string) (w : world)
    (company_symbol : string) (fiscal_year fiscal_quarter : Z) :
  run (Server.get_company_free_cash_flow str_exn w company_symbol
         fiscal_year fiscal_quarter)
  = let symbol := py_upper company_symbol in
    if negb (existsb (String.eqb symbol) Server.VALID_SYMBOLS)
    then (Ok Server.invalid_symbol_doc, 0%nat)
    else if negb (existsb (Z.eqb fiscal_quarter) [1; 2; 3; 4])
    then (Ok Server.invalid_quarter_doc, 0%nat)
    else
      match Server.get_api_key w with
      | Raise e => (Ok (Server.exception_doc str_exn e), 0%nat)
      | Ok key =>
          (match http_get w "CASH_FLOW" symbol key with
           | Raise e => Ok (Server.exception_doc str_exn e)
           | Ok data =>
               match py_get data "quarterlyReports" (PyList []) with
               | Raise e => Ok (Server.exception_doc str_exn e)
               | Ok quarterly_reports =>
                   if negb (truthy quarterly_reports)
                   then Ok (Server.error_doc "No quarterly cash flow data available")
                   else
                     match Server.find_quarterly_report quarterly_reports
                             fiscal_year fiscal_quarter with
                     | Raise e => Ok (Server.exception_doc str_exn e)
                     | Ok None =>
                         Ok (Server.no_period_doc symbol fiscal_year fiscal_quarter)
                     | Ok (Some target_period) =>
                         if negb (truthy target_period)
                         then Ok (Server.no_period_doc symbol fiscal_year
                                    fiscal_quarter)
                         else
                           match Server.free_cash_flow_result symbol fiscal_year
                                   fiscal_quarter target_period with
                           | Raise e => Ok (Server.exception_doc str_exn e)
                           | Ok doc => Ok doc
                           end
                     end
               end
           end, 1%nat)
      end.
Proof.
  unfold Server.get_company_free_cash_flow. cbv zeta.
  destruct (negb (existsb _ Server.VALID_SYMBOLS)); [reflexivity|].
  destruct (negb (existsb _ [1; 2; 3; 4])); [reflexivity|].
  unfold Server.fetch_alpha_vantage, Server.on_exception. run_tool.
  destruct (Server.get_api_key w) as [key|e]; run_step.
  destruct (http_get w "CASH_FLOW" (py_upper company_symbol) key)
    as [data|e]; run_step.
  destruct (py_get data "quarterlyReports" (PyList [])) as [reports|e]; run_step.
  destruct (negb (truthy reports)); run_step.
  destruct (Server.find_quarterly_report reports fiscal_year fiscal_quarter)
    as [[target|]|e]; run_step.
  destruct (negb (truthy target)); run_step.
  destruct (Server.free_cash_flow_result (py_upper company_symbol) fiscal_year
              fiscal_quarter target); reflexivity.
Qed.

(** Every invocation of a tool of the standalone server returns a
    document, whatever the Report Source answers or raises. *)
Lemma server_tools_return_documents (str_exn : exn -> string) (w : world)
    (company_symbol : string) (fiscal_year fiscal_quarter : Z) :
  (exists doc n,
     run (Server.get_company_revenue str_exn w company_symbol
            fiscal_year fiscal_quarter) = (Ok doc, n)) /\
  (exists doc n,
     run (Server.get_company_free_cash_flow str_exn w company_symbol
            fiscal_year fiscal_quarter) = (Ok doc, n)).
Proof.
  rewrite server_revenue_run, server_free_cash_flow_run. cbv zeta.
  split;
    repeat (match goal with
            | |- context [match ?x with _ => _ end] => destruct x
            end);
    do 2 eexists; reflexivity.
Qed.

(** The outcome of the serverless [get_company_revenue], branch by
    branch. *)
Lemma serverless_revenue_run (str_exn : exn -> string)
    (json_loads : string -> res pyval) (w : world) (context : pyval) :
  run (FunctionApp.get_company_revenue str_exn json_loads w context)
  = match FunctionApp.read_arguments json_loads context with
    | Raise e => (Raise e, 0%nat)
    | Ok (symbol, fiscal_year, fiscal_quarter) =>
        if negb (existsb (String.eqb symbol) FunctionApp.valid_symbols)
        then (Ok FunctionApp.invalid_symbol_doc, 0%nat)
        else if negb (existsb (Z.eqb fiscal_quarter) [1; 2; 3; 4])
        then (Ok FunctionApp.invalid_quarter_doc, 0%nat)
        else
          match FunctionApp._get_env w "ALPHAVANTAGE_API_KEY" with
          | Raise e => (Ok (FunctionApp.exception_doc str_exn e), 0%nat)
          | Ok key =>
              (match http_get w "INCOME_STATEMENT" symbol key with
               | Raise e => Ok (FunctionApp.exception_doc str_exn e)
               | Ok data =>
                   match py_get data "quarterlyReports" (PyList []) with
                   | Raise e => Ok (FunctionApp.exception_doc str_exn e)
                   | Ok quarterly_reports =>
                       match FunctionApp.select_report quarterly_reports
                               fiscal_year fiscal_quarter with
                       | Raise e => Ok (FunctionApp.exception_doc str_exn e)
                       | Ok None =>
                           Ok (FunctionApp.plain_error_doc "No quarterly data available")
                       | Ok (Some target_period) =>
                           match FunctionApp.revenue_result symbol fiscal_year
                                   fiscal_quarter target_period with
                           | Raise e => Ok (FunctionApp.exception_doc str_exn e)
                           | Ok doc => Ok doc
                           end
                       end
                   end
               end, 1%nat)
          end
    end.
Proof.
  unfold FunctionApp.get_company_revenue, FunctionApp.on_exception. run_tool.
  destruct (FunctionApp.read_arguments json_loads context)
    as [[[symbol fiscal_year] fiscal_quarter]|e]; run_step.
  destruct (negb (existsb _ FunctionApp.valid_symbols)); run_step.
  destruct (negb (existsb _ [1; 2; 3; 4])); run_step.
  destruct (FunctionApp._get_env w "ALPHAVANTAGE_API_KEY") as [key|e]; run_step.
  destruct (http_get w "INCOME_STATEMENT" symbol key) as [data|e]; run_step.
  destruct (py_get data "quarterlyReports" (PyList [])) as [reports|e]; run_step.
  destruct (FunctionApp.select_report reports fiscal_year fiscal_quarter)
    as [[target|]|e]; run_step.
  destruct (FunctionApp.revenue_result symbol fiscal_year fiscal_quarter target);
    reflexivity.
Qed.

(** The outcome of the serverless [get_company_free_cash_flow], branch
    by branch. *)
Lemma serverless_free_cash_flow_run (str_exn : exn -> string)
    (json_loads : string -> res pyval) (w : world) (context : pyval) :
  run (FunctionApp.get_company_free_cash_flow str_exn json_loads w context)
  = match FunctionApp.read_arguments json_loads context with
    | Raise e => (Raise e, 0%nat)
    | Ok (symbol, fiscal_year, fiscal_quarter) =>
        if negb (existsb (String.eqb symbol) FunctionApp.valid_symbols)
        then (Ok FunctionApp.invalid_symbol_doc, 0%nat)
        else if negb (existsb (Z.eqb fiscal_quarter) [1; 2; 3; 4])
        then (Ok FunctionApp.invalid_quarter_doc, 0%nat)
        else
          match FunctionApp._get_env w "ALPHAVANTAGE_API_KEY" with
          | Raise e => (Ok (FunctionApp.exception_doc str_exn e), 0%nat)
          | Ok key =>
              (match http_get w "CASH_FLOW" symbol key with
               | Raise e => Ok (FunctionApp.exception_doc str_exn e)
               | Ok data =>
                   match py_get data "quarterlyReports" (PyList []) with
                   | Raise e => Ok (FunctionApp.exception_doc str_exn e)
                   | Ok quarterly_reports =>
                       match FunctionApp.select_report quarterly_reports
                               fiscal_year fiscal_quarter with
                       | Raise e => Ok (FunctionApp.exception_doc str_exn e)
                       | Ok None =>
                           Ok (FunctionApp.plain_error_doc
                                 "No quarterly cash flow data available")
                       | Ok (Some target_period) =>
                           match FunctionApp.free_cash_flow_result symbol fiscal_year
                                   fiscal_quarter target_period with
                           | Raise e => Ok (FunctionApp.exception_doc str_exn e)
                           | Ok doc => Ok doc
                           end
                       end
                   end
               end, 1%nat)
          end
    end.
Proof.
  unfold FunctionApp.get_company_free_cash_flow, FunctionApp.on_exception. run_tool.
  destruct (FunctionApp.read_arguments json_loads context)
    as [[[symbol fiscal_year] fiscal_quarter]|e]; run_step.
  destruct (negb (existsb _ FunctionApp.valid_symbols)); run_step.
  destruct (negb (existsb _ [1; 2; 3; 4])); run_step.
  destruct (FunctionApp._get_env w "ALPHAVANTAGE_API_KEY") as [key|e]; run_step.
  destruct (http_get w "CASH_FLOW" symbol key) as [data|e]; run_step.
  destruct (py_get data "quarterlyReports" (PyList [])) as [reports|e]; run_step.
  destruct (FunctionApp.select_report reports fiscal_year fiscal_quarter)
    as [[target|]|e]; run_step.
  destruct (FunctionApp.free_cash_flow_result symbol fiscal_year fiscal_quarter target);
    reflexivity.
Qed.

(** A serverless handler returns a document whenever its arguments
    decode. *)
Lemma serverless_revenue_returns_document (str_exn : exn -> string)
    (json_loads : string -> res pyval) (w : world) (context : pyval)
    (arguments : string * Z * Z) :
  FunctionApp.read_arguments json_loads context = Ok arguments ->
  exists doc n,
    run (FunctionApp.get_company_revenue str_exn json_loads w context) = (Ok doc, n).
Proof.
  intros Ha. rewrite serverless_revenue_run, Ha.
  destruct arguments as [[symbol fiscal_year] fiscal_quarter].
  repeat (match goal with
          | |- context [match ?x with _ => _ end] => destruct x
          end);
    do 2 eexists; reflexivity.
Qed.

(** C6: a serverless handler does not return a document on every
    input: the arguments are decoded before the [try] block, and an
    argument that [int] rejects makes the handler raise, whether the
    trigger context comes decoded or as a JSON text. *)
Theorem serverless_handler_raises_on_malformed_argument
    (str_exn : exn -> string) (json_loads : string -> res pyval) (w : world)
    (context : pyval) :
  context = Sample.malformed_context \/
  (exists text, context = PyStr text /\
                json_loads text = Ok Sample.malformed_context) ->
  run (FunctionApp.get_company_revenue str_exn json_loads w context)
  = (Raise (ValueError "int" (PyStr "twenty")), 0%nat) /\
  run (FunctionApp.get_company_free_cash_flow str_exn json_loads w context)
  = (Raise (ValueError "int" (PyStr "twenty")), 0%nat).
Proof.
  assert (Ha : forall c, c = Sample.malformed_context \/
                 (exists text, c = PyStr text /\
                               json_loads text = Ok Sample.malformed_context) ->
               FunctionApp.read_arguments json_loads c
               = Raise (ValueError "int" (PyStr "twenty"))).
  { intros c [-> | (text & -> & Hl)].
    - vm_compute. reflexivity.
    - unfold FunctionApp.read_arguments. rewrite Hl. vm_compute. reflexivity. }
  intros H%Ha.
  unfold FunctionApp.get_company_revenue, FunctionApp.get_company_free_cash_flow.
  run_tool. rewrite H. split; reflexivity.
Qed.

Lemma serverless_handler_raises_on_malformed_argument_witness :
  run (FunctionApp.get_company_revenue Sample.exception_text
         (fun _ => Ok Sample.malformed_context) Sample.june_2024_source
         (PyStr "{}"))
  = (Raise (ValueError "int" (PyStr "twenty")), 0%nat).
Proof.
  apply (serverless_handler_raises_on_malformed_argument Sample.exception_text
           (fun _ => Ok Sample.malformed_context) Sample.june_2024_source
           (PyStr "{}")).
  right. exists "{}"%string. split; reflexivity.
Defined.

(** Any exception raised while the arguments are decoded leaves the
    handler. *)
Lemma serverless_handler_propagates_decoding_errors
    (str_exn : exn -> string) (json_loads : string -> res pyval) (w : world)
    (context : pyval) (e : exn) :
  FunctionApp.read_arguments json_loads context = Raise e ->
  run (FunctionApp.get_company_revenue str_exn json_loads w context)
  = (Raise e, 0%nat) /\
  run (FunctionApp.get_company_free_cash_flow str_exn json_loads w context)
  = (Raise e, 0%nat).
Proof.
  intros H.
  unfold FunctionApp.get_company_revenue, FunctionApp.get_company_free_cash_flow.
  run_tool. rewrite H. split; reflexivity.
Qed.

(** So does a fiscal_year given as the number 1e999. *)
Example serverless_handler_raises_on_infinite_year
    (str_exn : exn -> string) (json_loads : string -> res pyval) (w : world) :
  run (FunctionApp.get_company_revenue str_exn json_loads w Sample.overflow_context)
  = (Raise (OverflowError "int" (PyFloat (S754_infinity false))), 0%nat).
Proof. vm_compute. reflexivity. Qed.

(** Nor when the text of the trigger context does not decode. *)
Lemma serverless_handler_raises_on_undecodable_context
    (str_exn : exn -> string) (json_loads : string -> res pyval) (w : world)
    (text : string) (e : exn) :
  json_loads text = Raise e ->
  run (FunctionApp.get_company_revenue str_exn json_loads w (PyStr text))
  = (Raise e, 0%nat).
Proof.
  intros Hl. unfold FunctionApp.get_company_revenue, FunctionApp.read_arguments.
  run_tool. rewrite Hl. reflexivity.
Qed.

(** ** The result document and the fallback *)

Lemma extract_revenue_same_field (ma mb : gmap string pyval) :
  ma !! "totalRevenue" = mb !! "totalRevenue" ->
  extract_revenue (PyDict ma) = extract_revenue (PyDict mb).
Proof.
  intros H. unfold extract_revenue. cbn [py_get]. rewrite H. reflexivity.
Qed.

(** The success document of the standalone server has the seven fields
    of a revenue result and no other, and carries the requested period
    and the date of the record. *)
Lemma server_revenue_result_plain (symbol : string) (fy fq : Z)
    (target_period doc : pyval) :
  Server.revenue_result symbol fy fq target_period = Ok doc ->
  Spec.plain_result Spec.revenue_fields fy fq target_period doc.
Proof.
  unfold Server.revenue_result.
  destruct (extract_revenue target_period) as [[raw rev]|e]; [|discriminate].
  cbn [mbind res_bind].
  destruct (py_get target_period "fiscalDateEnding" PyNone) as [date|e] eqn:Hd;
    [|discriminate].
  intros [= <-]. eexists. split; [reflexivity|].
  split; [|split; [reflexivity|split; [reflexivity|]]].
  - rewrite !list_to_map_cons, list_to_map_nil, !dom_insert_L, dom_empty_L.
    unfold Spec.revenue_fields. set_solver.
  - exists date. split; [exact Hd|reflexivity].
Qed.

(** The success document of the serverless handler has one more field,
    the raw revenue. *)
Lemma serverless_revenue_result_plain (symbol : string) (fy fq : Z)
    (target_period doc : pyval) :
  FunctionApp.revenue_result symbol fy fq target_period = Ok doc ->
  Spec.plain_result (Spec.revenue_fields ∪ {[ "raw_revenue"%string ]}) fy fq
    target_period doc.
Proof.
  unfold FunctionApp.revenue_result.
  destruct (extract_revenue target_period) as [[raw rev]|e]; [|discriminate].
  cbn [mbind res_bind].
  destruct (py_get target_period "fiscalDateEnding" PyNone) as [date|e] eqn:Hd;
    [|discriminate].
  intros [= <-]. eexists. split; [reflexivity|].
  split; [|split; [reflexivity|split; [reflexivity|]]].
  - rewrite !list_to_map_cons, list_to_map_nil, !dom_insert_L, dom_empty_L.
    unfold Spec.revenue_fields. set_solver.
  - exists date. split; [exact Hd|reflexivity].
Qed.

(** Two records that differ by their date alone give documents that
    differ by [fiscal_date_ending] alone. *)
Lemma server_revenue_result_same_but (symbol : string) (fy fq : Z)
    (a b doc_a doc_b : pyval) :
  Spec.same_but "fiscalDateEnding" a b ->
  Server.revenue_result symbol fy fq a = Ok doc_a ->
  Server.revenue_result symbol fy fq b = Ok doc_b ->
  Spec.same_but "fiscal_date_ending" doc_a doc_b.
Proof.
  intros (ma & mb & -> & -> & Hk). unfold Server.revenue_result.
  rewrite (extract_revenue_same_field ma mb) by (apply Hk; discriminate).
  destruct (extract_revenue (PyDict mb)) as [[raw rev]|e]; [|discriminate].
  cbn [mbind res_bind py_get].
  intros [= <-] [= <-]. do 2 eexists. split; [reflexivity|]. split; [reflexivity|].
  intros k Hne. rewrite !list_to_map_cons, list_to_map_nil, !lookup_insert.
  repeat case_decide; congruence.
Qed.

Lemma serverless_revenue_result_same_but (symbol : string) (fy fq : Z)
    (a b doc_a doc_b : pyval) :
  Spec.same_but "fiscalDateEnding" a b ->
  FunctionApp.revenue_result symbol fy fq a = Ok doc_a ->
  FunctionApp.revenue_result symbol fy fq b = Ok doc_b ->
  Spec.same_but "fiscal_date_ending" doc_a doc_b.
Proof.
  intros (ma & mb & -> & -> & Hk). unfold FunctionApp.revenue_result.
  rewrite (extract_revenue_same_field ma mb) by (apply Hk; discriminate).
  destruct (extract_revenue (PyDict mb)) as [[raw rev]|e]; [|discriminate].
  cbn [mbind res_bind py_get].
  intros [= <-] [= <-]. do 2 eexists. split; [reflexivity|]. split; [reflexivity|].
  intros k Hne. rewrite !list_to_map_cons, list_to_map_nil, !lookup_insert.
  repeat case_decide; congruence.
Qed.

Lemma upstream_reports_server_key (w : world) (function symbol : string)
    (reports : list pyval) :
  Spec.upstream_reports w function symbol reports ->
  exists key data,
    Server.get_api_key w = Ok key /\
    FunctionApp._get_env w "ALPHAVANTAGE_API_KEY" = Ok key /\
    http_get w function symbol key = Ok data /\
    py_get data "quarterlyReports" (PyList []) = Ok (PyList reports).
Proof.
  intros (key & data & Hk & Hne & Hg & Hr). exists key, data.
  unfold Server.get_api_key, FunctionApp._get_env. rewrite Hk.
  destruct (String.eqb_spec key EmptyString); [contradiction|]. auto.
Qed.

Lemma extract_free_cash_flow_same_fields (ma mb : gmap string pyval) :
  ma !! "operatingCashflow" = mb !! "operatingCashflow" ->
  ma !! "capitalExpenditures" = mb !! "capitalExpenditures" ->
  extract_free_cash_flow (PyDict ma) = extract_free_cash_flow (PyDict mb).
Proof.
  intros Ho Hc. unfold extract_free_cash_flow. cbn [py_get]. rewrite Ho, Hc.
  reflexivity.
Qed.

(** The success document of the free-cash-flow tools has the ten fields
    of a cash-flow result and no other, and carries the requested period
    and the date of the record. *)
Lemma free_cash_flow_result_plain (symbol : string) (fy fq : Z)
    (target_period doc : pyval) :
  Server.free_cash_flow_result symbol fy fq target_period = Ok doc ->
  Spec.plain_result Behaviour.cash_flow_fields fy fq target_period doc.
Proof.
  unfold Server.free_cash_flow_result.
  destruct (extract_free_cash_flow target_period) as [cf|e]; [|discriminate].
  cbn [mbind res_bind].
  destruct (py_get target_period "fiscalDateEnding" PyNone) as [date|e] eqn:Hd;
    [|discriminate].
  intros [= <-]. eexists. split; [reflexivity|].
  split; [|split; [reflexivity|split; [reflexivity|]]].
  - rewrite !list_to_map_cons, list_to_map_nil, !dom_insert_L, dom_empty_L.
    unfold Behaviour.cash_flow_fields. set_solver.
  - exists date. split; [exact Hd|reflexivity].
Qed.

Lemma free_cash_flow_result_same_but (symbol : string) (fy fq : Z)
    (a b doc_a doc_b : pyval) :
  Spec.same_but "fiscalDateEnding" a b ->
  Server.free_cash_flow_result symbol fy fq a = Ok doc_a ->
  Server.free_cash_flow_result symbol fy fq b = Ok doc_b ->
  Spec.same_but "fiscal_date_ending" doc_a doc_b.
Proof.
  intros (ma & mb & -> & -> & Hk). unfold Server.free_cash_flow_result.
  rewrite (extract_free_cash_flow_same_fields ma mb)
    by (apply Hk; discriminate).
  destruct (extract_free_cash_flow (PyDict mb)) as [cf|e]; [|discriminate].
  cbn [mbind res_bind py_get].
  intros [= <-] [= <-]. do 2 eexists. split; [reflexivity|]. split; [reflexivity|].
  intros k Hne. rewrite !list_to_map_cons, list_to_map_nil, !lookup_insert.
  repeat case_decide; congruence.
Qed.

(** When the loop of the serverless handlers finds nothing, the first
    record is selected, provided its date can be read. *)
Lemma select_report_fallback (first : pyval) (rest : list pyval) (fy fq : Z)
    (date : pyval) :
  FunctionApp.scan_reports (first :: rest) fy fq = Ok None ->
  py_get first "fiscalDateEnding" PyNone = Ok date ->
  FunctionApp.select_report (PyList (first :: rest)) fy fq = Ok (Some first).
Proof.
  intros Hscan Hdate. unfold FunctionApp.select_report.
  cbn [py_iter mbind res_bind]. rewrite Hscan.
  cbn [mbind res_bind falsy truthy py_first]. rewrite Hdate. reflexivity.
Qed.

(** C10: when the matcher falls back to the first report, the success
    document of a tool, revenue or free cash flow, in both deployments,
    carries the requested fiscal year and quarter unchanged and has the
    fields of a result of its kind and no other, none of which flags the
    fallback: it differs from the document of a record with the same
    figures that matches the period by the value of fiscal_date_ending
    alone. *)
Theorem fallback_is_not_flagged
    (str_exn : exn -> string) (json_loads : string -> res pyval) (w : world)
    (symbol : string) (fiscal_year fiscal_quarter : Z)
    (first : pyval) (rest : list pyval) :
  symbol ∈ Server.VALID_SYMBOLS ->
  fiscal_quarter ∈ [1; 2; 3; 4] ->
  (Spec.upstream_reports w "INCOME_STATEMENT" symbol (first :: rest) ->
   (forall company_symbol doc,
      py_upper company_symbol = symbol ->
      Server.scan_reports (first :: rest) fiscal_year fiscal_quarter = Ok None ->
      truthy first = true ->
      Server.revenue_result symbol fiscal_year fiscal_quarter first = Ok doc ->
      run (Server.get_company_revenue str_exn w company_symbol
             fiscal_year fiscal_quarter) = (Ok doc, 1%nat) /\
      Spec.plain_result Spec.revenue_fields fiscal_year fiscal_quarter first doc /\
      (forall other doc',
         Spec.same_but "fiscalDateEnding" first other ->
         Server.revenue_result symbol fiscal_year fiscal_quarter other = Ok doc' ->
         Spec.same_but "fiscal_date_ending" doc doc')) /\
   (forall context doc,
      FunctionApp.read_arguments json_loads context
      = Ok (symbol, fiscal_year, fiscal_quarter) ->
      FunctionApp.scan_reports (first :: rest) fiscal_year fiscal_quarter = Ok None ->
      FunctionApp.revenue_result symbol fiscal_year fiscal_quarter first = Ok doc ->
      run (FunctionApp.get_company_revenue str_exn json_loads w context)
      = (Ok doc, 1%nat) /\
      Spec.plain_result (Spec.revenue_fields ∪ {[ "raw_revenue"%string ]})
        fiscal_year fiscal_quarter first doc /\
      (forall other doc',
         Spec.same_but "fiscalDateEnding" first other ->
         FunctionApp.revenue_result symbol fiscal_year fiscal_quarter other = Ok doc' ->
         Spec.same_but "fiscal_date_ending" doc doc'))) /\
  (Spec.upstream_reports w "CASH_FLOW" symbol (first :: rest) ->
   (forall company_symbol doc,
      py_upper company_symbol = symbol ->
      Server.scan_reports (first :: rest) fiscal_year fiscal_quarter = Ok None ->
      truthy first = true ->
      Server.free_cash_flow_result symbol fiscal_year fiscal_quarter first = Ok doc ->
      run (Server.get_company_free_cash_flow str_exn w company_symbol
             fiscal_year fiscal_quarter) = (Ok doc, 1%nat) /\
      Spec.plain_result Behaviour.cash_flow_fields fiscal_year fiscal_quarter
        first doc /\
      (forall other doc',
         Spec.same_but "fiscalDateEnding" first other ->
         Server.free_cash_flow_result symbol fiscal_year fiscal_quarter other
         = Ok doc' ->
         Spec.same_but "fiscal_date_ending" doc doc')) /\
   (forall context doc,
      FunctionApp.read_arguments json_loads context
      = Ok (symbol, fiscal_year, fiscal_quarter) ->
      FunctionApp.scan_reports (first :: rest) fiscal_year fiscal_quarter = Ok None ->
      FunctionApp.free_cash_flow_result symbol fiscal_year fiscal_quarter first
      = Ok doc ->
      run (FunctionApp.get_company_free_cash_flow str_exn json_loads w context)
      = (Ok doc, 1%nat) /\
      Spec.plain_result Behaviour.cash_flow_fields fiscal_year fiscal_quarter
        first doc /\
      (forall other doc',
         Spec.same_but "fiscalDateEnding" first other ->
         FunctionApp.free_cash_flow_result symbol fiscal_year fiscal_quarter other
         = Ok doc' ->
         Spec.same_but "fiscal_date_ending" doc doc'))).
Proof.
  intros Hs%existsb_string_elem_of Hq%existsb_Z_elem_of.
  split;
    intros (key & data & Hkey & Henv & Hget & Hreports)%upstream_reports_server_key;
    split.
  - intros company_symbol doc Hup Hscan Htruthy Hdoc.
    split; [|split].
    + rewrite server_revenue_run. cbv zeta. rewrite Hup, Hs, Hq, Hkey, Hget, Hreports.
      cbn [negb truthy]. rewrite find_quarterly_report_list, Hscan.
      cbn [head]. rewrite Htruthy, Hdoc. reflexivity.
    + eapply server_revenue_result_plain, Hdoc.
    + intros other doc' Hsame Hdoc'.
      eapply server_revenue_result_same_but; eassumption.
  - intros context doc Hargs Hscan Hdoc.
    split; [|split].
    + rewrite serverless_revenue_run, Hargs.
      change FunctionApp.valid_symbols with Server.VALID_SYMBOLS.
      rewrite Hs, Hq, Henv, Hget, Hreports. cbn [negb].
      assert (exists date, py_get first "fiscalDateEnding" PyNone = Ok date)
        as [date Hdate].
      { unfold FunctionApp.revenue_result in Hdoc.
        destruct (extract_revenue first) as [[raw rev]|e]; [|discriminate].
        cbn [mbind res_bind] in Hdoc.
        destruct (py_get first "fiscalDateEnding" PyNone); [eauto|discriminate]. }
      rewrite (select_report_fallback _ _ _ _ _ Hscan Hdate), Hdoc. reflexivity.
    + eapply serverless_revenue_result_plain, Hdoc.
    + intros other doc' Hsame Hdoc'.
      eapply serverless_revenue_result_same_but; eassumption.
  - intros company_symbol doc Hup Hscan Htruthy Hdoc.
    split; [|split].
    + rewrite server_free_cash_flow_run. cbv zeta.
      rewrite Hup, Hs, Hq, Hkey, Hget, Hreports.
      cbn [negb truthy]. rewrite find_quarterly_report_list, Hscan.
      cbn [head]. rewrite Htruthy, Hdoc. reflexivity.
    + eapply free_cash_flow_result_plain, Hdoc.
    + intros other doc' Hsame Hdoc'.
      eapply free_cash_flow_result_same_but; eassumption.
  - intros context doc Hargs Hscan Hdoc.
    split; [|split].
    + rewrite serverless_free_cash_flow_run, Hargs.
      change FunctionApp.valid_symbols with Server.VALID_SYMBOLS.
      rewrite Hs, Hq, Henv, Hget, Hreports. cbn [negb].
      assert (exists date, py_get first "fiscalDateEnding" PyNone = Ok date)
        as [date Hdate].
      { unfold FunctionApp.free_cash_flow_result, Server.free_cash_flow_result in Hdoc.
        destruct (extract_free_cash_flow first) as [cf|e]; [|discriminate].
        cbn [mbind res_bind] in Hdoc.
        destruct (py_get first "fiscalDateEnding" PyNone); [eauto|discriminate]. }
      rewrite (select_report_fallback _ _ _ _ _ Hscan Hdate), Hdoc. reflexivity.
    + eapply free_cash_flow_result_plain, Hdoc.
    + intros other doc' Hsame Hdoc'.
      eapply free_cash_flow_result_same_but; eassumption.
Qed.

Lemma fallback_is_not_flagged_witness :
  (exists doc,
     run (Server.get_company_revenue Sample.exception_text Sample.june_2024_source
            "msft" 2023 1) = (Ok doc, 1%nat) /\
     Spec.plain_result Spec.revenue_fields 2023 1 Sample.june_2024 doc) /\
  (exists doc,
     run (Server.get_company_free_cash_flow Sample.exception_text
            Sample.cash_flow_source "msft" 2023 1) = (Ok doc, 1%nat) /\
     Spec.plain_result Behaviour.cash_flow_fields 2023 1 Sample.cash_flow_report doc).
Proof.
  assert (Hs : ("MSFT"%string) ∈ Server.VALID_SYMBOLS)
    by (apply existsb_string_elem_of; reflexivity).
  assert (Hq : 1 ∈ [1; 2; 3; 4]) by (apply existsb_Z_elem_of; reflexivity).
  split.
  - assert (Hu : Spec.upstream_reports Sample.june_2024_source "INCOME_STATEMENT"
                   "MSFT" [Sample.june_2024]).
    { exists "demo"%string. eexists. repeat split; try reflexivity. discriminate. }
    destruct (fallback_is_not_flagged Sample.exception_text (fun _ => Ok PyNone)
                Sample.june_2024_source "MSFT" 2023 1 Sample.june_2024 []
                Hs Hq) as [H _].
    destruct (H Hu) as [Hsrv _].
    edestruct (Hsrv "msft"%string) as (Hrun & Hplain & _);
      [vm_compute; reflexivity | vm_compute; reflexivity | vm_compute; reflexivity
      | vm_compute; reflexivity |].
    eexists. split; [exact Hrun | exact Hplain].
  - assert (Hu : Spec.upstream_reports Sample.cash_flow_source "CASH_FLOW"
                   "MSFT" [Sample.cash_flow_report]).
    { exists "demo"%string. eexists. repeat split; try reflexivity. discriminate. }
    destruct (fallback_is_not_flagged Sample.exception_text (fun _ => Ok PyNone)
                Sample.cash_flow_source "MSFT" 2023 1 Sample.cash_flow_report []
                Hs Hq) as [_ H].
    destruct (H Hu) as [Hsrv _].
    edestruct (Hsrv "msft"%string) as (Hrun & Hplain & _);
      [vm_compute; reflexivity | vm_compute; reflexivity | vm_compute; reflexivity
      | vm_compute; reflexivity |].
    eexists. split; [exact Hrun | exact Hplain].
Defined.

(** The scenario of the specification: one report dated 2024-06-30 with
    a total revenue of 64727000000, requested for MSFT, 2024, quarter 4,
    is matched and gives 64727.0, with one request to the Report
    Source. *)
Example msft_2024_q4_revenue :
  run (Server.get_company_revenue Sample.exception_text Sample.june_2024_source
         "MSFT" 2024 4)
  = (Ok (dict [("company", PyStr "MSFT");
               ("fiscal_year", PyInt 2024);
               ("fiscal_quarter", PyInt 4);
               ("fiscal_date_ending", PyStr "2024-06-30");
               ("total_revenue_usd_millions", PyFloat (float_of_Z 64727));
               ("currency", PyStr "USD");
               ("data_source", PyStr "Alpha Vantage")]), 1%nat).
Proof. vm_compute. reflexivity. Qed.

(** ** Further properties: the documents and the requests of the tools *)

Lemma server_error_doc_is_error_document (msg : string) :
  Behaviour.error_document (Server.error_doc msg).
Proof.
  eexists _, msg. split; [reflexivity|].
  rewrite !list_to_map_cons, list_to_map_nil, !lookup_insert.
  split; repeat case_decide; congruence.
Qed.

Lemma server_exception_doc_is_error_document (str_exn : exn -> string) (e : exn) :
  Behaviour.error_document (Server.exception_doc str_exn e).
Proof.
  unfold Server.exception_doc.
  destruct (is_httperror e); apply server_error_doc_is_error_document.
Qed.

Lemma serverless_error_doc_is_error_document (msg : string) :
  Behaviour.error_document (FunctionApp.error_doc msg).
Proof.
  eexists _, msg. split; [reflexivity|].
  rewrite !list_to_map_cons, list_to_map_nil, !lookup_insert.
  split; repeat case_decide; congruence.
Qed.

Lemma server_revenue_result_fields (symbol : string) (fy fq : Z)
    (target_period doc : pyval) :
  Server.revenue_result symbol fy fq target_period = Ok doc ->
  Behaviour.result_document Spec.revenue_fields doc.
Proof.
  intros (m & -> & Hdom & _)%server_revenue_result_plain.
  exists m. split; [reflexivity|exact Hdom].
Qed.

Lemma serverless_revenue_result_fields (symbol : string) (fy fq : Z)
    (target_period doc : pyval) :
  FunctionApp.revenue_result symbol fy fq target_period = Ok doc ->
  Behaviour.result_document (Spec.revenue_fields ∪ {[ "raw_revenue"%string ]}) doc.
Proof.
  intros (m & -> & Hdom & _)%serverless_revenue_result_plain.
  exists m. split; [reflexivity|exact Hdom].
Qed.

Lemma free_cash_flow_result_fields (symbol : string) (fy fq : Z)
    (target_period doc : pyval) :
  Server.free_cash_flow_result symbol fy fq target_period = Ok doc ->
  Behaviour.result_document Behaviour.cash_flow_fields doc.
Proof.
  unfold Server.free_cash_flow_result.
  destruct (extract_free_cash_flow target_period) as [cf|e]; [|discriminate].
  cbn [mbind res_bind].
  destruct (py_get target_period "fiscalDateEnding" PyNone) as [date|e];
    [|discriminate].
  intros [= <-]. eexists. split; [reflexivity|].
  rewrite !list_to_map_cons, list_to_map_nil, !dom_insert_L, dom_empty_L.
  unfold Behaviour.cash_flow_fields. set_solver.
Qed.

(** An error document has a status field, a result document has none. *)
Lemma error_document_has_status (fields : gset string) (doc : pyval) :
  Behaviour.error_document doc ->
  Behaviour.result_document fields doc ->
  "status"%string ∈ fields.
Proof.
  intros (m & msg & -> & Hs & _) (m' & [= <-] & <-).
  apply elem_of_dom. eauto.
Qed.

Lemma status_not_a_result_field :
  ("status"%string ∉ Spec.revenue_fields) /\
  ("status"%string ∉ Spec.revenue_fields ∪ {[ "raw_revenue"%string ]}) /\
  ("status"%string ∉ Behaviour.cash_flow_fields).
Proof.
  unfold Spec.revenue_fields, Behaviour.cash_flow_fields.
  rewrite !not_elem_of_union, !not_elem_of_singleton.
  repeat split; discriminate.
Qed.

(** X1: every invocation of a tool of the standalone server returns a
    document, whatever the Report Source answers or raises, and issues
    at most one request; the document is either an error document
    (status "error" and a message) or a result document with exactly
    the fields of its kind, which has no status field. *)
Theorem server_tools_always_answer (str_exn : exn -> string) (w : world)
    (company_symbol : string) (fiscal_year fiscal_quarter : Z) :
  (exists doc n,
     run (Server.get_company_revenue str_exn w company_symbol
            fiscal_year fiscal_quarter) = (Ok doc, n) /\
     (n <= 1)%nat /\
     (Behaviour.error_document doc \/
      Behaviour.result_document Spec.revenue_fields doc)) /\
  (exists doc n,
     run (Server.get_company_free_cash_flow str_exn w company_symbol
            fiscal_year fiscal_quarter) = (Ok doc, n) /\
     (n <= 1)%nat /\
     (Behaviour.error_document doc \/
      Behaviour.result_document Behaviour.cash_flow_fields doc)) /\
  (forall doc,
     Behaviour.error_document doc ->
     ~ Behaviour.result_document Spec.revenue_fields doc /\
     ~ Behaviour.result_document Behaviour.cash_flow_fields doc).
Proof.
  split; [|split].
  - rewrite server_revenue_run. cbv zeta.
    repeat (match goal with
            | |- context [match ?x with _ => _ end] => destruct x eqn:?
            end);
      do 2 eexists; (split; [reflexivity|]); (split; [lia|]);
      first [ left; apply server_error_doc_is_error_document
            | left; apply server_exception_doc_is_error_document
            | right; eapply server_revenue_result_fields; eassumption ].
  - rewrite server_free_cash_flow_run. cbv zeta.
    repeat (match goal with
            | |- context [match ?x with _ => _ end] => destruct x eqn:?
            end);
      do 2 eexists; (split; [reflexivity|]); (split; [lia|]);
      first [ left; apply server_error_doc_is_error_document
            | left; apply server_exception_doc_is_error_document
            | right; eapply free_cash_flow_result_fields; eassumption ].
  - intros doc He.
    destruct status_not_a_result_field as (H1 & _ & H2).
    split; intros Hr; [apply H1|apply H2];
      eapply error_document_has_status; eassumption.
Qed.

Lemma get_api_key_set (w : world) (key : string) :
  Server.get_api_key w = Ok key <-> api_key w = Some key /\ key <> EmptyString.
Proof.
  unfold Server.get_api_key.
  destruct (api_key w) as [k|]; [|split; [discriminate|intros [[=] _]]].
  destruct (String.eqb_spec k EmptyString) as [->|Hne].
  - split; [discriminate|]. intros [[= <-] H]. contradiction.
  - split; [intros [= <-]; auto|]. intros [[= <-] _]. reflexivity.
Qed.

Lemma get_env_set (w : world) (name key : string) :
  FunctionApp._get_env w name = Ok key <-> api_key w = Some key /\ key <> EmptyString.
Proof.
  unfold FunctionApp._get_env.
  destruct (api_key w) as [k|]; [|split; [discriminate|intros [[=] _]]].
  destruct (String.eqb_spec k EmptyString) as [->|Hne].
  - split; [discriminate|]. intros [[= <-] H]. contradiction.
  - split; [intros [= <-]; auto|]. intros [[= <-] _]. reflexivity.
Qed.

(** The requests a tool of the standalone server issues. *)
Lemma server_revenue_requests (str_exn : exn -> string) (w : world)
    (company_symbol : string) (fiscal_year fiscal_quarter : Z) :
  Behaviour.requests
    (Server.get_company_revenue str_exn w company_symbol fiscal_year fiscal_quarter)
  = if negb (existsb (String.eqb (py_upper company_symbol)) Server.VALID_SYMBOLS)
    then []
    else if negb (existsb (Z.eqb fiscal_quarter) [1; 2; 3; 4]) then []
    else match Server.get_api_key w with
         | Ok _ => [("INCOME_STATEMENT"%string, py_upper company_symbol)]
         | Raise _ => []
         end.
Proof.
  unfold Behaviour.requests, Server.get_company_revenue. cbv zeta.
  destruct (negb (existsb _ Server.VALID_SYMBOLS)); [reflexivity|].
  destruct (negb (existsb _ [1; 2; 3; 4])); [reflexivity|].
  unfold Server.fetch_alpha_vantage, Server.on_exception.
  unfold try_except, request, lift. unfold mbind, M_bind, mret, M_ret. cbn beta iota.
  destruct (Server.get_api_key w) as [key|e]; run_step.
  destruct (http_get w "INCOME_STATEMENT" (py_upper company_symbol) key)
    as [data|e]; run_step.
  destruct (py_get data "quarterlyReports" (PyList [])) as [reports|e]; run_step.
  destruct (negb (truthy reports)); run_step.
  destruct (Server.find_quarterly_report reports fiscal_year fiscal_quarter)
    as [[target|]|e]; run_step.
  destruct (negb (truthy target)); run_step.
  destruct (Server.revenue_result (py_upper company_symbol) fiscal_year
              fiscal_quarter target); reflexivity.
Qed.

Lemma server_free_cash_flow_requests (str_exn : exn -> string) (w : world)
    (company_symbol : string) (fiscal_year fiscal_quarter : Z) :
  Behaviour.requests
    (Server.get_company_free_cash_flow str_exn w company_symbol
       fiscal_year fiscal_quarter)
  = if negb (existsb (String.eqb (py_upper company_symbol)) Server.VALID_SYMBOLS)
    then []
    else if negb (existsb (Z.eqb fiscal_quarter) [1; 2; 3; 4]) then []
    else match Server.get_api_key w with
         | Ok _ => [("CASH_FLOW"%string, py_upper company_symbol)]
         | Raise _ => []
         end.
Proof.
  unfold Behaviour.requests, Server.get_company_free_cash_flow. cbv zeta.
  destruct (negb (existsb _ Server.VALID_SYMBOLS)); [reflexivity|].
  destruct (negb (existsb _ [1; 2; 3; 4])); [reflexivity|].
  unfold Server.fetch_alpha_vantage, Server.on_exception.
  unfold try_except, request, lift. unfold mbind, M_bind, mret, M_ret. cbn beta iota.
  destruct (Server.get_api_key w) as [key|e]; run_step.
  destruct (http_get w "CASH_FLOW" (py_upper company_symbol) key)
    as [data|e]; run_step.
  destruct (py_get data "quarterlyReports" (PyList [])) as [reports|e]; run_step.
  destruct (negb (truthy reports)); run_step.
  destruct (Server.find_quarterly_report reports fiscal_year fiscal_quarter)
    as [[target|]|e]; run_step.
  destruct (negb (truthy target)); run_step.
  destruct (Server.free_cash_flow_result (py_upper company_symbol) fiscal_year
              fiscal_quarter target); reflexivity.
Qed.

(** X2: called with a symbol that is an ASCII string, a tool of the
    standalone server sends a request to the Report Source only for an
    allow-listed symbol, a quarter in 1..4 and a credential that is set
    and not empty; it then sends exactly one, for its own function
    (INCOME_STATEMENT or CASH_FLOW) and the uppercased symbol. *)
Theorem requests_only_for_valid_arguments (str_exn : exn -> string) (w : world)
    (company_symbol : string) (fiscal_year fiscal_quarter : Z) :
  ascii_string company_symbol = true ->
  (Behaviour.requests
     (Server.get_company_revenue str_exn w company_symbol fiscal_year fiscal_quarter)
   = [] \/
   (Behaviour.requests
      (Server.get_company_revenue str_exn w company_symbol fiscal_year fiscal_quarter)
    = [("INCOME_STATEMENT"%string, py_upper company_symbol)] /\
    (py_upper company_symbol ∈ Server.VALID_SYMBOLS) /\
    (fiscal_quarter ∈ [1; 2; 3; 4]) /\
    exists key, api_key w = Some key /\ key <> EmptyString)) /\
  (Behaviour.requests
     (Server.get_company_free_cash_flow str_exn w company_symbol
        fiscal_year fiscal_quarter)
   = [] \/
   (Behaviour.requests
      (Server.get_company_free_cash_flow str_exn w company_symbol
         fiscal_year fiscal_quarter)
    = [("CASH_FLOW"%string, py_upper company_symbol)] /\
    (py_upper company_symbol ∈ Server.VALID_SYMBOLS) /\
    (fiscal_quarter ∈ [1; 2; 3; 4]) /\
    exists key, api_key w = Some key /\ key <> EmptyString)).
Proof.
  intros _.
  rewrite server_revenue_requests, server_free_cash_flow_requests.
  destruct (existsb (String.eqb (py_upper company_symbol)) Server.VALID_SYMBOLS)
    eqn:Hs; cbn [negb]; [|split; left; reflexivity].
  destruct (existsb (Z.eqb fiscal_quarter) [1; 2; 3; 4]) eqn:Hq; cbn [negb];
    [|split; left; reflexivity].
  apply existsb_string_elem_of in Hs. apply existsb_Z_elem_of in Hq.
  destruct (Server.get_api_key w) as [key|e] eqn:Hk; [|split; left; reflexivity].
  apply get_api_key_set in Hk.
  split; right; (split; [reflexivity|]); eauto.
Qed.

Lemma requests_only_for_valid_arguments_witness :
  Behaviour.requests
    (Server.get_company_revenue Sample.exception_text Sample.june_2024_source
       "goog" 2024 4) = [] \/
  (Behaviour.requests
     (Server.get_company_revenue Sample.exception_text Sample.june_2024_source
        "goog" 2024 4)
   = [("INCOME_STATEMENT"%string, py_upper "goog")] /\
   (py_upper "goog" ∈ Server.VALID_SYMBOLS) /\
   (4 ∈ [1; 2; 3; 4]) /\
   exists key, api_key Sample.june_2024_source = Some key /\ key <> EmptyString).
Proof.
  apply (requests_only_for_valid_arguments Sample.exception_text
           Sample.june_2024_source "goog" 2024 4).
  reflexivity.
Defined.

(** The requests a serverless handler issues. *)
Lemma serverless_revenue_requests (str_exn : exn -> string)
    (json_loads : string -> res pyval) (w : world) (context : pyval) :
  Behaviour.requests (FunctionApp.get_company_revenue str_exn json_loads w context)
  = match FunctionApp.read_arguments json_loads context with
    | Raise e => []
    | Ok (symbol, fiscal_year, fiscal_quarter) =>
        if negb (existsb (String.eqb symbol) FunctionApp.valid_symbols) then []
        else if negb (existsb (Z.eqb fiscal_quarter) [1; 2; 3; 4]) then []
        else match FunctionApp._get_env w "ALPHAVANTAGE_API_KEY" with
             | Ok _ => [("INCOME_STATEMENT"%string, symbol)]
             | Raise _ => []
             end
    end.
Proof.
  unfold Behaviour.requests, FunctionApp.get_company_revenue, FunctionApp.on_exception.
  unfold try_except, request, lift. unfold mbind, M_bind, mret, M_ret. cbn beta iota.
  destruct (FunctionApp.read_arguments json_loads context)
    as [[[symbol fiscal_year] fiscal_quarter]|e]; run_step.
  destruct (negb (existsb _ FunctionApp.valid_symbols)); run_step.
  destruct (negb (existsb _ [1; 2; 3; 4])); run_step.
  destruct (FunctionApp._get_env w "ALPHAVANTAGE_API_KEY") as [key|e]; run_step.
  destruct (http_get w "INCOME_STATEMENT" symbol key) as [data|e]; run_step.
  destruct (py_get data "quarterlyReports" (PyList [])) as [reports|e]; run_step.
  destruct (FunctionApp.select_report reports fiscal_year fiscal_quarter)
    as [[target|]|e]; run_step.
  destruct (FunctionApp.revenue_result symbol fiscal_year fiscal_quarter target);
    reflexivity.
Qed.

Lemma serverless_free_cash_flow_requests (str_exn : exn -> string)
    (json_loads : string -> res pyval) (w : world) (context : pyval) :
  Behaviour.requests
    (FunctionApp.get_company_free_cash_flow str_exn json_loads w context)
  = match FunctionApp.read_arguments json_loads context with
    | Raise e => []
    | Ok (symbol, fiscal_year, fiscal_quarter) =>
        if negb (existsb (String.eqb symbol) FunctionApp.valid_symbols) then []
        else if negb (existsb (Z.eqb fiscal_quarter) [1; 2; 3; 4]) then []
        else match FunctionApp._get_env w "ALPHAVANTAGE_API_KEY" with
             | Ok _ => [("CASH_FLOW"%string, symbol)]
             | Raise _ => []
             end
    end.
Proof.
  unfold Behaviour.requests, FunctionApp.get_company_free_cash_flow,
    FunctionApp.on_exception.
  unfold try_except, request, lift. unfold mbind, M_bind, mret, M_ret. cbn beta iota.
  destruct (FunctionApp.read_arguments json_loads context)
    as [[[symbol fiscal_year] fiscal_quarter]|e]; run_step.
  destruct (negb (existsb _ FunctionApp.valid_symbols)); run_step.
  destruct (negb (existsb _ [1; 2; 3; 4])); run_step.
  destruct (FunctionApp._get_env w "ALPHAVANTAGE_API_KEY") as [key|e]; run_step.
  destruct (http_get w "CASH_FLOW" symbol key) as [data|e]; run_step.
  destruct (py_get data "quarterlyReports" (PyList [])) as [reports|e]; run_step.
  destruct (FunctionApp.select_report reports fiscal_year fiscal_quarter)
    as [[target|]|e]; run_step.
  destruct (FunctionApp.free_cash_flow_result symbol fiscal_year fiscal_quarter target);
    reflexivity.
Qed.

Lemma serverless_plain_error_doc_is_error_document (msg : string) :
  Behaviour.error_document (FunctionApp.plain_error_doc msg).
Proof. apply server_error_doc_is_error_document. Qed.

(** X3: once its arguments are decoded, the symbol being an ASCII
    string, a serverless handler returns a document, whatever the
    Report Source answers or raises: an error document or a result
    document with exactly the fields of its kind; it issues at most one
    request, for its own function and for the decoded symbol, and none
    unless the symbol is allow-listed and the quarter is in 1..4. *)
Theorem serverless_handlers_answer_decoded_arguments
    (str_exn : exn -> string) (json_loads : string -> res pyval) (w : world)
    (context : pyval) (symbol : string) (fiscal_year fiscal_quarter : Z) :
  FunctionApp.read_arguments json_loads context
  = Ok (symbol, fiscal_year, fiscal_quarter) ->
  ascii_string symbol = true ->
  (exists doc,
     fst (run (FunctionApp.get_company_revenue str_exn json_loads w context))
     = Ok doc /\
     (Behaviour.error_document doc \/
      Behaviour.result_document
        (Spec.revenue_fields ∪ {[ "raw_revenue"%string ]}) doc)) /\
  (exists doc,
     fst (run (FunctionApp.get_company_free_cash_flow str_exn json_loads w context))
     = Ok doc /\
     (Behaviour.error_document doc \/
      Behaviour.result_document Behaviour.cash_flow_fields doc)) /\
  (Behaviour.requests (FunctionApp.get_company_revenue str_exn json_loads w context)
   = [] \/
   Behaviour.requests (FunctionApp.get_company_revenue str_exn json_loads w context)
   = [("INCOME_STATEMENT"%string, symbol)] /\
   (symbol ∈ FunctionApp.valid_symbols) /\ (fiscal_quarter ∈ [1; 2; 3; 4])) /\
  (Behaviour.requests
     (FunctionApp.get_company_free_cash_flow str_exn json_loads w context)
   = [] \/
   Behaviour.requests
     (FunctionApp.get_company_free_cash_flow str_exn json_loads w context)
   = [("CASH_FLOW"%string, symbol)] /\
   (symbol ∈ FunctionApp.valid_symbols) /\ (fiscal_quarter ∈ [1; 2; 3; 4])).
Proof.
  intros Ha _.
  rewrite serverless_revenue_run, serverless_free_cash_flow_run,
    serverless_revenue_requests, serverless_free_cash_flow_requests, Ha.
  split; [|split].
  - repeat (match goal with
            | |- context [match ?x with _ => _ end] => destruct x eqn:?
            end);
      eexists; (split; [reflexivity|]);
      first [ left; apply serverless_plain_error_doc_is_error_document
            | left; apply serverless_error_doc_is_error_document
            | right; eapply serverless_revenue_result_fields; eassumption ].
  - repeat (match goal with
            | |- context [match ?x with _ => _ end] => destruct x eqn:?
            end);
      eexists; (split; [reflexivity|]);
      first [ left; apply serverless_plain_error_doc_is_error_document
            | left; apply serverless_error_doc_is_error_document
            | right; eapply free_cash_flow_result_fields; eassumption ].
  - destruct (existsb (String.eqb symbol) FunctionApp.valid_symbols) eqn:Hs;
      cbn [negb]; [|split; left; reflexivity].
    destruct (existsb (Z.eqb fiscal_quarter) [1; 2; 3; 4]) eqn:Hq; cbn [negb];
      [|split; left; reflexivity].
    apply existsb_string_elem_of in Hs. apply existsb_Z_elem_of in Hq.
    destruct (FunctionApp._get_env w "ALPHAVANTAGE_API_KEY");
      [|split; left; reflexivity].
    split; right; auto.
Qed.

Lemma serverless_handlers_answer_decoded_arguments_witness :
  exists doc,
    fst (run (FunctionApp.get_company_revenue Sample.exception_text
                (fun _ => Ok PyNone) Sample.june_2024_source
                (dict [("arguments", dict [("company_symbol", PyStr "msft")])])))
    = Ok doc /\
    (Behaviour.error_document doc \/
     Behaviour.result_document
       (Spec.revenue_fields ∪ {[ "raw_revenue"%string ]}) doc).
Proof.
  apply (serverless_handlers_answer_decoded_arguments Sample.exception_text
           (fun _ => Ok PyNone) Sample.june_2024_source
           (dict [("arguments", dict [("company_symbol", PyStr "msft")])])
           "MSFT" 2024 4).
  - vm_compute. reflexivity.
  - reflexivity.
Defined.

(** ** Further properties: the error paths *)

(** X4: when the credential is not set, or is set to the empty string,
    a tool called with valid arguments returns an error document that
    carries the text of the exception of [get_api_key] (standalone
    server) or [_get_env] (serverless handlers), and no request is sent
    to the Report Source. *)
Theorem missing_credential_is_reported_without_request
    (str_exn : exn -> string) (json_loads : string -> res pyval) (w : world)
    (symbol : string) (fiscal_year fiscal_quarter : Z) :
  api_key w = None \/ api_key w = Some EmptyString ->
  symbol ∈ Server.VALID_SYMBOLS ->
  fiscal_quarter ∈ [1; 2; 3; 4] ->
  (forall company_symbol,
     py_upper company_symbol = symbol ->
     run (Server.get_company_revenue str_exn w company_symbol
            fiscal_year fiscal_quarter)
     = (Ok (Server.error_doc
              (str_exn (OtherError "ValueError"
                          "ALPHAVANTAGE_API_KEY environment variable is required"))),
        0%nat) /\
     run (Server.get_company_free_cash_flow str_exn w company_symbol
            fiscal_year fiscal_quarter)
     = (Ok (Server.error_doc
              (str_exn (OtherError "ValueError"
                          "ALPHAVANTAGE_API_KEY environment variable is required"))),
        0%nat)) /\
  (forall context,
     FunctionApp.read_arguments json_loads context
     = Ok (symbol, fiscal_year, fiscal_quarter) ->
     run (FunctionApp.get_company_revenue str_exn json_loads w context)
     = (Ok (FunctionApp.error_doc
              (str_exn (OtherError "RuntimeError"
                          "Missing required environment variable: ALPHAVANTAGE_API_KEY"))),
        0%nat) /\
     run (FunctionApp.get_company_free_cash_flow str_exn json_loads w context)
     = (Ok (FunctionApp.error_doc
              (str_exn (OtherError "RuntimeError"
                          "Missing required environment variable: ALPHAVANTAGE_API_KEY"))),
        0%nat)).
Proof.
  intros Hk Hs%existsb_string_elem_of Hq%existsb_Z_elem_of.
  assert (Hsrv : Server.get_api_key w
                 = Raise (OtherError "ValueError"
                            "ALPHAVANTAGE_API_KEY environment variable is required"))
    by (unfold Server.get_api_key; destruct Hk as [-> | ->]; reflexivity).
  assert (Hfa : FunctionApp._get_env w "ALPHAVANTAGE_API_KEY"
                = Raise (OtherError "RuntimeError"
                           "Missing required environment variable: ALPHAVANTAGE_API_KEY"))
    by (unfold FunctionApp._get_env; destruct Hk as [-> | ->]; reflexivity).
  split.
  - intros company_symbol Hup.
    rewrite server_revenue_run, server_free_cash_flow_run. cbv zeta.
    rewrite Hup, Hs, Hq, Hsrv. split; reflexivity.
  - intros context Ha.
    rewrite serverless_revenue_run, serverless_free_cash_flow_run, Ha.
    change FunctionApp.valid_symbols with Server.VALID_SYMBOLS.
    rewrite Hs, Hq, Hfa. split; reflexivity.
Qed.

Lemma missing_credential_is_reported_without_request_witness :
  run (Server.get_company_revenue Sample.exception_text Sample.unset_credential
         "tsla" 2024 4)
  = (Ok (Server.error_doc "ALPHAVANTAGE_API_KEY environment variable is required"),
     0%nat).
Proof.
  assert (Hs : ("TSLA"%string) ∈ Server.VALID_SYMBOLS)
    by (apply existsb_string_elem_of; reflexivity).
  assert (Hq : 4 ∈ [1; 2; 3; 4]) by (apply existsb_Z_elem_of; reflexivity).
  destruct (missing_credential_is_reported_without_request Sample.exception_text
              (fun _ => Ok PyNone) Sample.unset_credential
              "TSLA" 2024 4 (or_intror eq_refl) Hs Hq) as [H _].
  destruct (H "tsla"%string) as [Hrun _]; [vm_compute; reflexivity|].
  exact Hrun.
Defined.

(** X5: when the request to the Report Source raises, a tool returns an
    error document after exactly that one request, without a second
    attempt: the standalone server prefixes the text of an exception of
    the transport with "HTTP error: " and gives the text of any other
    exception as it is; the serverless handlers give the text as it is,
    with their note. *)
Theorem upstream_failure_is_reported
    (str_exn : exn -> string) (json_loads : string -> res pyval) (w : world)
    (function symbol : string) (fiscal_year fiscal_quarter : Z) (e : exn) :
  symbol ∈ Server.VALID_SYMBOLS ->
  fiscal_quarter ∈ [1; 2; 3; 4] ->
  Behaviour.upstream_answer w function symbol (Raise e) ->
  (function = "INCOME_STATEMENT"%string ->
   (forall company_symbol,
      py_upper company_symbol = symbol ->
      run (Server.get_company_revenue str_exn w company_symbol
             fiscal_year fiscal_quarter)
      = (Ok (Server.error_doc
               (if is_httperror e then "HTTP error: " +:+ str_exn e else str_exn e)),
         1%nat)) /\
   (forall context,
      FunctionApp.read_arguments json_loads context
      = Ok (symbol, fiscal_year, fiscal_quarter) ->
      run (FunctionApp.get_company_revenue str_exn json_loads w context)
      = (Ok (FunctionApp.error_doc (str_exn e)), 1%nat))) /\
  (function = "CASH_FLOW"%string ->
   (forall company_symbol,
      py_upper company_symbol = symbol ->
      run (Server.get_company_free_cash_flow str_exn w company_symbol
             fiscal_year fiscal_quarter)
      = (Ok (Server.error_doc
               (if is_httperror e then "HTTP error: " +:+ str_exn e else str_exn e)),
         1%nat)) /\
   (forall context,
      FunctionApp.read_arguments json_loads context
      = Ok (symbol, fiscal_year, fiscal_quarter) ->
      run (FunctionApp.get_company_free_cash_flow str_exn json_loads w context)
      = (Ok (FunctionApp.error_doc (str_exn e)), 1%nat))).
Proof.
  intros Hs%existsb_string_elem_of Hq%existsb_Z_elem_of (key & Hkey & Hne & Hget).
  assert (Hsrv : Server.get_api_key w = Ok key) by (apply get_api_key_set; auto).
  assert (Hfa : FunctionApp._get_env w "ALPHAVANTAGE_API_KEY" = Ok key)
    by (apply get_env_set; auto).
  assert (Hdoc : Server.exception_doc str_exn e
                 = Server.error_doc
                     (if is_httperror e then "HTTP error: " +:+ str_exn e
                      else str_exn e))
    by (unfold Server.exception_doc; destruct (is_httperror e); reflexivity).
  split; intros ->; (split; [intros company_symbol Hup|intros context Ha]).
  - rewrite server_revenue_run. cbv zeta.
    rewrite Hup, Hs, Hq, Hsrv, Hget, Hdoc. reflexivity.
  - rewrite serverless_revenue_run, Ha.
    change FunctionApp.valid_symbols with Server.VALID_SYMBOLS.
    rewrite Hs, Hq, Hfa, Hget. reflexivity.
  - rewrite server_free_cash_flow_run. cbv zeta.
    rewrite Hup, Hs, Hq, Hsrv, Hget, Hdoc. reflexivity.
  - rewrite serverless_free_cash_flow_run, Ha.
    change FunctionApp.valid_symbols with Server.VALID_SYMBOLS.
    rewrite Hs, Hq, Hfa, Hget. reflexivity.
Qed.

Lemma upstream_failure_is_reported_witness :
  run (Server.get_company_revenue Sample.exception_text Sample.unavailable_source
         "nvda" 2024 4)
  = (Ok (Server.error_doc "HTTP error: 503 Service Unavailable"), 1%nat).
Proof.
  assert (Hs : ("NVDA"%string) ∈ Server.VALID_SYMBOLS)
    by (apply existsb_string_elem_of; reflexivity).
  assert (Hq : 4 ∈ [1; 2; 3; 4]) by (apply existsb_Z_elem_of; reflexivity).
  assert (Hu : Behaviour.upstream_answer Sample.unavailable_source
                 "INCOME_STATEMENT" "NVDA"
                 (Raise (HTTPError "503 Service Unavailable"))).
  { exists "demo"%string. repeat split. discriminate. }
  destruct (upstream_failure_is_reported Sample.exception_text (fun _ => Ok PyNone)
              _ _ _ 2024 4 _ Hs Hq Hu) as [H _].
  destruct (H eq_refl) as [Hsrv _].
  apply (Hsrv "nvda"%string). vm_compute. reflexivity.
Defined.

(** X6: when the payload of the Report Source is a dict whose
    quarterlyReports is absent or the empty list, as when it carries a
    notice instead of data, a tool returns the error document "No
    quarterly data available" (revenue) or "No quarterly cash flow data
    available" (free cash flow), in both deployments, after one
    request. *)
Theorem no_reports_no_data_document
    (str_exn : exn -> string) (json_loads : string -> res pyval) (w : world)
    (function symbol : string) (fiscal_year fiscal_quarter : Z) (data : pyval) :
  symbol ∈ Server.VALID_SYMBOLS ->
  fiscal_quarter ∈ [1; 2; 3; 4] ->
  Behaviour.upstream_answer w function symbol (Ok data) ->
  Behaviour.no_reports data ->
  (function = "INCOME_STATEMENT"%string ->
   (forall company_symbol,
      py_upper company_symbol = symbol ->
      run (Server.get_company_revenue str_exn w company_symbol
             fiscal_year fiscal_quarter)
      = (Ok (Server.error_doc "No quarterly data available"), 1%nat)) /\
   (forall context,
      FunctionApp.read_arguments json_loads context
      = Ok (symbol, fiscal_year, fiscal_quarter) ->
      run (FunctionApp.get_company_revenue str_exn json_loads w context)
      = (Ok (FunctionApp.plain_error_doc "No quarterly data available"), 1%nat))) /\
  (function = "CASH_FLOW"%string ->
   (forall company_symbol,
      py_upper company_symbol = symbol ->
      run (Server.get_company_free_cash_flow str_exn w company_symbol
             fiscal_year fiscal_quarter)
      = (Ok (Server.error_doc "No quarterly cash flow data available"), 1%nat)) /\
   (forall context,
      FunctionApp.read_arguments json_loads context
      = Ok (symbol, fiscal_year, fiscal_quarter) ->
      run (FunctionApp.get_company_free_cash_flow str_exn json_loads w context)
      = (Ok (FunctionApp.plain_error_doc "No quarterly cash flow data available"),
         1%nat))).
Proof.
  intros Hs%existsb_string_elem_of Hq%existsb_Z_elem_of (key & Hkey & Hne & Hget)
    (m & -> & Hm).
  assert (Hsrv : Server.get_api_key w = Ok key) by (apply get_api_key_set; auto).
  assert (Hfa : FunctionApp._get_env w "ALPHAVANTAGE_API_KEY" = Ok key)
    by (apply get_env_set; auto).
  assert (Hr : py_get (PyDict m) "quarterlyReports" (PyList []) = Ok (PyList []))
    by (cbn [py_get]; destruct Hm as [-> | ->]; reflexivity).
  split; intros ->; (split; [intros company_symbol Hup|intros context Ha]).
  - rewrite server_revenue_run. cbv zeta.
    rewrite Hup, Hs, Hq, Hsrv, Hget, Hr. reflexivity.
  - rewrite serverless_revenue_run, Ha.
    change FunctionApp.valid_symbols with Server.VALID_SYMBOLS.
    rewrite Hs, Hq, Hfa, Hget, Hr. reflexivity.
  - rewrite server_free_cash_flow_run. cbv zeta.
    rewrite Hup, Hs, Hq, Hsrv, Hget, Hr. reflexivity.
  - rewrite serverless_free_cash_flow_run, Ha.
    change FunctionApp.valid_symbols with Server.VALID_SYMBOLS.
    rewrite Hs, Hq, Hfa, Hget, Hr. reflexivity.
Qed.

Lemma no_reports_no_data_document_witness :
  run (Server.get_company_free_cash_flow Sample.exception_text Sample.notice_source
         "msft" 2024 4)
  = (Ok (Server.error_doc "No quarterly cash flow data available"), 1%nat).
Proof.
  assert (Hs : ("MSFT"%string) ∈ Server.VALID_SYMBOLS)
    by (apply existsb_string_elem_of; reflexivity).
  assert (Hq : 4 ∈ [1; 2; 3; 4]) by (apply existsb_Z_elem_of; reflexivity).
  assert (Hu : Behaviour.upstream_answer Sample.notice_source "CASH_FLOW" "MSFT"
                 (Ok (dict [("Information", PyStr "rate limit reached")]))).
  { exists "demo"%string. repeat split. discriminate. }
  assert (Hn : Behaviour.no_reports
                 (dict [("Information", PyStr "rate limit reached")])).
  { eexists. split; [reflexivity|]. left. vm_compute. reflexivity. }
  destruct (no_reports_no_data_document Sample.exception_text (fun _ => Ok PyNone)
              _ _ _ 2024 4 _ Hs Hq Hu Hn) as [_ H].
  destruct (H eq_refl) as [Hsrv _].
  apply (Hsrv "msft"%string). vm_compute. reflexivity.
Defined.

(** ** Further properties: the selection of the report *)

(** What the choice between the first match and the first record
    yields: a record of the list, and nothing for the empty list
    alone. *)
Lemma first_or_head_spec (matches : pyval -> bool) (reports : list pyval) :
  (Spec.first_or_head matches reports = None <-> reports = []) /\
  (forall report,
     Spec.first_or_head matches reports = Some report -> report ∈ reports).
Proof.
  unfold Spec.first_or_head.
  destruct (List.find matches reports) as [found|] eqn:Hf.
  - split.
    + split; [discriminate|]. intros ->. discriminate Hf.
    + intros report [= <-]. apply List.find_some in Hf as [Hin _].
      apply list_elem_of_In, Hin.
  - split.
    + destruct reports; simpl; split; congruence.
    + intros report Hh. destruct reports as [|first rest]; [discriminate|].
      injection Hh as ->. apply list_elem_of_here.
Qed.

Lemma find_quarterly_report_sound (reports : list pyval) (fy fq : Z)
    (x : option pyval) :
  Server.find_quarterly_report (PyList reports) fy fq = Ok x ->
  x = Spec.first_or_head (Spec.exact_match fy fq) reports.
Proof.
  rewrite find_quarterly_report_list. unfold Spec.first_or_head.
  destruct (Server.scan_reports reports fy fq) as [[found|]|e] eqn:Hs;
    [| |discriminate]; apply server_scan_sound in Hs; rewrite <- Hs;
    intros [= <-]; reflexivity.
Qed.

(** X7: whenever [find_quarterly_report] returns, whatever the records
    are made of, it has returned the first record that matches the
    period with a date of 7 characters or more, or else the first
    record of the list; what it returns is a record of the list, and it
    returns none exactly when the list is empty. *)
Theorem find_quarterly_report_returns_a_record
    (reports : list pyval) (fiscal_year fiscal_quarter : Z) (x : option pyval) :
  Server.find_quarterly_report (PyList reports) fiscal_year fiscal_quarter = Ok x ->
  x = Spec.first_or_head (Spec.exact_match fiscal_year fiscal_quarter) reports /\
  (x = None <-> reports = []) /\
  (forall report, x = Some report -> report ∈ reports).
Proof.
  intros ->%find_quarterly_report_sound.
  split; [reflexivity|]. apply first_or_head_spec.
Qed.

Lemma find_quarterly_report_returns_a_record_witness :
  Some Sample.undated
  = Spec.first_or_head (Spec.exact_match 2024 4) [Sample.undated].
Proof.
  apply (find_quarterly_report_returns_a_record [Sample.undated] 2024 4
           (Some Sample.undated)).
  vm_compute. reflexivity.
Defined.

(** The loop goes through well-dated records that do not match. *)
Lemma server_scan_passes_over (before rest : list pyval) (fy fq : Z) :
  Forall Spec.well_dated before ->
  List.find (Spec.exact_match fy fq) before = None ->
  Server.scan_reports (before ++ rest) fy fq = Server.scan_reports rest fy fq.
Proof.
  induction 1 as [|report before Hw _ IH]; [reflexivity|].
  cbn [List.find app]. intros Hf.
  destruct (Spec.exact_match fy fq report) eqn:Hm; [discriminate|].
  specialize (IH Hf).
  destruct Hw as (m & -> & [Hd|(date & Hd & Hdate)]).
  - rewrite (server_scan_undated _ _ _ _ Hd). exact IH.
  - destruct (le_lt_dec 7 (String.length date)) as [Hlen|Hlen].
    + rewrite (server_scan_dated _ _ _ _ _ Hd Hlen).
      destruct Hdate as [Hs|[[y ->] [mo ->]]]; [lia|].
      unfold Spec.exact_match, Spec.date_of in Hm. rewrite Hd in Hm.
      destruct (Z.leb_spec 7 (Z.of_nat (String.length date))); [|lia].
      cbn [andb] in Hm. rewrite Hm. exact IH.
    + rewrite (server_scan_short _ _ _ _ _ Hd Hlen). exact IH.
Qed.

(** A record that matches is returned by the turn of the loop that
    reaches it. *)
Lemma server_scan_match (report : pyval) (rest : list pyval) (fy fq : Z) :
  Spec.exact_match fy fq report = true ->
  Server.scan_reports (report :: rest) fy fq = Ok (Some report).
Proof.
  unfold Spec.exact_match, Spec.date_of.
  destruct report as [| | | | | |m]; try discriminate.
  destruct (m !! "fiscalDateEnding") as [[| | | |date| |]|] eqn:Hd; try discriminate.
  intros [Hlen Hp]%andb_prop. apply Z.leb_le in Hlen.
  rewrite (server_scan_dated _ _ _ _ _ Hd) by lia.
  rewrite Hp. apply bool_decide_eq_true in Hp. unfold Spec.period_of in Hp.
  destruct (parse_int (substring 0 4 date)); [|discriminate].
  destruct (parse_int (substring 5 2 date)); [|discriminate].
  reflexivity.
Qed.

(** X8: [find_quarterly_report] stops at the first match: when the
    records before a matching record are well dated and do not match,
    the matching record is returned whatever follows it in the list,
    records that are not dicts or whose dates do not parse included. *)
Theorem find_quarterly_report_stops_at_first_match
    (before after : list pyval) (report : pyval) (fiscal_year fiscal_quarter : Z) :
  Forall Spec.well_dated before ->
  List.find (Spec.exact_match fiscal_year fiscal_quarter) before = None ->
  Spec.exact_match fiscal_year fiscal_quarter report = true ->
  Server.find_quarterly_report (PyList (before ++ report :: after))
    fiscal_year fiscal_quarter
  = Ok (Some report).
Proof.
  intros Hw Hf Hm.
  rewrite find_quarterly_report_list, (server_scan_passes_over _ _ _ _ Hw Hf),
    (server_scan_match _ _ _ _ Hm).
  reflexivity.
Qed.

Lemma find_quarterly_report_stops_at_first_match_witness :
  Server.find_quarterly_report
    (PyList ([Sample.sept_2024_short] ++ Sample.june_2024 :: [PyNone; PyInt 7]))
    2024 4
  = Ok (Some Sample.june_2024).
Proof.
  apply (find_quarterly_report_stops_at_first_match
           [Sample.sept_2024_short] [PyNone; PyInt 7] Sample.june_2024 2024 4).
  - constructor; [|constructor].
    eexists. split; [reflexivity|]. right. exists "2024-9"%string.
    split; [vm_compute; reflexivity|]. left. simpl. lia.
  - vm_compute. reflexivity.
  - vm_compute. reflexivity.
Defined.

(** Whenever the serverless loop ends without an exception, it has
    returned the first record whose date matches the period, if there
    is one. *)
Lemma serverless_scan_sound (reports : list pyval) (fy fq : Z) (x : option pyval) :
  FunctionApp.scan_reports reports fy fq = Ok x ->
  x = List.find (Spec.dated_match fy fq) reports.
Proof.
  induction reports as [|report rest IH]; [intros [= <-]; reflexivity|].
  intros H. cbn [List.find].
  destruct report as [| b | z | f | s | l | m]; try discriminate H.
  unfold Spec.dated_match, Spec.date_of.
  destruct (m !! "fiscalDateEnding") as [d|] eqn:Hd.
  - destruct d as [| b | z | f | date | l | dm];
      try (exfalso; simpl in H; rewrite Hd in H; discriminate H).
    rewrite (serverless_scan_dated _ _ _ _ _ Hd) in H.
    destruct (parse_int (substring 0 4 date)); [|discriminate].
    destruct (parse_int (substring 5 2 date)); [|discriminate].
    destruct (bool_decide _); [congruence|auto].
  - exfalso. simpl in H. rewrite Hd in H. discriminate H.
Qed.

Lemma dated_match_truthy (fy fq : Z) (report : pyval) :
  Spec.dated_match fy fq report = true -> truthy report = true.
Proof.
  unfold Spec.dated_match, Spec.date_of.
  destruct report as [| | | | | |m]; try discriminate.
  destruct (m !! "fiscalDateEnding") eqn:Hd; [|discriminate].
  intros _. simpl. case_bool_decide as Hm; [|reflexivity].
  rewrite Hm, lookup_empty in Hd. discriminate.
Qed.

(** The selection of the serverless handlers on a list, in terms of
    its loop. *)
Lemma select_report_list (reports : list pyval) (fy fq : Z) (x : option pyval) :
  FunctionApp.select_report (PyList reports) fy fq = Ok x ->
  exists found,
    FunctionApp.scan_reports reports fy fq = Ok found /\
    x = match found with Some report => Some report | None => head reports end.
Proof.
  unfold FunctionApp.select_report. cbn [py_iter mbind res_bind].
  destruct (FunctionApp.scan_reports reports fy fq) as [[found|]|e] eqn:Hs;
    [| |discriminate]; cbn [mbind res_bind falsy].
  - pose proof Hs as Hf. apply serverless_scan_sound in Hf. symmetry in Hf.
    apply List.find_some in Hf as [_ Hm]. rewrite (dated_match_truthy _ _ _ Hm).
    cbn [negb]. intros [= <-]. eauto.
  - destruct reports as [|first rest]; cbn [truthy negb].
    + intros [= <-]. eauto.
    + cbn [py_first mbind res_bind].
      destruct (py_get first "fiscalDateEnding" PyNone); [|discriminate].
      cbn [mbind res_bind]. intros [= <-]. eauto.
Qed.

Lemma select_report_sound (reports : list pyval) (fy fq : Z) (x : option pyval) :
  FunctionApp.select_report (PyList reports) fy fq = Ok x ->
  x = Spec.first_or_head (Spec.dated_match fy fq) reports.
Proof.
  intros (found & Hs & ->)%select_report_list. unfold Spec.first_or_head.
  apply serverless_scan_sound in Hs. rewrite <- Hs. reflexivity.
Qed.

(** X9: whenever the selection of the serverless handlers ends without
    an exception, it has selected the first record whose date matches
    the period, a date of fewer than 7 characters included, or else the
    first record of the list; what it selects is a record of the list,
    and it selects none exactly when the list is empty. *)
Theorem select_report_returns_a_record
    (reports : list pyval) (fiscal_year fiscal_quarter : Z) (x : option pyval) :
  FunctionApp.select_report (PyList reports) fiscal_year fiscal_quarter = Ok x ->
  x = Spec.first_or_head (Spec.dated_match fiscal_year fiscal_quarter) reports /\
  (x = None <-> reports = []) /\
  (forall report, x = Some report -> report ∈ reports).
Proof.
  intros ->%select_report_sound.
  split; [reflexivity|]. apply first_or_head_spec.
Qed.

Lemma select_report_returns_a_record_witness :
  Some Sample.sept_2024_short
  = Spec.first_or_head (Spec.dated_match 2024 1)
      [Sample.june_2023; Sample.sept_2024_short].
Proof.
  apply (select_report_returns_a_record [Sample.june_2023; Sample.sept_2024_short]
           2024 1 (Some Sample.sept_2024_short)).
  vm_compute. reflexivity.
Defined.

Lemma exact_match_quarter_range (fy fq : Z) (report : pyval) :
  Spec.exact_match fy fq report = true -> 1 <= fq <= 4.
Proof.
  unfold Spec.exact_match. destruct (Spec.date_of report) as [date|]; [|discriminate].
  intros [_ Hp%bool_decide_eq_true]%andb_prop. unfold Spec.period_of in Hp.
  destruct (parse_int (substring 0 4 date)); [|discriminate].
  destruct (parse_int (substring 5 2 date)) as [month|]; [|discriminate].
  cbn [mbind option_bind] in Hp.
  destruct (Server.map_month_to_quarter month) as [q|] eqn:Hq; [|discriminate].
  injection Hp as _ <-. eapply map_month_to_quarter_range, Hq.
Qed.

Lemma dated_match_quarter_range (fy fq : Z) (report : pyval) :
  Spec.dated_match fy fq report = true -> 1 <= fq <= 4.
Proof.
  unfold Spec.dated_match. destruct (Spec.date_of report) as [date|]; [|discriminate].
  intros Hp%bool_decide_eq_true. unfold Spec.period_of in Hp.
  destruct (parse_int (substring 0 4 date)); [|discriminate].
  destruct (parse_int (substring 5 2 date)) as [month|]; [|discriminate].
  cbn [mbind option_bind] in Hp.
  destruct (Server.map_month_to_quarter month) as [q|] eqn:Hq; [|discriminate].
  injection Hp as _ <-. eapply map_month_to_quarter_range, Hq.
Qed.

Lemma find_none_when_no_match {A} (f : A -> bool) (l : list A) :
  (forall a, f a = true -> False) -> List.find f l = None.
Proof.
  intros H. destruct (List.find f l) as [a|] eqn:Hf; [|reflexivity].
  apply List.find_some in Hf as [_ Hf]. destruct (H a Hf).
Qed.

(** X10: the selection itself does not check the quarter: for a
    requested quarter outside 1..4 no record is ever matched, and
    whenever the selection returns, in either deployment, it returns
    the first record of the list (none for the empty list). *)
Theorem quarter_outside_range_selects_first_record
    (reports : list pyval) (fiscal_year fiscal_quarter : Z) :
  ~ (1 <= fiscal_quarter <= 4) ->
  (forall x,
     Server.find_quarterly_report (PyList reports) fiscal_year fiscal_quarter = Ok x ->
     x = head reports) /\
  (forall x,
     FunctionApp.select_report (PyList reports) fiscal_year fiscal_quarter = Ok x ->
     x = head reports).
Proof.
  intros Hq. split; intros x Hx.
  - apply find_quarterly_report_sound in Hx as ->.
    unfold Spec.first_or_head. rewrite find_none_when_no_match; [reflexivity|].
    intros report Hm%exact_match_quarter_range. contradiction.
  - apply select_report_sound in Hx as ->.
    unfold Spec.first_or_head. rewrite find_none_when_no_match; [reflexivity|].
    intros report Hm%dated_match_quarter_range. contradiction.
Qed.

Lemma quarter_outside_range_selects_first_record_witness :
  Some Sample.june_2023 = head [Sample.june_2023; Sample.june_2024].
Proof.
  destruct (quarter_outside_range_selects_first_record
              [Sample.june_2023; Sample.june_2024] 2024 5 ltac:(lia)) as [H _].
  apply H. vm_compute. reflexivity.
Defined.

(** ** Further properties: the two deployments side by side *)

(** The result of the serverless revenue handler is that of the
    standalone server with the raw field added, and the two fail
    alike. *)
Lemma serverless_revenue_result_extends (symbol : string) (fy fq : Z)
    (target_period : pyval) :
  match Server.revenue_result symbol fy fq target_period with
  | Ok doc =>
      exists m raw,
        doc = PyDict m /\ m !! "raw_revenue" = None /\
        py_get target_period "totalRevenue" (PyStr "0") = Ok raw /\
        FunctionApp.revenue_result symbol fy fq target_period
        = Ok (PyDict (<["raw_revenue" := raw]> m))
  | Raise e => FunctionApp.revenue_result symbol fy fq target_period = Raise e
  end.
Proof.
  unfold Server.revenue_result, FunctionApp.revenue_result, extract_revenue.
  destruct (py_get target_period "totalRevenue" (PyStr "0")) as [raw|e];
    [|reflexivity].
  cbn [mbind res_bind].
  match goal with
  | |- context [if ?b then ?x else ?y] => destruct (if b then x else y) as [rev|e]
  end; [|reflexivity].
  cbn [mbind res_bind].
  destruct (py_get target_period "fiscalDateEnding" PyNone) as [date|e];
    [|reflexivity].
  cbn [mbind res_bind].
  eexists _, raw. split; [reflexivity|]. split; [|split; [reflexivity|]].
  - rewrite !list_to_map_cons, list_to_map_nil, !lookup_insert, lookup_empty.
    repeat case_decide; congruence.
  - reflexivity.
Qed.

(** What is selected from records that carry a full date is not
    empty. *)
Lemma selected_full_dated_truthy (reports : list pyval) (fy fq : Z) (target : pyval) :
  Forall Spec.full_dated reports ->
  Server.find_quarterly_report (PyList reports) fy fq = Ok (Some target) ->
  truthy target = true.
Proof.
  intros Hf Hx%find_quarterly_report_sound.
  apply full_dated_truthy. rewrite Forall_forall in Hf. apply Hf.
  symmetry in Hx. apply first_or_head_spec in Hx. exact Hx.
Qed.

Lemma find_quarterly_report_not_none (first : pyval) (rest : list pyval) (fy fq : Z) :
  Server.find_quarterly_report (PyList (first :: rest)) fy fq <> Ok None.
Proof.
  intros Hx%find_quarterly_report_sound. symmetry in Hx.
  apply first_or_head_spec in Hx. discriminate Hx.
Qed.

(** What the standalone server does with the reports of a payload, and
    what the serverless handlers do, in terms of the selection and of
    the function that builds the result. *)
Lemma server_outcome_on_reports (str_exn : exn -> string) (reports : list pyval)
    (fy fq : Z) (symbol : string) (no_data : string) (result : pyval -> res pyval) :
  Forall Spec.full_dated reports ->
  (if negb (truthy (PyList reports))
   then Ok (Server.error_doc no_data)
   else
     match Server.find_quarterly_report (PyList reports) fy fq with
     | Raise e => Ok (Server.exception_doc str_exn e)
     | Ok None => Ok (Server.no_period_doc symbol fy fq)
     | Ok (Some target_period) =>
         if negb (truthy target_period)
         then Ok (Server.no_period_doc symbol fy fq)
         else
           match result target_period with
           | Raise e => Ok (Server.exception_doc str_exn e)
           | Ok doc => Ok doc
           end
     end)
  = Ok (Behaviour.server_document str_exn
          (match reports with
           | [] => Ok (Server.error_doc no_data)
           | _ =>
               match Server.find_quarterly_report (PyList reports) fy fq with
               | Raise e => Raise e
               | Ok None => Ok (Server.error_doc no_data)
               | Ok (Some target_period) => result target_period
               end
           end)).
Proof.
  intros Hf. destruct reports as [|first rest]; [reflexivity|].
  cbn [truthy negb].
  destruct (Server.find_quarterly_report (PyList (first :: rest)) fy fq)
    as [[target|]|e] eqn:Hs; [| |reflexivity].
  - rewrite (selected_full_dated_truthy _ _ _ _ Hf Hs). cbn [negb].
    destruct (result target); reflexivity.
  - destruct (find_quarterly_report_not_none _ _ _ _ Hs).
Qed.

Lemma serverless_outcome_on_reports (str_exn : exn -> string) (reports : list pyval)
    (fy fq : Z) (no_data : string) (result : pyval -> res pyval) :
  Forall Spec.full_dated reports ->
  match FunctionApp.select_report (PyList reports) fy fq with
  | Raise e => Ok (FunctionApp.exception_doc str_exn e)
  | Ok None => Ok (FunctionApp.plain_error_doc no_data)
  | Ok (Some target_period) =>
      match result target_period with
      | Raise e => Ok (FunctionApp.exception_doc str_exn e)
      | Ok doc => Ok doc
      end
  end
  = Ok (Behaviour.serverless_document str_exn
          (match reports with
           | [] => Ok (Server.error_doc no_data)
           | _ =>
               match Server.find_quarterly_report (PyList reports) fy fq with
               | Raise e => Raise e
               | Ok None => Ok (Server.error_doc no_data)
               | Ok (Some target_period) => result target_period
               end
           end)).
Proof.
  intros Hf. rewrite (selections_agree_on_full_dates _ _ _ Hf).
  destruct reports as [|first rest]; [reflexivity|].
  destruct (Server.find_quarterly_report (PyList (first :: rest)) fy fq)
    as [[target|]|e] eqn:Hs; try reflexivity.
  destruct (result target); reflexivity.
Qed.

(** X11: on a payload whose reports hold ASCII strings and all carry a
    date of 7 characters or more, the two deployments answer alike,
    with one request each.  The
    free-cash-flow tools return the same document, or the error
    documents each makes of the same exception; the revenue tools do
    too, except that a result document of the serverless handler has
    the raw_revenue field in addition. *)
Theorem deployments_agree_on_full_dates
    (str_exn : exn -> string) (json_loads : string -> res pyval) (w : world)
    (function symbol : string) (fiscal_year fiscal_quarter : Z)
    (reports : list pyval) :
  symbol ∈ Server.VALID_SYMBOLS ->
  fiscal_quarter ∈ [1; 2; 3; 4] ->
  Spec.upstream_reports w function symbol reports ->
  Forall (fun report => Behaviour.ascii_record report = true) reports ->
  Forall Spec.full_dated reports ->
  (function = "CASH_FLOW"%string ->
   exists outcome,
     (forall company_symbol,
        py_upper company_symbol = symbol ->
        run (Server.get_company_free_cash_flow str_exn w company_symbol
               fiscal_year fiscal_quarter)
        = (Ok (Behaviour.server_document str_exn outcome), 1%nat)) /\
     (forall context,
        FunctionApp.read_arguments json_loads context
        = Ok (symbol, fiscal_year, fiscal_quarter) ->
        run (FunctionApp.get_company_free_cash_flow str_exn json_loads w context)
        = (Ok (Behaviour.serverless_document str_exn outcome), 1%nat))) /\
  (function = "INCOME_STATEMENT"%string ->
   exists outcome outcome',
     Behaviour.alike outcome outcome' /\
     (forall company_symbol,
        py_upper company_symbol = symbol ->
        run (Server.get_company_revenue str_exn w company_symbol
               fiscal_year fiscal_quarter)
        = (Ok (Behaviour.server_document str_exn outcome), 1%nat)) /\
     (forall context,
        FunctionApp.read_arguments json_loads context
        = Ok (symbol, fiscal_year, fiscal_quarter) ->
        run (FunctionApp.get_company_revenue str_exn json_loads w context)
        = (Ok (Behaviour.serverless_document str_exn outcome'), 1%nat))).
Proof.
  intros Hs%existsb_string_elem_of Hq%existsb_Z_elem_of
    (key & data & Hkey & Henv & Hget & Hreports)%upstream_reports_server_key _ Hf.
  split; intros ->.
  - eexists. split.
    + intros company_symbol Hup.
      rewrite server_free_cash_flow_run. cbv zeta.
      rewrite Hup, Hs, Hq, Hkey, Hget, Hreports. cbn [negb].
      rewrite (server_outcome_on_reports str_exn reports fiscal_year fiscal_quarter
                 symbol _ (Server.free_cash_flow_result symbol fiscal_year
                             fiscal_quarter) Hf).
      reflexivity.
    + intros context Ha.
      rewrite serverless_free_cash_flow_run, Ha.
      change FunctionApp.valid_symbols with Server.VALID_SYMBOLS.
      rewrite Hs, Hq, Henv, Hget, Hreports. cbn [negb].
      rewrite (serverless_outcome_on_reports str_exn reports fiscal_year
                 fiscal_quarter _
                 (FunctionApp.free_cash_flow_result symbol fiscal_year
                    fiscal_quarter) Hf).
      reflexivity.
  - eexists _, _. split; [|split].
    2:{ intros company_symbol Hup.
        rewrite server_revenue_run. cbv zeta.
        rewrite Hup, Hs, Hq, Hkey, Hget, Hreports. cbn [negb].
        rewrite (server_outcome_on_reports str_exn reports fiscal_year fiscal_quarter
                   symbol _ (Server.revenue_result symbol fiscal_year
                               fiscal_quarter) Hf).
        reflexivity. }
    2:{ intros context Ha.
        rewrite serverless_revenue_run, Ha.
        change FunctionApp.valid_symbols with Server.VALID_SYMBOLS.
        rewrite Hs, Hq, Henv, Hget, Hreports. cbn [negb].
        rewrite (serverless_outcome_on_reports str_exn reports fiscal_year
                   fiscal_quarter _
                   (FunctionApp.revenue_result symbol fiscal_year
                      fiscal_quarter) Hf).
        reflexivity. }
    destruct reports as [|first rest]; [left; reflexivity|].
    destruct (Server.find_quarterly_report (PyList (first :: rest))
                fiscal_year fiscal_quarter) as [[target|]|e];
      [|left; reflexivity|reflexivity].
    pose proof (serverless_revenue_result_extends symbol fiscal_year fiscal_quarter
                  target) as H.
    destruct (Server.revenue_result symbol fiscal_year fiscal_quarter target)
      as [doc|e].
    + destruct H as (m & raw & -> & Hm & _ & ->). right. eauto.
    + rewrite H. reflexivity.
Qed.

Lemma deployments_agree_on_full_dates_witness :
  exists outcome outcome',
    Behaviour.alike outcome outcome' /\
    run (Server.get_company_revenue Sample.exception_text Sample.june_2024_source
           "msft" 2024 4)
    = (Ok (Behaviour.server_document Sample.exception_text outcome), 1%nat) /\
    run (FunctionApp.get_company_revenue Sample.exception_text (fun _ => Ok PyNone)
           Sample.june_2024_source (dict []))
    = (Ok (Behaviour.serverless_document Sample.exception_text outcome'), 1%nat).
Proof.
  assert (Hs : ("MSFT"%string) ∈ Server.VALID_SYMBOLS)
    by (apply existsb_string_elem_of; reflexivity).
  assert (Hq : 4 ∈ [1; 2; 3; 4]) by (apply existsb_Z_elem_of; reflexivity).
  assert (Hu : Spec.upstream_reports Sample.june_2024_source "INCOME_STATEMENT"
                 "MSFT" [Sample.june_2024]).
  { exists "demo"%string. eexists. repeat split; try reflexivity. discriminate. }
  assert (Hf : Forall Spec.full_dated [Sample.june_2024]).
  { constructor; [|constructor]. eexists _, "2024-06-30"%string.
    split; [reflexivity|]. split; [vm_compute; reflexivity|]. simpl. lia. }
  assert (Ha : Forall (fun report => Behaviour.ascii_record report = true)
                 [Sample.june_2024])
    by (constructor; [vm_compute; reflexivity|constructor]).
  destruct (deployments_agree_on_full_dates Sample.exception_text
              (fun _ => Ok PyNone) Sample.june_2024_source "INCOME_STATEMENT" "MSFT"
              2024 4 [Sample.june_2024] Hs Hq Hu Ha Hf) as [_ H].
  destruct (H eq_refl) as (outcome & outcome' & Halike & Hsrv & Hfa).
  exists outcome, outcome'. split; [exact Halike|]. split.
  - apply Hsrv. vm_compute. reflexivity.
  - apply Hfa. vm_compute. reflexivity.
Defined.

(** X12: from the same record, the result document of the serverless
    revenue handler is that of the standalone server with one more
    field, raw_revenue, which holds the totalRevenue field of the record
    as it was received, or "0" when the record has none; and the two
    fail alike. *)
Theorem serverless_revenue_document_adds_raw_revenue
    (symbol : string) (fiscal_year fiscal_quarter : Z) (target_period : pyval) :
  Behaviour.alike
    (Server.revenue_result symbol fiscal_year fiscal_quarter target_period)
    (FunctionApp.revenue_result symbol fiscal_year fiscal_quarter target_period) /\
  (forall doc,
     FunctionApp.revenue_result symbol fiscal_year fiscal_quarter target_period
     = Ok doc ->
     exists m raw,
       doc = PyDict m /\
       py_get target_period "totalRevenue" (PyStr "0") = Ok raw /\
       m !! "raw_revenue" = Some raw /\
       Server.revenue_result symbol fiscal_year fiscal_quarter target_period
       = Ok (PyDict (delete "raw_revenue" m))).
Proof.
  pose proof (serverless_revenue_result_extends symbol fiscal_year fiscal_quarter
                target_period) as H.
  destruct (Server.revenue_result symbol fiscal_year fiscal_quarter target_period)
    as [doc|e].
  - destruct H as (m & raw & -> & Hm & Hraw & ->). split.
    + right. eauto.
    + intros doc [= <-]. exists (<["raw_revenue" := raw]> m), raw.
      split; [reflexivity|]. split; [exact Hraw|]. split.
      * rewrite lookup_insert. case_decide; congruence.
      * rewrite delete_insert_eq, delete_id by exact Hm. reflexivity.
  - rewrite H. split; [reflexivity|]. intros doc [=].
Qed.

(** ** Further properties: the figures *)

Lemma binary_round_aux_sign (m e : Z) (l : location) :
  Behaviour.sign_bit (binary_round_aux prec emax false m e l) = false.
Proof.
  unfold binary_round_aux.
  destruct (shr_fexp prec emax m e l) as [mrs' e'].
  destruct (shr_fexp prec emax _ e' loc_Exact) as [mrs'' e''].
  destruct (shr_m mrs''); [reflexivity| |reflexivity].
  destruct (e'' <=? emax - prec); reflexivity.
Qed.

Lemma float_of_ratio_sign (p q : Z) :
  Behaviour.sign_bit (float_of_ratio false p q) = false.
Proof.
  unfold float_of_ratio.
  destruct (SFdiv_core_binary prec emax p 0 q 0) as [[mz ez] lz].
  apply binary_round_aux_sign.
Qed.

Lemma float_of_decimal_sign (m k : Z) :
  Behaviour.sign_bit (float_of_decimal false m k) = false.
Proof.
  unfold float_of_decimal.
  destruct (m =? 0); [reflexivity|].
  destruct (0 <=? k); apply float_of_ratio_sign.
Qed.

Lemma py_round_sign (x : spec_float) (ndigits : Z) :
  Behaviour.sign_bit x = false ->
  Behaviour.sign_bit (py_round x ndigits) = false.
Proof.
  destruct x as [s|s| |s m e]; cbn [py_round]; try (intros H; exact H).
  cbn [Behaviour.sign_bit]. intros ->. apply float_of_decimal_sign.
Qed.

Lemma SFdiv_sign (x y : spec_float) :
  Behaviour.sign_bit x = false -> Behaviour.sign_bit y = false ->
  Behaviour.sign_bit (SFdiv prec emax x y) = false.
Proof.
  destruct x as [sx|sx| |sx mx ex], y as [sy|sy| |sy my ey];
    cbn [Behaviour.sign_bit SFdiv]; intros Hx Hy; subst; try reflexivity.
  cbn [xorb].
  destruct (SFdiv_core_binary prec emax (Z.pos mx) ex (Z.pos my) ey) as [[mz ez] lz].
  apply binary_round_aux_sign.
Qed.

Lemma SFabs_sign (x : spec_float) : Behaviour.sign_bit (SFabs x) = false.
Proof. destruct x; reflexivity. Qed.

(** The absolute value of a number, divided by one million, has no
    sign. *)
Lemma py_truediv_abs_sign (n : num) (x : spec_float) :
  py_truediv (py_abs n) 1000000 = Ok x -> Behaviour.sign_bit x = false.
Proof.
  destruct n as [z|f]; cbn [py_abs py_truediv].
  - assert (Hz : (Z.abs z <? 0) = false) by (apply Z.ltb_ge, Z.abs_nonneg).
    rewrite Hz. cbn [xorb Z.ltb Z.compare].
    destruct (is_finite _); [|discriminate].
    intros [= <-]. apply float_of_ratio_sign.
  - rewrite float_of_million. cbn [mbind res_bind]. intros [= <-].
    apply SFdiv_sign; [apply SFabs_sign|reflexivity].
Qed.

Lemma extract_free_cash_flow_capex_sign (target_period : pyval) (cf : cash_flow) :
  extract_free_cash_flow target_period = Ok cf ->
  Behaviour.sign_bit (capital_expenditures_usd_millions cf) = false.
Proof.
  unfold extract_free_cash_flow.
  destruct (py_get target_period "operatingCashflow" (PyStr "0")) as [op_str|e];
    [|discriminate]; cbn [mbind res_bind].
  destruct (py_get target_period "capitalExpenditures" (PyStr "0")) as [capex_str|e];
    [|discriminate]; cbn [mbind res_bind].
  destruct (metric_value op_str) as [op|e]; [|discriminate]; cbn [mbind res_bind].
  destruct (metric_value capex_str) as [capex|e]; [|discriminate];
    cbn [mbind res_bind].
  destruct (py_sub op (py_abs capex)) as [fcf|e]; [|discriminate];
    cbn [mbind res_bind].
  destruct (py_truediv fcf 1000000) as [q|e]; [|discriminate]; cbn [mbind res_bind].
  destruct (py_truediv op 1000000) as [o|e]; [|discriminate]; cbn [mbind res_bind].
  destruct (py_truediv (py_abs capex) 1000000) as [c|e] eqn:Hc; [|discriminate];
    cbn [mbind res_bind].
  intros [= <-]. cbn [capital_expenditures_usd_millions].
  apply py_round_sign. eapply py_truediv_abs_sign, Hc.
Qed.

(** X13: the capital expenditures reported in a cash-flow result
    document never carry a minus sign, whatever the sign of the
    capitalExpenditures field of the record: the figure is a float whose
    sign bit is clear (a number that is not negative, or NaN). *)
Theorem capital_expenditures_never_negative
    (symbol : string) (fiscal_year fiscal_quarter : Z) (target_period doc : pyval) :
  Server.free_cash_flow_result symbol fiscal_year fiscal_quarter target_period
  = Ok doc ->
  exists m capex,
    doc = PyDict m /\
    m !! "capital_expenditures_usd_millions" = Some (PyFloat capex) /\
    Behaviour.sign_bit capex = false.
Proof.
  unfold Server.free_cash_flow_result.
  destruct (extract_free_cash_flow target_period) as [cf|e] eqn:Hcf; [|discriminate].
  cbn [mbind res_bind].
  destruct (py_get target_period "fiscalDateEnding" PyNone) as [date|e];
    [|discriminate].
  intros [= <-]. eexists _, (capital_expenditures_usd_millions cf).
  split; [reflexivity|]. split.
  - rewrite !list_to_map_cons, list_to_map_nil, !lookup_insert.
    repeat case_decide; congruence.
  - eapply extract_free_cash_flow_capex_sign, Hcf.
Qed.

Lemma capital_expenditures_never_negative_witness :
  exists m capex,
    dict [("company", PyStr "MSFT");
          ("fiscal_year", PyInt 2024);
          ("fiscal_quarter", PyInt 4);
          ("fiscal_date_ending", PyStr "2024-06-30");
          ("free_cash_flow_usd_millions", PyFloat (float_of_Z 400));
          ("operating_cash_flow_usd_millions", PyFloat (float_of_Z 500));
          ("capital_expenditures_usd_millions", PyFloat (float_of_Z 100));
          ("currency", PyStr "USD");
          ("data_source", PyStr "Alpha Vantage");
          ("calculation", PyStr "Operating Cash Flow - Capital Expenditures")]
    = PyDict m /\
    m !! "capital_expenditures_usd_millions" = Some (PyFloat capex) /\
    Behaviour.sign_bit capex = false.
Proof.
  apply (capital_expenditures_never_negative "MSFT" 2024 4 Sample.cash_flow_report).
  vm_compute. reflexivity.
Defined.

(** ** Further properties: the arguments *)

(** X14: validation checks the symbol first and the quarter second, in
    both deployments: an uppercased symbol, of ASCII characters, that
    is outside the allow-list gives the invalid-symbol document whatever
    the quarter is, a quarter outside 1..4 gives the invalid-quarter
    document only for an allow-listed symbol; in the serverless handlers
    too, no request is sent. *)
Theorem validation_checks_symbol_first
    (str_exn : exn -> string) (json_loads : string -> res pyval) (w : world)
    (symbol : string) (fiscal_year fiscal_quarter : Z) :
  ascii_string symbol = true ->
  (symbol ∉ Server.VALID_SYMBOLS) \/ (fiscal_quarter ∉ [1; 2; 3; 4]) ->
  exists msg,
    (symbol ∉ Server.VALID_SYMBOLS ->
     msg = "Invalid company symbol. Supported: MSFT, TSLA, NVDA"%string) /\
    (symbol ∈ Server.VALID_SYMBOLS ->
     msg = "Fiscal quarter must be 1, 2, 3, or 4"%string) /\
    (forall company_symbol,
       py_upper company_symbol = symbol ->
       run (Server.get_company_revenue str_exn w company_symbol
              fiscal_year fiscal_quarter)
       = (Ok (Server.error_doc msg), 0%nat) /\
       run (Server.get_company_free_cash_flow str_exn w company_symbol
              fiscal_year fiscal_quarter)
       = (Ok (Server.error_doc msg), 0%nat)) /\
    (forall context,
       FunctionApp.read_arguments json_loads context
       = Ok (symbol, fiscal_year, fiscal_quarter) ->
       run (FunctionApp.get_company_revenue str_exn json_loads w context)
       = (Ok (FunctionApp.plain_error_doc msg), 0%nat) /\
       run (FunctionApp.get_company_free_cash_flow str_exn json_loads w context)
       = (Ok (FunctionApp.plain_error_doc msg), 0%nat)).
Proof.
  intros _ H.
  destruct (existsb (String.eqb symbol) Server.VALID_SYMBOLS) eqn:Hs.
  - destruct (existsb (Z.eqb fiscal_quarter) [1; 2; 3; 4]) eqn:Hq.
    + apply existsb_string_elem_of in Hs. apply existsb_Z_elem_of in Hq.
      destruct H as [H|H]; contradiction.
    + exists "Fiscal quarter must be 1, 2, 3, or 4"%string.
      split; [intros Hn; apply existsb_string_elem_of in Hs; contradiction|].
      split; [reflexivity|]. split.
      * intros company_symbol Hup.
        rewrite server_revenue_run, server_free_cash_flow_run. cbv zeta.
        rewrite Hup, Hs, Hq. split; reflexivity.
      * intros context Ha.
        rewrite serverless_revenue_run, serverless_free_cash_flow_run, Ha.
        change FunctionApp.valid_symbols with Server.VALID_SYMBOLS.
        rewrite Hs, Hq. split; reflexivity.
  - exists "Invalid company symbol. Supported: MSFT, TSLA, NVDA"%string.
    split; [reflexivity|].
    split; [intros Hin%existsb_string_elem_of; congruence|]. split.
    + intros company_symbol Hup.
      rewrite server_revenue_run, server_free_cash_flow_run. cbv zeta.
      rewrite Hup, Hs. split; reflexivity.
    + intros context Ha.
      rewrite serverless_revenue_run, serverless_free_cash_flow_run, Ha.
      change FunctionApp.valid_symbols with Server.VALID_SYMBOLS.
      rewrite Hs. split; reflexivity.
Qed.

Lemma validation_checks_symbol_first_witness :
  run (FunctionApp.get_company_revenue Sample.exception_text (fun _ => Ok PyNone)
         Sample.june_2024_source
         (dict [("arguments",
                 dict [("company_symbol", PyStr "aapl");
                       ("fiscal_quarter", PyInt 9)])]))
  = (Ok (FunctionApp.plain_error_doc
           "Invalid company symbol. Supported: MSFT, TSLA, NVDA"), 0%nat).
Proof.
  assert (Hs : ("AAPL"%string) ∉ Server.VALID_SYMBOLS).
  { intros Hin. apply existsb_string_elem_of in Hin.
    vm_compute in Hin. discriminate Hin. }
  destruct (validation_checks_symbol_first Sample.exception_text
              (fun _ => Ok PyNone) Sample.june_2024_source "AAPL" 2024 9
              eq_refl (or_introl Hs)) as (msg & Hmsg & _ & _ & H).
  rewrite <- (Hmsg Hs). apply H. vm_compute. reflexivity.
Defined.

(** What [read_arguments] makes of a context that holds a dict of
    arguments. *)
Lemma read_arguments_of_dict (json_loads : string -> res pyval)
    (content a : gmap string pyval) :
  content !! "arguments" = Some (PyDict a) ->
  FunctionApp.read_arguments json_loads (PyDict content)
  = (symbol ← FunctionApp.upper_method
                (default (PyStr "MSFT") (a !! "company_symbol"));
     fiscal_year ← py_int (default (PyInt 2024) (a !! "fiscal_year"));
     fiscal_quarter ← py_int (default (PyInt 4) (a !! "fiscal_quarter"));
     Ok (symbol, fiscal_year, fiscal_quarter)).
Proof.
  intros Ha. unfold FunctionApp.read_arguments. cbn [py_get mbind res_bind].
  rewrite Ha. reflexivity.
Qed.

(** X15: a serverless handler reads the arguments it declares to the
    trigger and no other: two contexts whose arguments agree on the
    declared properties (company_symbol, fiscal_year, fiscal_quarter)
    give the same invocation, outcome and requests; and arguments that
    hold none of the declared properties are read as MSFT, 2024 and
    quarter 4. *)
Theorem undeclared_arguments_are_ignored
    (str_exn : exn -> string) (json_loads : string -> res pyval) (w : world)
    (content content' a b : gmap string pyval) :
  content !! "arguments" = Some (PyDict a) ->
  content' !! "arguments" = Some (PyDict b) ->
  ((forall p, p ∈ FunctionApp.tool_properties_company_revenue ->
              a !! FunctionApp.propertyName p = b !! FunctionApp.propertyName p) ->
   FunctionApp.get_company_revenue str_exn json_loads w (PyDict content)
   = FunctionApp.get_company_revenue str_exn json_loads w (PyDict content')) /\
  ((forall p, p ∈ FunctionApp.tool_properties_company_fcf ->
              a !! FunctionApp.propertyName p = b !! FunctionApp.propertyName p) ->
   FunctionApp.get_company_free_cash_flow str_exn json_loads w (PyDict content)
   = FunctionApp.get_company_free_cash_flow str_exn json_loads w (PyDict content')) /\
  ((forall p, p ∈ FunctionApp.tool_properties_company_revenue ->
              a !! FunctionApp.propertyName p = None) ->
   FunctionApp.read_arguments json_loads (PyDict content)
   = Ok ("MSFT"%string, 2024, 4)).
Proof.
  intros Ha Hb.
  assert (Heq : (forall p, p ∈ FunctionApp.tool_properties_company_revenue ->
                   a !! FunctionApp.propertyName p = b !! FunctionApp.propertyName p) ->
                FunctionApp.read_arguments json_loads (PyDict content)
                = FunctionApp.read_arguments json_loads (PyDict content')).
  { intros Hagree.
    rewrite (read_arguments_of_dict _ _ _ Ha), (read_arguments_of_dict _ _ _ Hb).
    apply Forall_forall in Hagree.
    unfold FunctionApp.tool_properties_company_revenue in Hagree.
    rewrite !Forall_cons in Hagree. cbn [FunctionApp.propertyName] in Hagree.
    destruct Hagree as (-> & -> & -> & _). reflexivity. }
  split; [|split].
  - intros Hagree. unfold FunctionApp.get_company_revenue.
    rewrite (Heq Hagree). reflexivity.
  - intros Hagree. unfold FunctionApp.get_company_free_cash_flow.
    rewrite (Heq Hagree). reflexivity.
  - intros Hnone. rewrite (read_arguments_of_dict _ _ _ Ha).
    apply Forall_forall in Hnone.
    unfold FunctionApp.tool_properties_company_revenue in Hnone.
    rewrite !Forall_cons in Hnone. cbn [FunctionApp.propertyName] in Hnone.
    destruct Hnone as (-> & -> & -> & _). reflexivity.
Qed.

Lemma undeclared_arguments_are_ignored_witness :
  FunctionApp.get_company_revenue Sample.exception_text (fun _ => Ok PyNone)
    Sample.june_2024_source
    (PyDict (list_to_map
               [("arguments",
                 PyDict (list_to_map [("company_symbol", PyStr "tsla");
                                      ("verbose", PyBool true)]))]))
  = FunctionApp.get_company_revenue Sample.exception_text (fun _ => Ok PyNone)
      Sample.june_2024_source
      (PyDict (list_to_map
                 [("arguments",
                   PyDict (list_to_map [("company_symbol", PyStr "tsla")]))])).
Proof.
  apply (undeclared_arguments_are_ignored Sample.exception_text (fun _ => Ok PyNone)
           Sample.june_2024_source _ _
           (list_to_map [("company_symbol", PyStr "tsla"); ("verbose", PyBool true)])
           (list_to_map [("company_symbol", PyStr "tsla")])).
  - vm_compute. reflexivity.
  - vm_compute. reflexivity.
  - intros p Hp.
    apply Forall_forall
      with (x := p) (l := FunctionApp.tool_properties_company_revenue);
      [|exact Hp].
    repeat constructor.
Defined.


(** [upper] changes nothing in a string it has produced. *)
Lemma upper_char_idempotent (c : ascii) : upper_char (upper_char c) = upper_char c.
Proof. destruct c as [[] [] [] [] [] [] [] []]; reflexivity. Qed.

Lemma py_upper_idempotent (s : string) : py_upper (py_upper s) = py_upper s.
Proof.
  unfold py_upper. rewrite list_ascii_of_string_of_list_ascii, map_map.
  f_equal. apply map_ext. intros c. apply upper_char_idempotent.
Qed.

(** X17: a tool of the standalone server looks at the case of the
    symbol nowhere: two symbols with the same uppercase form give the
    same invocation, outcome and requests, and so do a symbol and its
    uppercase form. *)
Theorem symbol_case_is_ignored (str_exn : exn -> string) (w : world)
    (a b : string) (fiscal_year fiscal_quarter : Z) :
  py_upper a = py_upper b ->
  Server.get_company_revenue str_exn w a fiscal_year fiscal_quarter
  = Server.get_company_revenue str_exn w b fiscal_year fiscal_quarter /\
  Server.get_company_free_cash_flow str_exn w a fiscal_year fiscal_quarter
  = Server.get_company_free_cash_flow str_exn w b fiscal_year fiscal_quarter /\
  Server.get_company_revenue str_exn w (py_upper a) fiscal_year fiscal_quarter
  = Server.get_company_revenue str_exn w a fiscal_year fiscal_quarter /\
  Server.get_company_free_cash_flow str_exn w (py_upper a) fiscal_year fiscal_quarter
  = Server.get_company_free_cash_flow str_exn w a fiscal_year fiscal_quarter.
Proof.
  intros H.
  unfold Server.get_company_revenue, Server.get_company_free_cash_flow. cbv zeta.
  rewrite py_upper_idempotent, H. repeat split; reflexivity.
Qed.

Lemma symbol_case_is_ignored_witness :
  Server.get_company_revenue Sample.exception_text Sample.june_2024_source
    "msft" 2024 4
  = Server.get_company_revenue Sample.exception_text Sample.june_2024_source
      "MsFt" 2024 4.
Proof.
  apply (symbol_case_is_ignored Sample.exception_text Sample.june_2024_source
           "msft" "MsFt" 2024 4).
  vm_compute. reflexivity.
Defined.

(** ** Further properties: a tool from end to end *)

Lemma find_quarterly_report_well_dated (reports : list pyval) (fy fq : Z) :
  Forall Spec.well_dated reports ->
  Server.find_quarterly_report (PyList reports) fy fq
  = Ok (Spec.first_or_head (Spec.exact_match fy fq) reports).
Proof.
  intros Hw. rewrite find_quarterly_report_list, (server_scan_well_dated _ _ _ Hw).
  unfold Spec.first_or_head. destruct (List.find _ reports); reflexivity.
Qed.

(** X18: how the steps of a tool of the standalone server compose.
    When the Report Source answers with a list of reports that is not
    empty and whose records hold ASCII strings and are well dated, the
    tool sends one request
    and answers from the record the Report Matcher selects, the first
    match or else the first record: with the result document built from
    that record, with the error document of the exception raised while
    building it, or, when the selected record is an empty dict, with
    the document "No data found for <symbol> FY<year> Q<quarter>". *)
Theorem server_tool_answers_from_selected_record
    (str_exn : exn -> string) (w : world) (function symbol : string)
    (fiscal_year fiscal_quarter : Z) (reports : list pyval) :
  symbol ∈ Server.VALID_SYMBOLS ->
  fiscal_quarter ∈ [1; 2; 3; 4] ->
  Spec.upstream_reports w function symbol reports ->
  Forall (fun report => Behaviour.ascii_record report = true) reports ->
  Forall Spec.well_dated reports ->
  reports <> [] ->
  exists target,
    Spec.first_or_head (Spec.exact_match fiscal_year fiscal_quarter) reports
    = Some target /\
    (function = "INCOME_STATEMENT"%string ->
     forall company_symbol,
       py_upper company_symbol = symbol ->
       run (Server.get_company_revenue str_exn w company_symbol
              fiscal_year fiscal_quarter)
       = (Ok (if truthy target
              then Behaviour.server_document str_exn
                     (Server.revenue_result symbol fiscal_year fiscal_quarter target)
              else Server.no_period_doc symbol fiscal_year fiscal_quarter),
          1%nat)) /\
    (function = "CASH_FLOW"%string ->
     forall company_symbol,
       py_upper company_symbol = symbol ->
       run (Server.get_company_free_cash_flow str_exn w company_symbol
              fiscal_year fiscal_quarter)
       = (Ok (if truthy target
              then Behaviour.server_document str_exn
                     (Server.free_cash_flow_result symbol fiscal_year fiscal_quarter
                        target)
              else Server.no_period_doc symbol fiscal_year fiscal_quarter),
          1%nat)).
Proof.
  intros Hs%existsb_string_elem_of Hq%existsb_Z_elem_of
    (key & data & Hkey & _ & Hget & Hreports)%upstream_reports_server_key _ Hw Hne.
  pose proof (find_quarterly_report_well_dated reports fiscal_year fiscal_quarter Hw)
    as Hfind.
  destruct (Spec.first_or_head (Spec.exact_match fiscal_year fiscal_quarter) reports)
    as [target|] eqn:Hsel.
  2:{ apply first_or_head_spec in Hsel. contradiction. }
  assert (Ht : truthy (PyList reports) = true)
    by (destruct reports; [contradiction|reflexivity]).
  exists target. split; [reflexivity|].
  split; intros -> company_symbol Hup.
  - rewrite server_revenue_run. cbv zeta.
    rewrite Hup, Hs, Hq, Hkey, Hget, Hreports, Ht, Hfind. cbn [negb].
    destruct (truthy target); cbn [negb]; [|reflexivity].
    destruct (Server.revenue_result symbol fiscal_year fiscal_quarter target);
      reflexivity.
  - rewrite server_free_cash_flow_run. cbv zeta.
    rewrite Hup, Hs, Hq, Hkey, Hget, Hreports, Ht, Hfind. cbn [negb].
    destruct (truthy target); cbn [negb]; [|reflexivity].
    destruct (Server.free_cash_flow_result symbol fiscal_year fiscal_quarter target);
      reflexivity.
Qed.

Lemma server_tool_answers_from_selected_record_witness :
  run (Server.get_company_revenue Sample.exception_text Sample.empty_record_source
         "msft" 2024 4)
  = (Ok (Server.error_doc "No data found for MSFT FY2024 Q4"), 1%nat).
Proof.
  assert (Hs : ("MSFT"%string) ∈ Server.VALID_SYMBOLS)
    by (apply existsb_string_elem_of; reflexivity).
  assert (Hq : 4 ∈ [1; 2; 3; 4]) by (apply existsb_Z_elem_of; reflexivity).
  assert (Hu : Spec.upstream_reports Sample.empty_record_source "INCOME_STATEMENT"
                 "MSFT" [dict []]).
  { exists "demo"%string. eexists. repeat split; try reflexivity. discriminate. }
  assert (Hw : Forall Spec.well_dated [dict []]).
  { constructor; [|constructor]. eexists. split; [reflexivity|]. left. reflexivity. }
  assert (Ha : Forall (fun report => Behaviour.ascii_record report = true)
                 [dict []])
    by (constructor; [vm_compute; reflexivity|constructor]).
  destruct (server_tool_answers_from_selected_record Sample.exception_text
              Sample.empty_record_source "INCOME_STATEMENT" "MSFT" 2024 4 [dict []]
              Hs Hq Hu Ha Hw ltac:(discriminate)) as (target & Hsel & Hrev & _).
  vm_compute in Hsel. injection Hsel as <-.
  rewrite (Hrev eq_refl "msft"%string eq_refl). vm_compute. reflexivity.
Defined.

Lemma serverless_scan_parsable (reports : list pyval) (fy fq : Z) :
  Forall Behaviour.parsable_dated reports ->
  FunctionApp.scan_reports reports fy fq
  = Ok (List.find (Spec.dated_match fy fq) reports).
Proof.
  induction 1 as [|report rest (m & date & -> & Hd & [y Hy] & [mo Hmo]) _ IH];
    [reflexivity|].
  rewrite (serverless_scan_dated _ _ _ _ _ Hd), Hy, Hmo. cbn [List.find].
  unfold Spec.dated_match at 1, Spec.date_of. rewrite Hd.
  destruct (bool_decide _); [reflexivity|exact IH].
Qed.

Lemma select_report_parsable (reports : list pyval) (fy fq : Z) :
  Forall Behaviour.parsable_dated reports ->
  FunctionApp.select_report (PyList reports) fy fq
  = Ok (Spec.first_or_head (Spec.dated_match fy fq) reports).
Proof.
  intros Hp. unfold FunctionApp.select_report, Spec.first_or_head.
  cbn [py_iter mbind res_bind]. rewrite (serverless_scan_parsable _ _ _ Hp).
  cbn [mbind res_bind].
  destruct (List.find (Spec.dated_match fy fq) reports) as [found|] eqn:Hf;
    cbn [falsy].
  - apply List.find_some in Hf as [_ Hm]. rewrite (dated_match_truthy _ _ _ Hm).
    reflexivity.
  - destruct Hp as [|first rest (m & date & -> & Hd & _) _]; reflexivity.
Qed.

(** X19: how the steps of a serverless handler compose.  When its
    arguments are decoded and valid and the Report Source answers with
    reports that hold ASCII strings and whose dates all have integer
    year and month parts, the
    handler sends one request and answers from the record its loop
    selects, the first record whose date matches or else the first
    record: with the result document built from that record or with the
    error document of the exception raised while building it; with the
    no-data document when the list is empty. *)
Theorem serverless_handler_answers_from_selected_record
    (str_exn : exn -> string) (json_loads : string -> res pyval) (w : world)
    (function symbol : string) (fiscal_year fiscal_quarter : Z)
    (reports : list pyval) (context : pyval) :
  FunctionApp.read_arguments json_loads context
  = Ok (symbol, fiscal_year, fiscal_quarter) ->
  symbol ∈ FunctionApp.valid_symbols ->
  fiscal_quarter ∈ [1; 2; 3; 4] ->
  Spec.upstream_reports w function symbol reports ->
  Forall (fun report => Behaviour.ascii_record report = true) reports ->
  Forall Behaviour.parsable_dated reports ->
  (function = "INCOME_STATEMENT"%string ->
   run (FunctionApp.get_company_revenue str_exn json_loads w context)
   = (Ok match Spec.first_or_head
                 (Spec.dated_match fiscal_year fiscal_quarter) reports with
         | Some target =>
             Behaviour.serverless_document str_exn
               (FunctionApp.revenue_result symbol fiscal_year fiscal_quarter target)
         | None => FunctionApp.plain_error_doc "No quarterly data available"
         end,
      1%nat)) /\
  (function = "CASH_FLOW"%string ->
   run (FunctionApp.get_company_free_cash_flow str_exn json_loads w context)
   = (Ok match Spec.first_or_head
                 (Spec.dated_match fiscal_year fiscal_quarter) reports with
         | Some target =>
             Behaviour.serverless_document str_exn
               (FunctionApp.free_cash_flow_result symbol fiscal_year fiscal_quarter
                  target)
         | None => FunctionApp.plain_error_doc "No quarterly cash flow data available"
         end,
      1%nat)).
Proof.
  intros Ha Hs%existsb_string_elem_of Hq%existsb_Z_elem_of
    (key & data & _ & Henv & Hget & Hreports)%upstream_reports_server_key _ Hp.
  split; intros ->.
  - rewrite serverless_revenue_run, Ha, Hs, Hq, Henv, Hget, Hreports,
      (select_report_parsable _ _ _ Hp).
    cbn [negb].
    destruct (Spec.first_or_head _ reports) as [target|]; [|reflexivity].
    destruct (FunctionApp.revenue_result symbol fiscal_year fiscal_quarter target);
      reflexivity.
  - rewrite serverless_free_cash_flow_run, Ha, Hs, Hq, Henv, Hget, Hreports,
      (select_report_parsable _ _ _ Hp).
    cbn [negb].
    destruct (Spec.first_or_head _ reports) as [target|]; [|reflexivity].
    destruct (FunctionApp.free_cash_flow_result symbol fiscal_year fiscal_quarter
                target); reflexivity.
Qed.

Lemma serverless_handler_answers_from_selected_record_witness :
  run (FunctionApp.get_company_revenue Sample.exception_text (fun _ => Ok PyNone)
         Sample.june_2024_source (dict []))
  = (Ok (dict [("company", PyStr "MSFT");
               ("fiscal_year", PyInt 2024);
               ("fiscal_quarter", PyInt 4);
               ("fiscal_date_ending", PyStr "2024-06-30");
               ("total_revenue_usd_millions", PyFloat (float_of_Z 64727));
               ("currency", PyStr "USD");
               ("data_source", PyStr "Alpha Vantage");
               ("raw_revenue", PyStr "64727000000")]), 1%nat).
Proof.
  assert (Hs : ("MSFT"%string) ∈ FunctionApp.valid_symbols)
    by (apply existsb_string_elem_of; reflexivity).
  assert (Hq : 4 ∈ [1; 2; 3; 4]) by (apply existsb_Z_elem_of; reflexivity).
  assert (Hu : Spec.upstream_reports Sample.june_2024_source "INCOME_STATEMENT"
                 "MSFT" [Sample.june_2024]).
  { exists "demo"%string. eexists. repeat split; try reflexivity. discriminate. }
  assert (Hp : Forall Behaviour.parsable_dated [Sample.june_2024]).
  { constructor; [|constructor]. eexists _, "2024-06-30"%string.
    split; [reflexivity|]. split; [vm_compute; reflexivity|].
    split; vm_compute; eauto. }
  assert (Ha : Forall (fun report => Behaviour.ascii_record report = true)
                 [Sample.june_2024])
    by (constructor; [vm_compute; reflexivity|constructor]).
  destruct (serverless_handler_answers_from_selected_record Sample.exception_text
              (fun _ => Ok PyNone) Sample.june_2024_source "INCOME_STATEMENT" "MSFT"
              2024 4 [Sample.june_2024] (dict []) eq_refl Hs Hq Hu Ha Hp) as [H _].
  rewrite (H eq_refl). vm_compute. reflexivity.
Defined.

(** A metric field is read as the [int] 0 or as a [float]. *)
Lemma metric_value_cases (field : pyval) (n : num) :
  metric_value field = Ok n -> n = NInt 0 \/ exists f, n = NFloat f.
Proof.
  unfold metric_value. destruct (truthy field && negb (eq_str field "None")).
  - destruct (py_float field); [|discriminate]. intros [= <-]. eauto.
  - intros [= <-]. auto.
Qed.

Lemma SFsub_zero (x : spec_float) : SFsub prec emax x fzero = x.
Proof. destruct x as [[]|[]| |]; reflexivity. Qed.

(** X20: when the capitalExpenditures field of a record is absent or
    holds the literal "None", the free cash flow reported is the
    operating cash flow reported, and the capital expenditures reported
    are 0.0. *)
Theorem free_cash_flow_without_capital_expenditures
    (m : gmap string pyval) (cf : cash_flow) :
  Spec.absent_or_none (m !! "capitalExpenditures") ->
  extract_free_cash_flow (PyDict m) = Ok cf ->
  free_cash_flow_usd_millions cf = operating_cash_flow_usd_millions cf /\
  capital_expenditures_usd_millions cf = fzero.
Proof.
  intros Hc. unfold extract_free_cash_flow. cbn [py_get mbind res_bind].
  destruct (metric_value (default (PyStr "0") (m !! "operatingCashflow")))
    as [op|e] eqn:Hop; [|discriminate]. cbn [mbind res_bind].
  assert (Hcapex : metric_value (default (PyStr "0") (m !! "capitalExpenditures"))
                   = Ok (NInt 0) \/
                   metric_value (default (PyStr "0") (m !! "capitalExpenditures"))
                   = Ok (NFloat fzero))
    by (destruct Hc as [-> | ->]; [right|left]; vm_compute; reflexivity).
  apply metric_value_cases in Hop as [-> | [x ->]]; destruct Hcapex as [-> | ->].
  - vm_compute. intros [= <-]. split; reflexivity.
  - vm_compute. intros [= <-]. split; reflexivity.
  - cbn [mbind res_bind py_abs py_sub to_float]. change (Z.abs 0) with 0.
    change (float_of_int 0) with (Ok fzero : res spec_float).
    cbn [mbind res_bind]. rewrite SFsub_zero.
    destruct (py_truediv (NFloat x) 1000000) as [q|e]; [|discriminate].
    cbn [mbind res_bind].
    change (py_truediv (NInt 0) 1000000) with (Ok fzero : res spec_float).
    cbn [mbind res_bind]. intros [= <-]. split; reflexivity.
  - cbn [mbind res_bind py_abs py_sub to_float].
    change (SFabs fzero) with fzero. rewrite SFsub_zero.
    destruct (py_truediv (NFloat x) 1000000) as [q|e]; [|discriminate].
    cbn [mbind res_bind].
    change (py_truediv (NFloat fzero) 1000000) with (Ok fzero : res spec_float).
    cbn [mbind res_bind]. intros [= <-]. split; reflexivity.
Qed.

Lemma free_cash_flow_without_capital_expenditures_witness :
  exists cf,
    extract_free_cash_flow Sample.no_capex_report = Ok cf /\
    free_cash_flow_usd_millions cf = operating_cash_flow_usd_millions cf /\
    capital_expenditures_usd_millions cf = fzero.
Proof.
  eexists. split; [vm_compute; reflexivity|].
  apply (free_cash_flow_without_capital_expenditures
           (list_to_map [("fiscalDateEnding", PyStr "2024-06-30");
                         ("operatingCashflow", PyStr "500000000")])).
  - left. vm_compute. reflexivity.
  - vm_compute. reflexivity.
Defined.
